(** * HealthmateUI chat client: streaming consumer, transcript and session identity

    A shallow embedding of the browser-side chat code
    ([static/js/chat.js], [static/js/modules/*.js] and the streaming
    manager module) together with the properties its specification
    states about it.

    JavaScript strings are sequences of UTF-16 code units and are kept
    as [list N]; the DOM of the chat area is an explicit store of the
    elements the managers hold references to; exceptions are explicit
    completions of a small state monad whose state survives a throw. *)

From Stdlib Require Import ZArith NArith String Ascii DecimalString Lia.
From stdpp Require Import base option list gmap.

Set Warnings "-register-all".
Local Open Scope Z_scope.

(** ** JavaScript strings *)

Abbreviation jsstring := (list N).

(** An ASCII literal of the source as code units. *)
Definition js (s : string) : jsstring :=
  (fun a => N_of_ascii a) <$> list_ascii_of_string s.

(** [Number.prototype.toString()] of an integer. *)
Definition Z_toString (z : Z) : jsstring :=
  js (NilZero.string_of_int (Z.to_int z)).

(** [s.startsWith(p)] *)
Fixpoint startsWith (s p : jsstring) : bool :=
  match p, s with
  | [], _ => true
  | _ :: _, [] => false
  | b :: p', a :: s' => if N.eqb a b then startsWith s' p' else false
  end.

(** [s.substring(from, to)] for [from <= to] (indices beyond the end are
    clipped). *)
Definition substring (from to : nat) (s : jsstring) : jsstring :=
  take (to - from)%nat (drop from s).

(** [s.slice(from)] for a non-negative [from]. *)
Definition slice (from : nat) (s : jsstring) : jsstring := drop from s.

(** [s.split('\n')]: never empty; a string without a line feed is its only
    segment. *)
Fixpoint split_lf (s : jsstring) : list jsstring :=
  match s with
  | [] => [[]]
  | c :: s' =>
      if N.eqb c 10 then [] :: split_lf s'
      else match split_lf s' with
           | [] => [[c]]
           | seg :: segs => (c :: seg) :: segs
           end
  end.

(** ECMAScript WhiteSpace and LineTerminator code units, the ones
    [String.prototype.trim] strips. *)
Definition isWhiteSpace (c : N) : bool :=
  (N.leb 9 c && N.leb c 13) || N.eqb c 32 || N.eqb c 160 || N.eqb c 5760
  || (N.leb 8192 c && N.leb c 8202) || N.eqb c 8232 || N.eqb c 8233
  || N.eqb c 8239 || N.eqb c 8287 || N.eqb c 12288 || N.eqb c 65279.

Fixpoint trimStart (s : jsstring) : jsstring :=
  match s with
  | c :: s' => if isWhiteSpace c then trimStart s' else s
  | [] => []
  end.

Definition trim (s : jsstring) : jsstring :=
  rev (trimStart (rev (trimStart s))).

(** ** JavaScript values, as [JSON.parse] produces them

    A Number is kept as the text [Number.prototype.toString()] gives for
    it ([0], [-12.5], [1e+21], ...): that text identifies the Number up
    to the sign of zero, and printing a number and testing it for
    truthiness are all the code does with one. [JUndefined] is the value
    of a property that is absent. The members of an object are an
    association list in which the first entry of a key is the property. *)

Inductive JSValue : Type :=
| JUndefined
| JNull
| JBool (b : bool)
| JNum (rendering : jsstring)
| JStr (s : jsstring)
| JArr (items : list JSValue)
| JObj (fields : list (jsstring * JSValue)).

Inductive ErrorKind :=
  TypeError | SyntaxError | URIError | NotFoundError | NetworkError | PlainError.

(** A thrown [Error] object: its class and its [message]. *)
Record JSError := mkError { errKind : ErrorKind; errMessage : jsstring }.

Fixpoint assoc (k : jsstring) (fields : list (jsstring * JSValue)) : option JSValue :=
  match fields with
  | [] => None
  | (k', v) :: rest => if decide (k = k') then Some v else assoc k rest
  end.

(** Truthiness: of the numbers, zero (of either sign) and [NaN] are
    falsy. *)
Definition ToBoolean (v : JSValue) : bool :=
  match v with
  | JUndefined | JNull => false
  | JBool b => b
  | JNum r => negb (bool_decide (r = js "0") || bool_decide (r = js "NaN"))
  | JStr s => match s with [] => false | _ => true end
  | JArr _ | JObj _ => true
  end.

Definition notPrimitive : JSError :=
  mkError TypeError (js "Cannot convert object to primitive value").

(** String conversion, as [+] with a string and template literals apply
    it to a parsed value. An array is joined with commas, [null] and
    [undefined] items reading as the empty string. An object is asked for
    its [toString] and [valueOf]: a parsed object that has a member
    [toString] of its own hides the callable one of [Object.prototype],
    and since no member is callable and the inherited [valueOf] returns
    the object itself, the conversion throws; every other object reads
    [[object Object]]. *)
Fixpoint ToString (v : JSValue) : JSError + jsstring :=
  match v with
  | JUndefined => inr (js "undefined")
  | JNull => inr (js "null")
  | JBool true => inr (js "true")
  | JBool false => inr (js "false")
  | JNum r => inr r
  | JStr s => inr s
  | JArr items =>
      (fix join (l : list JSValue) : JSError + jsstring :=
         match l with
         | [] => inr []
         | x :: rest =>
             match match x with
                   | JUndefined | JNull => inr []
                   | _ => ToString x
                   end with
             | inl e => inl e
             | inr sx =>
                 match rest with
                 | [] => inr sx
                 | _ :: _ =>
                     match join rest with
                     | inl e => inl e
                     | inr srest => inr (sx ++ js "," ++ srest)
                     end
                 end
             end
         end) items
  | JObj fields =>
      match assoc (js "toString") fields with
      | Some _ => inl notPrimitive
      | None => inr (js "[object Object]")
      end
  end.

(** Property read [v.k] for a key that is not a built-in property of
    strings, arrays or [Object.prototype] (the code reads [event_type],
    [text] and [error] only). Reading a property of [null] or [undefined]
    throws. *)
Definition Get (v : JSValue) (k : jsstring) : JSError + JSValue :=
  match v with
  | JUndefined | JNull =>
      inl (mkError TypeError (js "Cannot read properties of null"))
  | JObj fields => inr (default JUndefined (assoc k fields))
  | _ => inr JUndefined
  end.

(** ** The chat area of the document

    [chatMessages] is the element both [MessageManager] and
    [StreamingManager] are constructed with. A child is a rendered message
    bubble (what [createMessageElement(content, sender)] builds, identified
    here by its sender and raw content), the placeholder of a response
    that is being streamed, or markup installed through [innerHTML].

    A placeholder is a mutable element the streaming manager keeps
    references to, so placeholders live in a store ([elements]) and the
    child list and the manager hold their addresses. The three
    sub-elements [#thinking-indicator], [#streaming-text] and
    [#typing-indicator] of one placeholder share its address. Markup that
    comes from the server is assumed not to reuse these three ids. *)

Inductive Sender := user | assistant | error.

Record StreamingEl := mkStreamingEl {
  thinkingHidden : bool;      (* #thinking-indicator has class hidden *)
  textHidden : bool;          (* #streaming-text has class hidden *)
  typingHidden : bool;        (* #typing-indicator has class hidden *)
  typingDisplayNone : bool;   (* #typing-indicator has style.display = none *)
  textContent : jsstring      (* #streaming-text textContent *)
}.

(** The template [startStreaming] assigns to [innerHTML]. *)
Definition streamingTemplate : StreamingEl :=
  mkStreamingEl false true true false [].

Inductive Node :=
| MessageEl (sender : Sender) (content : jsstring)
| StreamingResponseEl (ref : nat)
| LoadingIndicatorEl (message : jsstring)
| WelcomeMessageEl
| AuthenticationErrorEl
| ServerHtml (html : jsstring).

Record ChatMessages := mkChatMessages {
  elements : gmap nat StreamingEl;
  nextRef : nat;
  children : list Node;
  scrollTop : Z;
  clientHeight : Z
}.

(** The layout engine: the height of the rendered content, from which the
    DOM derives [scrollHeight]. *)
Class Layout := contentHeight : gmap nat StreamingEl -> list Node -> Z.

Section Dom.
Context `{Layout}.

(** [container.scrollHeight]: the content height, never below the height
    of the viewport. *)
Definition scrollHeight (c : ChatMessages) : Z :=
  Z.max (contentHeight (elements c) (children c)) (clientHeight c).

(** [container.scrollTop = v]: the DOM clamps the assigned offset to
    [0 .. scrollHeight - clientHeight]. *)
Definition set_scrollTop (v : Z) (c : ChatMessages) : ChatMessages :=
  mkChatMessages (elements c) (nextRef c) (children c)
    (Z.max 0 (Z.min v (scrollHeight c - clientHeight c))) (clientHeight c).

End Dom.

Definition set_children (l : list Node) (c : ChatMessages) : ChatMessages :=
  mkChatMessages (elements c) (nextRef c) l (scrollTop c) (clientHeight c).

Definition set_elements (h : gmap nat StreamingEl) (c : ChatMessages) : ChatMessages :=
  mkChatMessages h (nextRef c) (children c) (scrollTop c) (clientHeight c).

(** [parent.appendChild(node)] *)
Definition appendChild (n : Node) (c : ChatMessages) : ChatMessages :=
  set_children (children c ++ [n]) c.

(** [document.createElement('div')] followed by the assignment of the
    streaming template to its [innerHTML]. *)
Definition createStreamingEl (c : ChatMessages) : nat * ChatMessages :=
  (nextRef c,
   mkChatMessages (<[nextRef c := streamingTemplate]> (elements c))
     (S (nextRef c)) (children c) (scrollTop c) (clientHeight c)).

(** [document.getElementById] for one of the three placeholder ids: the
    first match in document order. *)
Fixpoint getElementById (l : list Node) : option nat :=
  match l with
  | [] => None
  | StreamingResponseEl r :: _ => Some r
  | _ :: rest => getElementById rest
  end.

(** [parent.replaceChild(new, old)] for a placeholder [old]: [None] when
    [old] is not a child (the DOM throws [NotFoundError]). *)
Fixpoint replaceChild (new : Node) (old : nat) (l : list Node) : option (list Node) :=
  match l with
  | [] => None
  | StreamingResponseEl r :: rest =>
      if decide (r = old) then Some (new :: rest)
      else (fun l' => StreamingResponseEl r :: l') <$> replaceChild new old rest
  | n :: rest => (fun l' => n :: l') <$> replaceChild new old rest
  end.

Definition textOf (c : ChatMessages) (r : nat) : jsstring :=
  default [] (textContent <$> elements c !! r).

Definition alterEl (f : StreamingEl -> StreamingEl) (r : nat) (c : ChatMessages) : ChatMessages :=
  set_elements (alter f r (elements c)) c.

(** ** The page: the objects [ChatInterface] wires together *)

(** The fields of a [StreamingManager]; [None] is [null]. *)
Record StreamingManager := mkStreamingManager {
  streamingResponse : option nat;
  streamingText : option nat;
  typingIndicator : option nat;
  thinkingIndicator : option nat;
  isStreaming : bool
}.

(** What the code reads and writes of the input controls
    ([messageInput.value], [messageInput.disabled], [sendButton.disabled]);
    style classes, the character counter and the textarea height are
    presentation and are left out. *)
Record UIManager := mkUIManager {
  inputValue : jsstring;
  inputDisabled : bool;
  sendDisabled : bool
}.

Record SessionManager := mkSessionManager {
  sessionId : option jsstring;
  isNewSessionJustCreated : bool
}.

Inductive Request :=
| PostChatSend (message : jsstring) (session_id : option jsstring)
| GetChatHistory (session_id : option jsstring)
| PostClearSession.

Inductive ConsoleLevel := console_log | console_warn | console_error.

Inductive Timer :=
| FocusInput (delay : Z)
| RetryLoadInitialHistory (delay : Z).

Record Page := mkPage {
  chatMessages : ChatMessages;
  streamingManager : StreamingManager;
  uiManager : UIManager;
  sessionManager : SessionManager;
  localStorage : gmap jsstring jsstring;
  requests : list Request;                 (* every fetch issued, oldest first *)
  console : list (ConsoleLevel * string);  (* level and leading label *)
  timers : list Timer;                     (* callbacks handed to setTimeout *)
  location : jsstring                      (* window.location.href *)
}.

Definition with_chatMessages (f : ChatMessages -> ChatMessages) (p : Page) : Page :=
  mkPage (f (chatMessages p)) (streamingManager p) (uiManager p) (sessionManager p)
    (localStorage p) (requests p) (console p) (timers p) (location p).

Definition with_streamingManager (f : StreamingManager -> StreamingManager) (p : Page) : Page :=
  mkPage (chatMessages p) (f (streamingManager p)) (uiManager p) (sessionManager p)
    (localStorage p) (requests p) (console p) (timers p) (location p).

Definition with_uiManager (f : UIManager -> UIManager) (p : Page) : Page :=
  mkPage (chatMessages p) (streamingManager p) (f (uiManager p)) (sessionManager p)
    (localStorage p) (requests p) (console p) (timers p) (location p).

Definition with_sessionManager (f : SessionManager -> SessionManager) (p : Page) : Page :=
  mkPage (chatMessages p) (streamingManager p) (uiManager p) (f (sessionManager p))
    (localStorage p) (requests p) (console p) (timers p) (location p).

Definition with_localStorage (f : gmap jsstring jsstring -> gmap jsstring jsstring) (p : Page) : Page :=
  mkPage (chatMessages p) (streamingManager p) (uiManager p) (sessionManager p)
    (f (localStorage p)) (requests p) (console p) (timers p) (location p).

Definition with_requests (f : list Request -> list Request) (p : Page) : Page :=
  mkPage (chatMessages p) (streamingManager p) (uiManager p) (sessionManager p)
    (localStorage p) (f (requests p)) (console p) (timers p) (location p).

Definition with_console (f : list (ConsoleLevel * string) -> list (ConsoleLevel * string)) (p : Page) : Page :=
  mkPage (chatMessages p) (streamingManager p) (uiManager p) (sessionManager p)
    (localStorage p) (requests p) (f (console p)) (timers p) (location p).

Definition with_location (f : jsstring -> jsstring) (p : Page) : Page :=
  mkPage (chatMessages p) (streamingManager p) (uiManager p) (sessionManager p)
    (localStorage p) (requests p) (console p) (timers p) (f (location p)).

Definition with_timers (f : list Timer -> list Timer) (p : Page) : Page :=
  mkPage (chatMessages p) (streamingManager p) (uiManager p) (sessionManager p)
    (localStorage p) (requests p) (console p) (f (timers p)) (location p).

(** ** Effects: page state with exceptions

    A computation returns normally with a value or throws; either way it
    leaves a page behind, since what was mutated before a throw stays
    mutated. *)

Inductive Completion (A : Type) :=
| Normal (a : A)
| Throw (e : JSError).
Arguments Normal {A} a.
Arguments Throw {A} e.

Definition Eff (A : Type) : Type := Page -> Completion A * Page.

#[global] Instance Eff_ret : MRet Eff := fun A a p => (Normal a, p).

#[global] Instance Eff_bind : MBind Eff := fun A B f m p =>
  match m p with
  | (Normal a, p') => f a p'
  | (Throw e, p') => (Throw e, p')
  end.

Definition throw {A} (e : JSError) : Eff A := fun p => (Throw e, p).

Definition get {A} (f : Page -> A) : Eff A := fun p => (Normal (f p), p).

Definition modify (f : Page -> Page) : Eff unit := fun p => (Normal tt, f p).

(** [try { body } catch (e) { handler e }] *)
Definition try_catch {A} (body : Eff A) (handler : JSError -> Eff A) : Eff A :=
  fun p =>
    match body p with
    | (Normal a, p') => (Normal a, p')
    | (Throw e, p') => handler e p'
    end.

(** [try { body } finally { fin }]: [fin] always runs; an exception of
    [fin] replaces the completion of [body]. *)
Definition try_finally {A} (body : Eff A) (fin : Eff unit) : Eff A :=
  fun p =>
    match body p with
    | (r, p') =>
        match fin p' with
        | (Normal _, p'') => (r, p'')
        | (Throw e, p'') => (Throw e, p'')
        end
    end.

(** The page a computation leaves behind. *)
Definition exec {A} (m : Eff A) (p : Page) : Page := snd (m p).

(** Whether a computation returns normally. *)
Definition returns {A} (m : Eff A) (p : Page) : bool :=
  match fst (m p) with Normal _ => true | Throw _ => false end.

Definition log (level : ConsoleLevel) (label : string) : Eff unit :=
  modify (with_console (fun l => l ++ [(level, label)])).

Definition setTimeout (t : Timer) : Eff unit :=
  modify (with_timers (fun l => l ++ [t])).

Definition liftE {A} (r : JSError + A) : Eff A :=
  match r with
  | inl e => throw e
  | inr a => mret a
  end.

Definition setStreamingRefs (resp text typing thinking : option nat) : Eff unit :=
  modify (with_streamingManager (fun m =>
    mkStreamingManager resp text typing thinking (isStreaming m))).

Definition setIsStreaming (b : bool) : Eff unit :=
  modify (with_streamingManager (fun m =>
    mkStreamingManager (streamingResponse m) (streamingText m)
      (typingIndicator m) (thinkingIndicator m) b)).

Section Managers.
Context `{Layout}.

(** ** MessageManager *)

(** [scrollToBottom() { this.chatMessages.scrollTop = this.chatMessages.scrollHeight; }] *)
Definition scrollToBottom : Eff unit :=
  modify (with_chatMessages (fun c => set_scrollTop (scrollHeight c) c)).

(** Smart scroll: only auto-scroll if the user is near the bottom. *)
Definition smartScrollToBottom : Eff unit :=
  container ← get chatMessages;
  let threshold := 70 in
  let isNearBottom :=
    scrollHeight container - scrollTop container - clientHeight container <=? threshold in
  if isNearBottom then scrollToBottom else mret tt.

Definition addUserMessage (content : jsstring) : Eff unit :=
  modify (with_chatMessages (appendChild (MessageEl user content)));;
  scrollToBottom.

Definition addAssistantMessage (content : jsstring) : Eff unit :=
  modify (with_chatMessages (appendChild (MessageEl assistant content)));;
  scrollToBottom.

Definition addErrorMessage (content : jsstring) : Eff unit :=
  modify (with_chatMessages (appendChild (MessageEl error content)));;
  scrollToBottom.

(** [this.chatMessages.innerHTML = ''] *)
Definition clearMessages : Eff unit :=
  modify (with_chatMessages (set_children [])).

Definition showLoadingIndicator (message : jsstring) : Eff unit :=
  modify (with_chatMessages (set_children [LoadingIndicatorEl message])).

(** The default argument of [showLoadingIndicator]. *)
Definition loadingHistoryMessage : jsstring :=
  [12481; 12515; 12483; 12488; 23653; 27508; 12434; 35501; 12415; 36796;
   12415; 20013; 46; 46; 46]%N.

Definition showWelcomeMessage : Eff unit :=
  modify (with_chatMessages (set_children [WelcomeMessageEl]));;
  scrollToBottom.

Definition showAuthenticationError : Eff unit :=
  modify (with_chatMessages (set_children [AuthenticationErrorEl])).

(** The children that markup of the server leaves when it is assigned
    to [innerHTML]: none for the empty string. *)
Definition markup (html : jsstring) : list Node :=
  match html with
  | [] => []
  | _ :: _ => [ServerHtml html]
  end.

Definition setContent (html : jsstring) : Eff unit :=
  modify (with_chatMessages (set_children (markup html)));;
  scrollToBottom.

(** ** StreamingManager

    The instance [ChatInterface] constructs: its [onError] is
    [MessageManager.addErrorMessage], and its [createMessageElement],
    [scrollToBottom] and [smartScrollToBottom] are the message manager's
    (whose bodies are the same as the streaming manager's own). *)

Definition startStreaming : Eff unit :=
  setIsStreaming true;;
  (* create the placeholder and add it to the chat area *)
  c ← get chatMessages;
  let '(r, c') := createStreamingEl c in
  modify (with_chatMessages (fun _ => appendChild (StreamingResponseEl r) c'));;
  (* references to the created elements, looked up by id *)
  l ← get (fun p => children (chatMessages p));
  setStreamingRefs (Some r) (getElementById l) (getElementById l) (getElementById l);;
  scrollToBottom.

Definition completeStreaming : Eff unit :=
  setIsStreaming false;;
  m ← get streamingManager;
  match typingIndicator m with
  | Some t => modify (with_chatMessages (alterEl (fun e =>
      mkStreamingEl (thinkingHidden e) (textHidden e) (typingHidden e) true
        (textContent e)) t))
  | None => mret tt
  end;;
  (* convert the streaming response to a permanent message *)
  c ← get chatMessages;
  let finalText := match streamingText m with
                   | Some t => textOf c t
                   | None => []
                   end in
  match finalText, streamingResponse m with
  | _ :: _, Some r =>
      let permanentMessage := MessageEl assistant finalText in
      match replaceChild permanentMessage r (children c) with
      | Some l => modify (with_chatMessages (set_children l))
      | None => throw (mkError NotFoundError (js "The node to be replaced is not a child of this node"))
      end
  | _, _ => mret tt
  end;;
  (* clean up references *)
  setStreamingRefs None None None None;;
  scrollToBottom.

(** The prefix of the message an [error] event is reported with. *)
Definition errorPrefix : jsstring := [12456; 12521; 12540; 58; 32]%N.

Definition nullDeref : JSError :=
  mkError TypeError (js "Cannot read properties of null").

(** The body of [case 'chunk':]. *)
Definition handleChunk (eventData : JSValue) : Eff unit :=
  text ← liftE (Get eventData (js "text"));
  if ToBoolean text then
    (* ensure streaming is started *)
    streaming ← get (fun p => isStreaming (streamingManager p));
    (if negb streaming then startStreaming else mret tt);;
    (* hide the thinking indicator and show the text on the first chunk *)
    m ← get streamingManager;
    c ← get chatMessages;
    match thinkingIndicator m with
    | Some th =>
        if negb (default false (thinkingHidden <$> elements c !! th)) then
          modify (with_chatMessages (alterEl (fun e =>
            mkStreamingEl true (textHidden e) (typingHidden e)
              (typingDisplayNone e) (textContent e)) th));;
          match streamingText m with
          | Some st => modify (with_chatMessages (alterEl (fun e =>
              mkStreamingEl (thinkingHidden e) false (typingHidden e)
                (typingDisplayNone e) (textContent e)) st))
          | None => throw nullDeref
          end;;
          match typingIndicator m with
          | Some ty => modify (with_chatMessages (alterEl (fun e =>
              mkStreamingEl (thinkingHidden e) (textHidden e) false
                (typingDisplayNone e) (textContent e)) ty))
          | None => throw nullDeref
          end
        else mret tt
    | None => mret tt
    end;;
    (* this.streamingText.textContent += text *)
    match streamingText m with
    | Some st =>
        appended ← liftE (ToString text);
        modify (with_chatMessages (alterEl (fun e =>
          mkStreamingEl (thinkingHidden e) (textHidden e) (typingHidden e)
            (typingDisplayNone e) (textContent e ++ appended)) st))
    | None => throw nullDeref
    end;;
    smartScrollToBottom
  else mret tt.

Definition handleStreamingEvent (eventData : JSValue) : Eff unit :=
  event_type ← liftE (Get eventData (js "event_type"));
  match event_type with
  | JStr t =>
      if decide (t = js "connected") then mret tt
      else if decide (t = js "user_message") then mret tt
      else if decide (t = js "ai_thinking") then mret tt
      else if decide (t = js "chunk") then handleChunk eventData
      else if decide (t = js "ai_message_complete") then mret tt
      else if decide (t = js "complete") then completeStreaming
      else if decide (t = js "error") then
        log console_error "Streaming error:";;
        err ← liftE (Get eventData (js "error"));
        report ← liftE (ToString err);
        addErrorMessage (errorPrefix ++ report);;
        completeStreaming
      else if decide (t = js "disconnected") then mret tt
      else log console_warn "Unknown streaming event type:"
  | _ => log console_warn "Unknown streaming event type:"
  end.

Definition getIsStreaming : Eff bool :=
  get (fun p => isStreaming (streamingManager p)).

End Managers.

(** ** UIManager *)

(** [getCurrentMessage() { return this.messageInput.value.trim(); }] *)
Definition getCurrentMessage : Eff jsstring :=
  get (fun p => trim (inputValue (uiManager p))).

Definition setInputDisabled (disabled : bool) : Eff unit :=
  modify (with_uiManager (fun u => mkUIManager (inputValue u) disabled disabled));;
  if disabled then mret tt
  else setTimeout (FocusInput 100).   (* restore focus after enabling *)

Definition clearInputAndMaintainFocus : Eff unit :=
  modify (with_uiManager (fun u => mkUIManager [] (inputDisabled u) (sendDisabled u)));;
  setTimeout (FocusInput 50).

(** ** TextDecoder

    [new TextDecoder()] is the UTF-8 decoder of the Encoding standard.
    Called with [{ stream: true }] it keeps the bytes of an unfinished
    sequence, and whether a byte order mark was looked for, between
    calls. *)

Record TextDecoder := mkTextDecoder {
  codePoint : N;
  bytesSeen : nat;
  bytesNeeded : nat;
  lowerBoundary : N;
  upperBoundary : N;
  bomSeen : bool
}.

Definition newTextDecoder : TextDecoder := mkTextDecoder 0 0 0 128 191 false.

Definition resetSequence (d : TextDecoder) : TextDecoder :=
  mkTextDecoder 0 0 0 128 191 (bomSeen d).

(** A byte met while no sequence is open; the decoder's code points come
    second. *)
Definition utf8Lead (d : TextDecoder) (b : N) : TextDecoder * list N :=
  if N.leb b 127 then (d, [b])
  else if N.leb 194 b && N.leb b 223 then
    (mkTextDecoder (N.land b 31) 0 1 128 191 (bomSeen d), [])
  else if N.leb 224 b && N.leb b 239 then
    (mkTextDecoder (N.land b 15) 0 2
       (if N.eqb b 224 then 160 else 128) (if N.eqb b 237 then 159 else 191)
       (bomSeen d), [])
  else if N.leb 240 b && N.leb b 244 then
    (mkTextDecoder (N.land b 7) 0 3
       (if N.eqb b 240 then 144 else 128) (if N.eqb b 244 then 143 else 191)
       (bomSeen d), [])
  else (d, [65533%N]).

Definition utf8Byte (d : TextDecoder) (b : N) : TextDecoder * list N :=
  match bytesNeeded d with
  | O => utf8Lead d b
  | S _ =>
      if negb (N.leb (lowerBoundary d) b && N.leb b (upperBoundary d)) then
        (* malformed: a replacement character, and the byte is read again
           as the start of a sequence *)
        let '(d', out) := utf8Lead (resetSequence d) b in
        (d', 65533 :: out)
      else
        let cp := N.lor (N.shiftl (codePoint d) 6) (N.land b 63) in
        if decide (S (bytesSeen d) = bytesNeeded d) then
          (resetSequence d, [cp])
        else
          (mkTextDecoder cp (S (bytesSeen d)) (bytesNeeded d) 128 191 (bomSeen d), [])
  end%N.

(** A code point as UTF-16 code units. *)
Definition utf16 (cp : N) : jsstring :=
  if N.ltb cp 65536 then [cp]
  else [55296 + N.shiftr (cp - 65536) 10; 56320 + N.land (cp - 65536) 1023]%N.

(** The first code point of the stream is dropped when it is a byte order
    mark. *)
Definition emit (d : TextDecoder) (cps : list N) : TextDecoder * jsstring :=
  match cps with
  | [] => (d, [])
  | cp :: rest =>
      let d' := mkTextDecoder (codePoint d) (bytesSeen d) (bytesNeeded d)
                  (lowerBoundary d) (upperBoundary d) true in
      let cps' := if negb (bomSeen d) && N.eqb cp 65279 then rest else cps in
      (d', cps' ≫= utf16)
  end.

(** [decoder.decode(value, { stream: true })] *)
Fixpoint decode (d : TextDecoder) (value : list Byte.byte) : TextDecoder * jsstring :=
  match value with
  | [] => (d, [])
  | b :: rest =>
      let '(d1, cps) := utf8Byte d (Byte.to_N b) in
      let '(d2, s) := emit d1 cps in
      let '(d3, s') := decode d2 rest in
      (d3, s ++ s')
  end.

(** [response.text()]: the whole body decoded at once, an unfinished
    trailing sequence becoming a replacement character. *)
Definition decodeAll (value : list Byte.byte) : jsstring :=
  let '(d, s) := decode newTextDecoder value in
  match bytesNeeded d with
  | O => s
  | S _ => s ++ [65533%N]
  end.

(** ** The network, as the page sees it *)

Record Response := mkResponse {
  status : Z;
  statusText : jsstring;
  body : list (list Byte.byte);    (* the chunks [reader.read()] delivers *)
  bodyError : option JSError       (* a read that rejects after them *)
}.

(** [response.ok] *)
Definition ok (r : Response) : bool := (200 <=? status r) && (status r <=? 299).

(** The statuses whose responses have no body (Fetch: null body status). *)
Definition nullBodyStatus (s : Z) : bool :=
  (s =? 101) || (s =? 103) || (s =? 204) || (s =? 205) || (s =? 304).

(** [response.body]: [None] is [null]. *)
Definition responseBody (r : Response) : option (list (list Byte.byte)) :=
  if nullBodyStatus (status r) then None else Some (body r).

Inductive FetchOutcome :=
| FetchRejects (e : JSError)
| FetchResolves (r : Response).

(** [await fetch(...)]: the request is issued, then the promise settles. *)
Definition fetch (req : Request) (net : FetchOutcome) : Eff Response :=
  modify (with_requests (fun l => l ++ [req]));;
  match net with
  | FetchRejects e => throw e
  | FetchResolves r => mret r
  end.

(** The text of a body that is read to its end: the empty string for a
    response without body. *)
Definition bodyText (r : Response) : jsstring :=
  match responseBody r with
  | Some values => decodeAll (concat values)
  | None => []
  end.

(** [await response.text()] *)
Definition responseText (r : Response) : Eff jsstring :=
  match responseBody r, bodyError r with
  | Some _, Some e => throw e
  | _, _ => mret (bodyText r)
  end.

(** [JSON.parse], a function of the platform: a value, or the
    [SyntaxError] it throws. *)
Class JSON := JSON_parse : jsstring -> JSError + JSValue.

(** ** ChatInterface: the send path and its stream decode loop *)

(** What the loop keeps between two reads: the decoder and [buffer]. *)
Definition LoopState : Type := TextDecoder * jsstring.

Definition initialLoopState : LoopState := (newTextDecoder, []).

(** One turn of the loop body up to the [for]: decode the chunk, add it to
    the buffer, split, keep the last segment as the new buffer and hand
    over the complete lines. *)
Definition readChunk (st : LoopState) (value : list Byte.byte) : LoopState * list jsstring :=
  let '(decoder, buffer) := st in
  let '(decoder', chunk) := decode decoder value in
  let buffer := buffer ++ chunk in
  let lines := split_lf buffer in
  ((decoder', List.last lines []), removelast lines).

(** The complete lines of all the turns the given chunks cause. *)
Fixpoint readChunks (st : LoopState) (values : list (list Byte.byte)) : LoopState * list jsstring :=
  match values with
  | [] => (st, [])
  | value :: rest =>
      let '(st1, lines) := readChunk st value in
      let '(st2, lines') := readChunks st1 rest in
      (st2, lines ++ lines')
  end.

Definition dataPrefix : jsstring := js "data: ".

(** [SessionManager.getCurrentSessionId() { return this.sessionId; }] *)
Definition getCurrentSessionId : Eff (option jsstring) :=
  get (fun p => sessionId (sessionManager p)).

Section Chat.
Context `{Layout} `{JSON}.

(** The event a line hands to [handleStreamingEvent], if any. *)
Definition lineEvent (line : jsstring) : option JSValue :=
  if startsWith line dataPrefix then
    match JSON_parse (slice 6 line) with
    | inr eventData => Some eventData
    | inl _ => None
    end
  else None.

(** The events handed to [handleStreamingEvent], in order, when the
    response body arrives as the given chunks. *)
Definition deliveredEvents (values : list (list Byte.byte)) : list JSValue :=
  omap lineEvent (snd (readChunks initialLoopState values)).

(** The body of [for (const line of lines)]. *)
Definition processLine (line : jsstring) : Eff unit :=
  if startsWith line dataPrefix then
    try_catch
      (eventData ← liftE (JSON_parse (slice 6 line));
       handleStreamingEvent eventData)
      (fun e => log console_error "Error parsing SSE data:")
  else mret tt.

Fixpoint processLines (lines : list jsstring) : Eff unit :=
  match lines with
  | [] => mret tt
  | line :: rest => processLine line;; processLines rest
  end.

(** [while (true) { const { done, value } = await reader.read(); ... }]
    over a body that delivers [values] and then ends, or fails with
    [bodyError]. *)
Fixpoint readLoop (st : LoopState) (values : list (list Byte.byte))
    (bodyError : option JSError) : Eff unit :=
  match values with
  | [] =>
      match bodyError with
      | None => mret tt      (* done *)
      | Some e => throw e
      end
  | value :: rest =>
      let '(st', lines) := readChunk st value in
      processLines lines;;
      readLoop st' rest bodyError
  end.

(** The prefix of the message a failed send is reported with. *)
Definition sendErrorPrefix : jsstring :=
  [12513; 12483; 12475; 12540; 12472; 36865; 20449; 12456; 12521; 12540; 58; 32]%N.

(** The [try] block of [handleFormSubmit]. *)
Definition submitTry (messageText : jsstring) (net : FetchOutcome) : Eff unit :=
  current ← getCurrentSessionId;
  (* if (sessionId) formData.append('session_id', sessionId) *)
  let session_id := match (current : option jsstring) with
                    | Some (c :: s) => Some (c :: s)
                    | _ => None
                    end in
  response ← fetch (PostChatSend messageText session_id) net;
  if negb (ok response) then
    throw (mkError PlainError
      (js "HTTP " ++ Z_toString (status response) ++ js ": "
         ++ statusText response))
  else
    (* const reader = response.body.getReader() *)
    match responseBody response with
    | None => throw nullDeref
    | Some values =>
        (* start the streaming display, then process the events *)
        startStreaming;;
        readLoop initialLoopState values (bodyError response)
    end.

(** Its [catch (error)] block. *)
Definition submitCatch (error : JSError) : Eff unit :=
  log console_error "Message sending error:";;
  addErrorMessage (sendErrorPrefix ++ errMessage error).

(** Its [finally] block. *)
Definition submitFinally : Eff unit :=
  (* re-enable input *)
  setInputDisabled false;;
  streaming ← getIsStreaming;
  if (streaming : bool) then completeStreaming else mret tt.

Definition handleFormSubmit (net : FetchOutcome) : Eff unit :=
  messageText ← getCurrentMessage;
  match messageText with
  | [] => mret tt
  | _ :: _ =>
      (* disable input during submission *)
      setInputDisabled true;;
      (* add the user message to the chat display *)
      addUserMessage messageText;;
      clearInputAndMaintainFocus;;
      try_finally (try_catch (submitTry messageText net) submitCatch) submitFinally
  end.

End Chat.

(** ** SessionManager *)

Definition storageKey : jsstring := js "healthmate_chat_session_id".

(** [while (sessionId.length < 33) sessionId += Math.random().toString(36).substring(2, 3);]
    where [random36 k] is what the [k]-th call of
    [Math.random().toString(36)] gives, a text of digits, lower-case
    letters and a point. A draw may add nothing (the text of the number 0
    has no third character), so the loop is bounded by fuel; [None] is
    fuel running out. *)
Fixpoint padSessionId (fuel : nat) (random36 : nat -> string) (k : nat)
    (sessionId : jsstring) : option jsstring :=
  if (length sessionId <? 33)%nat then
    match fuel with
    | O => None
    | S fuel' =>
        padSessionId fuel' random36 (S k) (sessionId ++ substring 2 3 (js (random36 k)))
    end
  else Some sessionId.

(** The id [getOrCreateSessionId] generates before padding, at time [now]
    (the value of [Date.now()]). *)
Definition freshSessionId (now : Z) (random36 : nat -> string) : jsstring :=
  let timestamp := Z_toString now in
  let randomPart1 := substring 2 17 (js (random36 0%nat)) in
  let randomPart2 := substring 2 17 (js (random36 1%nat)) in
  js "healthmate-chat-" ++ timestamp ++ js "-" ++ randomPart1 ++ js "-" ++ randomPart2.

Definition getOrCreateSessionId (fuel : nat) (now : Z) (random36 : nat -> string)
    (p : Page) : option (jsstring * Page) :=
  match localStorage p !! storageKey with
  | Some (c :: s) => Some (c :: s, p)
  | _ =>
      (* if (!sessionId): nothing stored, or the empty string *)
      sessionId ← padSessionId fuel random36 2 (freshSessionId now random36);
      (* store in localStorage to share across tabs *)
      Some (sessionId, with_localStorage (insert storageKey sessionId) p)
  end.

Definition initialize (fuel : nat) (now : Z) (random36 : nat -> string)
    (p : Page) : option (jsstring * Page) :=
  '(id, p') ← getOrCreateSessionId fuel now random36 p;
  Some (id,
        exec (log console_log "Initialized session ID:")
          (with_sessionManager (fun m =>
             mkSessionManager (Some id) (isNewSessionJustCreated m)) p')).

Definition resetChatSession (net : FetchOutcome) : Eff unit :=
  (* clear the session id to start a new conversation *)
  modify (with_localStorage (delete storageKey));;
  (* notify the server to clear the current session *)
  try_catch
    (fetch PostClearSession net;; mret tt)
    (fun error => log console_warn "Failed to clear session on server:").

Definition startNewSession (fuel : nat) (now : Z) (random36 : nat -> string)
    (net : FetchOutcome) (p : Page) : option (Completion jsstring * Page) :=
  match resetChatSession net p with
  | (Throw e, p1) => Some (Throw e, p1)
  | (Normal _, p1) =>
      '(id, p2) ← getOrCreateSessionId fuel now random36 p1;
      Some (Normal id,
            with_sessionManager (fun _ => mkSessionManager (Some id) true) p2)
  end.

Definition isNewSession : Eff bool :=
  get (fun p => isNewSessionJustCreated (sessionManager p)).

Definition clearNewSessionFlag : Eff unit :=
  modify (with_sessionManager (fun m => mkSessionManager (sessionId m) false)).

(** ** HistoryManager *)

(** The characters [encodeURIComponent] leaves as they are: letters,
    digits and [-_.!~*'()]. *)
Definition isUnescaped (c : N) : bool :=
  (N.leb 48 c && N.leb c 57) || (N.leb 65 c && N.leb c 90) || (N.leb 97 c && N.leb c 122)
  || N.eqb c 45 || N.eqb c 95 || N.eqb c 46 || N.eqb c 33 || N.eqb c 126
  || N.eqb c 42 || N.eqb c 39 || N.eqb c 40 || N.eqb c 41.

Definition hexDigit (n : N) : N := (if N.ltb n 10 then 48 + n else 55 + n)%N.

(** An octet as [%XX]. *)
Definition percentEncode (octet : N) : jsstring :=
  [37; hexDigit (N.div octet 16); hexDigit (N.modulo octet 16)]%N.

(** The UTF-8 octets of a code point. *)
Definition utf8Encode (cp : N) : list N :=
  (if N.ltb cp 128 then [cp]
   else if N.ltb cp 2048 then [192 + cp / 64; 128 + cp mod 64]
   else if N.ltb cp 65536 then [224 + cp / 4096; 128 + (cp / 64) mod 64; 128 + cp mod 64]
   else [240 + cp / 262144; 128 + (cp / 4096) mod 64; 128 + (cp / 64) mod 64;
         128 + cp mod 64])%N.

Definition isLeadSurrogate (c : N) : bool := N.leb 55296 c && N.leb c 56319.
Definition isTrailSurrogate (c : N) : bool := N.leb 56320 c && N.leb c 57343.

Definition malformedURI : JSError := mkError URIError (js "URI malformed").

(** [encodeURIComponent(s)]: every code point outside the unescaped set
    becomes the percent-encoded octets of its UTF-8 form; a surrogate
    that is not part of a pair makes the function throw [URIError]. *)
Fixpoint encodeURIComponent (s : jsstring) : JSError + jsstring :=
  match s with
  | [] => inr []
  | c :: rest =>
      if isUnescaped c then
        match encodeURIComponent rest with
        | inr out => inr (c :: out)
        | inl e => inl e
        end
      else if isLeadSurrogate c then
        match rest with
        | d :: rest' =>
            if isTrailSurrogate d then
              let cp := (65536 + (c - 55296) * 1024 + (d - 56320))%N in
              match encodeURIComponent rest' with
              | inr out => inr ((utf8Encode cp ≫= percentEncode) ++ out)
              | inl e => inl e
              end
            else inl malformedURI
        | [] => inl malformedURI
        end
      else if isTrailSurrogate c then inl malformedURI
      else
        match encodeURIComponent rest with
        | inr out => inr ((utf8Encode c ≫= percentEncode) ++ out)
        | inl e => inl e
        end
  end.

(** [s.isWellFormed()]: no surrogate stands outside a pair. *)
Fixpoint isWellFormed (s : jsstring) : bool :=
  match s with
  | [] => true
  | c :: rest =>
      if isLeadSurrogate c then
        match rest with
        | d :: rest' => isTrailSurrogate d && isWellFormed rest'
        | [] => false
        end
      else negb (isTrailSurrogate c) && isWellFormed rest
  end.

(** [`/api/chat/history?session_id=${encodeURIComponent(sessionId)}`]: the
    URL of the history request for a session id, [None] being [null]. A
    history request is logged with the session id its URL was built
    from. *)
Definition historyUrl (sessionId : option jsstring) : JSError + jsstring :=
  match encodeURIComponent (default (js "null") sessionId) with
  | inr encoded => inr (js "/api/chat/history?session_id=" ++ encoded)
  | inl e => inl e
  end.

Section History.
Context `{Layout}.

Definition httpError (r : Response) : JSError :=
  mkError PlainError
    (js "HTTP " ++ Z_toString (status r) ++ js ": " ++ statusText r).

(** [HistoryManager.showWelcomeMessage] *)
Definition showWelcomeMessage_history (net : FetchOutcome) : Eff unit :=
  sessionId ← getCurrentSessionId;
  log console_log "Showing welcome message for session:";;
  clearMessages;;
  (* try to load the empty history from the server first *)
  emptyHistoryUrl ← liftE (historyUrl sessionId);
  log console_log "Attempting to load empty history from server...";;
  try_catch
    (response ← fetch (GetChatHistory sessionId) net;
     if ok response then
       html ← responseText response;
       setContent html;;
       log console_log "Empty history loaded from server"
     else if status response =? 401 then
       log console_log "Authentication error, redirecting to login";;
       modify (with_location (fun _ => js "/login"))
     else throw (httpError response))
    (fun error =>
       log console_error "Failed to load empty history from server:";;
       (* fall back to the client-side welcome message *)
       showWelcomeMessage).

(** [loadInitialHistory]; [net] answers its history request and
    [netWelcome] the one of the welcome fallback. The fallback is started
    without [await], so a failure of it is not this function's; it is run
    here to the point where it has settled. *)
Definition loadInitialHistory (net netWelcome : FetchOutcome) : Eff unit :=
  (* skip loading if this is a new session created in this page load *)
  isNew ← isNewSession;
  if (isNew : bool) then mret tt
  else
    sessionId ← getCurrentSessionId;
    match (sessionId : option jsstring) with
    | Some (c :: s) =>
        (* load the initial chat history using fetch with the session id *)
        url ← liftE (historyUrl (Some (c :: s)));
        showLoadingIndicator loadingHistoryMessage;;
        try_catch
          (response ← fetch (GetChatHistory (Some (c :: s))) net;
           if ok response then
             html ← responseText response;
             setContent html
           else if status response =? 401 then
             log console_error "Authentication failed - user not logged in or session expired";;
             showAuthenticationError
           else
             errorText ← responseText response;
             log console_error "HTTP error response:";;
             throw (httpError response))
          (fun error =>
             log console_error "Failed to load initial chat history:";;
             try_catch (showWelcomeMessage_history netWelcome) (fun _ => mret tt))
    | _ =>
        (* wait for the session id to be initialized *)
        log console_log "Waiting for session ID to be initialized...";;
        setTimeout (RetryLoadInitialHistory 500)
    end.

End History.

(** ** Concrete surroundings for running the code

    A layout engine and a [JSON.parse] to evaluate the definitions on
    concrete pages and response bodies. *)

(** Every child of the chat area is 60 pixels high, and a placeholder
    grows by 20 pixels for every 40 code units of streamed text. *)
#[local] Instance rowLayout : Layout := fun h l =>
  fold_right (fun n acc =>
    match n with
    | StreamingResponseEl r =>
        60 + 20 * Z.of_nat (length (default [] (textContent <$> h !! r)) / 40) + acc
    | _ => 60 + acc
    end) 0 l.

Definition syntaxError : JSError := mkError SyntaxError (js "Unexpected token").

(** The text of a string literal up to its closing quote, and what follows
    it; escapes are not supported. *)
Fixpoint readString (s : jsstring) : option (jsstring * jsstring) :=
  match s with
  | [] => None
  | c :: rest =>
      if N.eqb c 34 then Some ([], rest)
      else if N.eqb c 92 then None
      else '(str, rest') ← readString rest; Some (c :: str, rest')
  end.

(** The members ["key":"value"] of an object up to its closing brace; a
    later member comes first, so that it wins when a key is repeated. *)
Fixpoint readMembers (fuel : nat) (s : jsstring) : option (list (jsstring * JSValue)) :=
  match fuel with
  | O => None
  | S fuel' =>
      match s with
      | 34%N :: s1 =>
          '(k, s2) ← readString s1;
          match s2 with
          | 58%N :: 34%N :: s3 =>
              '(v, s4) ← readString s3;
              match s4 with
              | [125%N] => Some [(k, JStr v)]
              | 44%N :: s5 =>
                  members ← readMembers fuel' s5;
                  Some (members ++ [(k, JStr v)])
              | _ => None
              end
          | _ => None
          end
      | _ => None
      end
  end.

(** [JSON.parse] on the texts [null], [{}] and objects whose members are
    plain strings, written without white space or escapes; every other
    text is rejected, also where the platform's parser accepts it. *)
#[local] Instance flatJSON : JSON := fun s =>
  if decide (s = js "null") then inr JNull
  else match s with
       | [123%N; 125%N] => inr (JObj [])
       | 123%N :: members =>
           match readMembers (length s) members with
           | Some fields => inr (JObj fields)
           | None => inl syntaxError
           end
       | _ => inl syntaxError
       end.

(** ASCII text as the bytes of a response body. *)
Definition bytes (s : string) : list Byte.byte := list_byte_of_string s.

Definition emptyChat : ChatMessages := mkChatMessages ∅ 0 [] 0 400.

(** A page right after [ChatInterface] is constructed, with the given text
    typed into the input and the given session. *)
Definition freshPage (input : jsstring) (session : option jsstring) : Page :=
  mkPage emptyChat (mkStreamingManager None None None None false)
    (mkUIManager input false false) (mkSessionManager session false)
    ∅ [] [] [] (js "/chat").

Definition chunkEvent (text : string) : JSValue :=
  JObj [(js "event_type", JStr (js "chunk")); (js "text", JStr (js text))].

Definition completeEvent : JSValue :=
  JObj [(js "event_type", JStr (js "complete"))].

Definition errorEvent (message : string) : JSValue :=
  JObj [(js "event_type", JStr (js "error")); (js "error", JStr (js message))].

(** A payload written with apostrophes for its double quotes, as bytes. *)
Definition payload (s : string) : list Byte.byte :=
  (fun b => match b with Byte.x27 => Byte.x22 | _ => b end) <$> bytes s.

(** One event line of the stream: the prefix, the payload, a line feed. *)
Definition sseLine (s : string) : list Byte.byte :=
  bytes "data: " ++ payload s ++ [Byte.x0a].

(** ** The transcript the chat area shows

    The spec's view of the chat area: committed messages, pending entries
    with the text accumulated so far, and other markup. *)

Inductive Entry :=
| Committed (role : Sender) (content : jsstring)
| Pending (text : jsstring)
| Markup (n : Node).

Definition entryOf (c : ChatMessages) (n : Node) : Entry :=
  match n with
  | MessageEl role content => Committed role content
  | StreamingResponseEl r => Pending (textOf c r)
  | _ => Markup n
  end.

Definition transcript (p : Page) : list Entry :=
  entryOf (chatMessages p) <$> children (chatMessages p).

Definition isCommitted (e : Entry) : bool :=
  match e with Committed _ _ => true | _ => false end.

(** The committed messages of a transcript, in order. *)
Definition committed (l : list Entry) : list Entry := List.filter isCommitted l.

(** Two pages that show the same children in a viewport of the same
    height at the same scroll offset. *)
Definition sameView (p q : Page) : Prop :=
  clientHeight (chatMessages q) = clientHeight (chatMessages p)
  /\ children (chatMessages q) = children (chatMessages p)
  /\ scrollTop (chatMessages q) = scrollTop (chatMessages p).

(** A page with twenty committed messages whose response is being
    streamed, after the reader has scrolled back up to offset 100. *)
Definition scrolledUpPage : Page :=
  let p := with_chatMessages (set_children (replicate 20 (MessageEl assistant (js "..."))))
             (freshPage [] (Some (js "sid"))) in
  with_chatMessages (set_scrollTop 100) (exec startStreaming p).

(** A page with twenty committed messages and no response in progress,
    after the reader has scrolled back up to offset 100. *)
Definition idleScrolledUpPage : Page :=
  with_chatMessages (set_scrollTop 100)
    (with_chatMessages (set_children (replicate 20 (MessageEl assistant (js "..."))))
       (freshPage [] (Some (js "sid")))).

(** A page whose response is being streamed and has received [hi]. *)
Definition streamingPage : Page :=
  exec (handleStreamingEvent (chunkEvent "hi"))
    (exec startStreaming (freshPage [] (Some (js "sid")))).

(** A page on which a new session was just started: the old id [sid] is
    dropped, the server is notified and a new id is generated at time
    1700000000000 with every random draw reading [0.k3x9q2m]. *)
Definition newSessionPage : Page :=
  match startNewSession 33 1700000000000 (fun _ => "0.k3x9q2m"%string)
          (FetchResolves (mkResponse 200 (js "OK") [] None))
          (with_localStorage (insert storageKey (js "sid")) (freshPage [] (Some (js "sid")))) with
  | Some (_, p) => p
  | None => freshPage [] None
  end.

(** A server that answers a history request with a page of markup. *)
Definition historyResponse : FetchOutcome :=
  FetchResolves (mkResponse 200 (js "OK") [bytes "<div>history</div>"] None).

(** Repeated resolution: calls of [getOrCreateSessionId] made one after
    another with nothing in between, each with its own fuel, clock reading
    and random draws; the ids they return, in order. *)
Fixpoint resolveAll (calls : list (nat * Z * (nat -> string))) (p : Page) :
    option (list jsstring * Page) :=
  match calls with
  | [] => Some ([], p)
  | (fuel, now, random36) :: rest =>
      '(id, p1) ← getOrCreateSessionId fuel now random36 p;
      '(ids, p2) ← resolveAll rest p1;
      Some (id :: ids, p2)
  end.

(** A page whose storage holds a three-character session id. *)
Definition shortIdPage : Page :=
  with_localStorage (insert storageKey (js "abc")) (freshPage [] None).

(** ** Events of a stream *)

(** [eventData.event_type] when it is a string. *)
Definition eventType (ev : JSValue) : option jsstring :=
  match Get ev (js "event_type") with
  | inr (JStr t) => Some t
  | _ => None
  end.

Definition isChunkEvent (ev : JSValue) : Prop :=
  Get ev (js "event_type") = inr (JStr (js "chunk")).

(** The event types the handler acknowledges without doing anything. *)
Definition quietEventTypes : list jsstring :=
  [js "connected"; js "user_message"; js "ai_thinking"; js "ai_message_complete";
   js "disconnected"].

(** All the event types the handler has a case for. *)
Definition knownEventTypes : list jsstring :=
  js "chunk" :: js "complete" :: js "error" :: quietEventTypes.

Definition isQuietEvent (ev : JSValue) : Prop :=
  exists t, eventType ev = Some t /\ t ∈ quietEventTypes.

(** The events that end a response. *)
Definition isTerminalEvent (ev : JSValue) : Prop :=
  eventType ev = Some (js "complete") \/ eventType ev = Some (js "error").

(** An [error] event whose [error] field has a string conversion, and
    that conversion. *)
Definition errorReport (ev : JSValue) (report : jsstring) : Prop :=
  eventType ev = Some (js "error")
  /\ exists err, Get ev (js "error") = inr err /\ ToString err = inr report.

(** An event that settles the manager: a [complete] event, or an [error]
    event whose [error] field has a string conversion. *)
Definition settles (ev : JSValue) : Prop :=
  eventType ev = Some (js "complete") \/ exists report, errorReport ev report.

(** What the [text] of a chunk event adds to the pending entry: nothing
    when it is falsy, its string conversion otherwise, which may throw. *)
Definition chunkText (ev : JSValue) : JSError + jsstring :=
  match Get ev (js "text") with
  | inr text => if ToBoolean text then ToString text else inr []
  | inl e => inl e
  end.

(** The text an event adds to the pending entry of a send in progress:
    that of a chunk whose text has a string conversion; nothing for a
    chunk whose conversion throws (the decode loop catches the exception
    and goes on) and for any other event. *)
Definition streamedText (ev : JSValue) : jsstring :=
  if decide (eventType ev = Some (js "chunk")) then
    match chunkText ev with
    | inr s => s
    | inl _ => []
    end
  else [].

(** The text a run of events accumulates. *)
Definition streamed (evs : list JSValue) : jsstring := evs ≫= streamedText.

(** An event that the handler takes without an exception and that does
    not end the response: a chunk whose text is falsy or has a string
    conversion, or a quiet event. *)
Definition isStreamEvent (ev : JSValue) : Prop :=
  (isChunkEvent ev /\ exists s, chunkText ev = inr s) \/ isQuietEvent ev.

(** ** Sends that fail *)

(** A response whose send ends in failure before any [complete] event:
    either the body breaks off with a read error, or it carries an
    [error] event whose error has a string conversion, after it quiet
    events at most, and then ends; no event before that is a [complete]
    or [error] event. The indices are the text accumulated from the
    events before the failure and the message the failure is reported
    with. *)
Inductive FailedSend `{JSON} (r : Response) : jsstring -> jsstring -> Prop :=
| TransportFailure (values : list (list Byte.byte)) (e : JSError) :
    responseBody r = Some values ->
    Forall (fun ev => ~ isTerminalEvent ev) (deliveredEvents values) ->
    bodyError r = Some e ->
    FailedSend r (streamed (deliveredEvents values)) (sendErrorPrefix ++ errMessage e)
| ProtocolError (values : list (list Byte.byte)) (before after : list JSValue)
    (ev : JSValue) (report : jsstring) :
    responseBody r = Some values ->
    deliveredEvents values = before ++ ev :: after ->
    Forall (fun ev => ~ isTerminalEvent ev) before ->
    errorReport ev report ->
    Forall isQuietEvent after ->
    bodyError r = None ->
    FailedSend r (streamed before) (errorPrefix ++ report).

(** The state of a send in progress: the manager holds the placeholder
    [r0], which is the last child of the chat area and the only
    placeholder in it, and the placeholder has accumulated [text]. *)
Record Streamed (base : list Node) (r0 : nat) (text : jsstring) (q : Page) : Prop := {
  streamed_manager :
    streamingManager q = mkStreamingManager (Some r0) (Some r0) (Some r0) (Some r0) true;
  streamed_children : children (chatMessages q) = base ++ [StreamingResponseEl r0];
  streamed_base : getElementById base = None;
  streamed_text : textContent <$> elements (chatMessages q) !! r0 = Some text
}.

(** A page with [hello] typed into the input, and two responses to its
    send: one whose body breaks off after a [connected] event and the
    chunk [hi], one that reports the error [boom] after the chunk. *)
Definition helloPage : Page := freshPage (js " hello ") (Some (js "sid")).

Definition networkError : JSError := mkError NetworkError (js "network error").

Definition brokenResponse : Response :=
  mkResponse 200 (js "OK")
    [sseLine "{'event_type':'connected'}" ++ sseLine "{'event_type':'chunk','text':'hi'}"]
    (Some networkError).

Definition errorResponse : Response :=
  mkResponse 200 (js "OK")
    [sseLine "{'event_type':'chunk','text':'hi'}";
     sseLine "{'event_type':'error','error':'boom'}"] None.


(** ** What a computation leaves alone *)

(** The part of a page outside the chat area, the streaming manager and
    the console: input controls, session manager, storage, the requests
    issued, the timers set and the location. *)
Definition surroundings (p : Page) :
    UIManager * SessionManager * gmap jsstring jsstring * list Request
    * list Timer * jsstring :=
  (uiManager p, sessionManager p, localStorage p, requests p, timers p, location p).

(** A computation that never touches the surroundings. *)
Definition keepsSurroundings {A} (m : Eff A) : Prop :=
  forall p, surroundings (exec m p) = surroundings p.


(** A response that streams [hi], [ there] and then completes. *)
Definition completeResponse : Response :=
  mkResponse 200 (js "OK")
    [sseLine "{'event_type':'connected'}" ++ sseLine "{'event_type':'chunk','text':'hi'}";
     sseLine "{'event_type':'chunk','text':' there'}";
     sseLine "{'event_type':'complete'}"] None.

(** Handling a run of events one after another, as the decode loop does
    for the lines of a chunk. *)
Fixpoint handleAll `{Layout} (evs : list JSValue) : Eff unit :=
  match evs with
  | [] => mret tt
  | ev :: rest => handleStreamingEvent ev;; handleAll rest
  end.

(** The text that complete lines and an unfinished rest stand for: every
    line followed by its line feed, then the rest. *)
Definition joinLines (lines : list jsstring) (rest : jsstring) : jsstring :=
  (lines ≫= fun line => line ++ [10%N]) ++ rest.

(** A page whose transcript was cleared (as Ctrl+K does through
    [clearMessages]) while a response that has received [hi] is being
    streamed. *)
Definition clearedWhileStreaming : Page := exec clearMessages streamingPage.

(** ** UIManager: keys *)

(** What [handleKeyDown] reads of a [keydown] event. *)
Record KeyboardEvent := mkKeyboardEvent {
  key : jsstring;
  shiftKey : bool;
  ctrlKey : bool;
  metaKey : bool;
  eventIsComposing : bool;     (* e.isComposing *)
  keyCode : Z
}.

(** [clearInput()]: empty the field, enable the controls, and focus the
    field a little later. The character counter and the height of the
    field are presentation. *)
Definition clearInput : Eff unit :=
  modify (with_uiManager (fun u => mkUIManager [] (inputDisabled u) (sendDisabled u)));;
  (* ensure input is enabled and focused *)
  setInputDisabled false;;
  setTimeout (FocusInput 50).

Definition keyIs (e : KeyboardEvent) (name : string) : bool :=
  bool_decide (key e = js name).

(** [handleKeyDown(e)]. The manager's IME flag [this.isComposing], which
    the composition listeners keep, and the two callbacks
    [onSubmitMessage] and [onClearChat] are arguments; the result tells
    whether [e.preventDefault()] was called. *)
Definition handleKeyDown (isComposing : bool) (onSubmitMessage onClearChat : Eff unit)
    (e : KeyboardEvent) : Eff bool :=
  (* during IME composition, don't handle the key *)
  if isComposing || eventIsComposing e || (keyCode e =? 229) then mret false
  (* Shift + Enter: allow a new line *)
  else if keyIs e "Enter" && shiftKey e && negb (ctrlKey e) && negb (metaKey e) then mret false
  (* Ctrl/Cmd + Enter: force send, even with Shift *)
  else if keyIs e "Enter" && (ctrlKey e || metaKey e) then onSubmitMessage;; mret true
  (* Enter without modifier keys: send *)
  else if keyIs e "Enter" && negb (shiftKey e) && negb (ctrlKey e) && negb (metaKey e)
  then onSubmitMessage;; mret true
  (* Escape: clear the input *)
  else if keyIs e "Escape" then clearInput;; mret true
  (* Ctrl/Cmd + K: clear the chat *)
  else if (ctrlKey e || metaKey e) && keyIs e "k" then onClearChat;; mret true
  else mret false.

(** A page in the middle of a send: the controls are disabled and a
    draft was typed meanwhile. *)
Definition busyPage : Page :=
  with_uiManager (fun _ => mkUIManager (js "draft") true true) streamingPage.

(** * Properties *)

(** ** Small facts about effects *)

Lemma bind_ret {A B} (a : A) (f : A -> Eff B) (p : Page) :
  (mret a ≫= f) p = f a p.
Proof. reflexivity. Qed.

Lemma bind_get {A B} (g : Page -> A) (f : A -> Eff B) (p : Page) :
  (get g ≫= f) p = f (g p) p.
Proof. reflexivity. Qed.

Lemma bind_modify {B} (g : Page -> Page) (f : unit -> Eff B) (p : Page) :
  (modify g ≫= f) p = f tt (g p).
Proof. reflexivity. Qed.

Lemma bind_throw {A B} (e : JSError) (f : A -> Eff B) (p : Page) :
  (throw e ≫= f) p = (Throw e, p).
Proof. reflexivity. Qed.

Lemma bind_assoc {A B C} (m : Eff A) (f : A -> Eff B) (g : B -> Eff C) (p : Page) :
  ((m ≫= f) ≫= g) p = (m ≫= (fun a => f a ≫= g)) p.
Proof.
  unfold mbind, Eff_bind. destruct (m p) as [[a|e] p']; reflexivity.
Qed.

Lemma bind_normal {A B} (m : Eff A) (f : A -> Eff B) (p p' : Page) (a : A) :
  m p = (Normal a, p') -> (m ≫= f) p = f a p'.
Proof. intros E. unfold mbind, Eff_bind. rewrite E. reflexivity. Qed.

Lemma run_modify (g : Page -> Page) (p : Page) : modify g p = (Normal tt, g p).
Proof. reflexivity. Qed.

Lemma run_get {A} (g : Page -> A) (p : Page) : get g p = (Normal (g p), p).
Proof. reflexivity. Qed.

Lemma run_ret {A} (a : A) (p : Page) : (mret a : Eff A) p = (Normal a, p).
Proof. reflexivity. Qed.

Lemma run_throw {A} (e : JSError) (p : Page) : (throw e : Eff A) p = (Throw e, p).
Proof. reflexivity. Qed.

Create Rewrite HintDb eff.
#[local] Hint Rewrite @bind_assoc @bind_ret @bind_get @bind_modify @bind_throw
  @run_modify @run_get @run_ret @run_throw : eff.

Ltac eff := repeat (autorewrite with eff; cbn beta iota).

(** Projections of pages that were built by the update functions. *)
Ltac page_simpl :=
  cbn [chatMessages streamingManager uiManager sessionManager localStorage
       requests console timers location
       with_chatMessages with_streamingManager with_uiManager with_sessionManager
       with_localStorage with_requests with_console with_timers with_location
       elements nextRef children scrollTop clientHeight
       set_children set_elements set_scrollTop appendChild alterEl
       streamingResponse streamingText typingIndicator thinkingIndicator isStreaming
       inputValue inputDisabled sendDisabled sessionId isNewSessionJustCreated
       fst snd] in *.

Lemma event_type_dispatch_chunk `{Layout} (eventData : JSValue) (p : Page) :
  Get eventData (js "event_type") = inr (JStr (js "chunk")) ->
  handleStreamingEvent eventData p = handleChunk eventData p.
Proof.
  intros Ht. unfold handleStreamingEvent. rewrite Ht. reflexivity.
Qed.

(** ** Chunks without text *)

(** C10. A [chunk] event whose [text] is absent, empty or otherwise falsy
    leaves the whole page as it was: no placeholder is created or started,
    no text is appended, the streaming flag and the scroll offset keep
    their values, and the handler returns normally. *)
Theorem chunk_without_text_is_noop `{Layout} (eventData text : JSValue) (p : Page) :
  Get eventData (js "event_type") = inr (JStr (js "chunk")) ->
  Get eventData (js "text") = inr text ->
  ToBoolean text = false ->
  handleStreamingEvent eventData p = (Normal tt, p).
Proof.
  intros Ht Hx Hb. rewrite event_type_dispatch_chunk by assumption.
  unfold handleChunk. rewrite Hx. unfold liftE. eff. rewrite Hb. reflexivity.
Qed.

Lemma chunk_without_text_is_noop_witness :
  let eventData := JObj [(js "event_type", JStr (js "chunk"))] in
  let p := freshPage (js "hello") None in
  Get eventData (js "event_type") = inr (JStr (js "chunk"))
  /\ Get eventData (js "text") = inr JUndefined
  /\ ToBoolean JUndefined = false
  /\ handleStreamingEvent eventData p = (Normal tt, p).
Proof.
  refine (conj eq_refl (conj eq_refl (conj eq_refl _))).
  apply (chunk_without_text_is_noop _ JUndefined); reflexivity.
Defined.

(** ** Empty input *)

(** C9. When the text of the input trims to the empty string, the send
    path returns at once: the page is unchanged, so no request is issued,
    the transcript is as it was and the input controls keep their state. *)
Theorem empty_input_is_rejected `{Layout} `{JSON} (net : FetchOutcome) (p : Page) :
  trim (inputValue (uiManager p)) = [] ->
  handleFormSubmit net p = (Normal tt, p).
Proof.
  intros Ht. unfold handleFormSubmit, getCurrentMessage. eff. rewrite Ht. reflexivity.
Qed.

Lemma empty_input_is_rejected_witness :
  let p := freshPage [32; 9; 10; 160; 12288; 32]%N (Some (js "sid")) in
  let net := FetchResolves (mkResponse 200 (js "OK") [] None) in
  trim (inputValue (uiManager p)) = []
  /\ handleFormSubmit net p = (Normal tt, p).
Proof.
  split; [reflexivity | apply empty_input_is_rejected; reflexivity].
Defined.

(** ** Session reset *)

(** C8. Resetting the session removes the persisted id whatever the
    notification of the server does: the function returns normally, the
    storage key is gone afterwards and no other key is touched; the one
    request issued is the notification, and when it fails the failure is
    caught and reported with a console warning. *)
Theorem reset_removes_session_id (net : FetchOutcome) (p : Page) :
  let p' := exec (resetChatSession net) p in
  returns (resetChatSession net) p = true
  /\ localStorage p' = delete storageKey (localStorage p)
  /\ localStorage p' !! storageKey = None
  /\ requests p' = requests p ++ [PostClearSession]
  /\ console p' =
       match net with
       | FetchRejects _ => console p ++ [(console_warn, "Failed to clear session on server:"%string)]
       | FetchResolves _ => console p
       end.
Proof.
  unfold exec, returns, resetChatSession, try_catch, fetch.
  destruct net as [e|r]; cbn; (repeat split; try reflexivity); apply lookup_delete_eq.
Qed.

(** ** Scrolling *)

Section Scrolling.
Context `{Layout}.

Lemma scrollHeight_ge_clientHeight (c : ChatMessages) :
  clientHeight c <= scrollHeight c.
Proof. unfold scrollHeight. lia. Qed.

(** Scrolling to the bottom puts the offset at its maximum. *)
Lemma scrollToBottom_bottom (p : Page) :
  0 <= clientHeight (chatMessages p) ->
  let c := chatMessages (exec scrollToBottom p) in
  scrollTop c = scrollHeight c - clientHeight c.
Proof.
  intros Hc. cbn. pose proof (scrollHeight_ge_clientHeight (chatMessages p)).
  set (h := scrollHeight (chatMessages p)) in *.
  unfold scrollHeight at 1. cbn. fold (scrollHeight (chatMessages p)). fold h. lia.
Qed.

Lemma set_scrollTop_bottom (c : ChatMessages) :
  0 <= clientHeight c ->
  let c' := set_scrollTop (scrollHeight c) c in
  scrollTop c' = scrollHeight c' - clientHeight c'.
Proof.
  intros Hc. cbn. pose proof (scrollHeight_ge_clientHeight c).
  set (h := scrollHeight c) in *.
  unfold scrollHeight at 1. cbn. fold (scrollHeight c). fold h. lia.
Qed.

(** A started placeholder is scrolled into view. *)
Lemma startStreaming_bottom (p : Page) :
  0 <= clientHeight (chatMessages p) ->
  let c := chatMessages (exec startStreaming p) in
  scrollTop c = scrollHeight c - clientHeight c.
Proof.
  intros Hc. cbn zeta.
  unfold exec, startStreaming, setIsStreaming, setStreamingRefs, scrollToBottom,
    createStreamingEl. eff.
  cbn [snd chatMessages with_chatMessages with_streamingManager].
  apply set_scrollTop_bottom. exact Hc.
Qed.

Lemma smartScrollToBottom_chat (p : Page) :
  let c := chatMessages p in
  let c' := chatMessages (exec smartScrollToBottom p) in
  elements c' = elements c /\ children c' = children c
  /\ clientHeight c' = clientHeight c
  /\ (scrollHeight c - scrollTop c - clientHeight c > 70 -> scrollTop c' = scrollTop c)
  /\ (scrollTop c' = scrollTop c
      \/ (0 <= clientHeight c -> scrollTop c' = scrollHeight c' - clientHeight c')).
Proof.
  cbn zeta. unfold exec, smartScrollToBottom. eff.
  destruct (Z.leb_spec (scrollHeight (chatMessages p) - scrollTop (chatMessages p)
                          - clientHeight (chatMessages p)) 70).
  - do 3 (split; [reflexivity|]). split; [lia|]. right. intros Hc.
    apply (scrollToBottom_bottom p Hc).
  - cbn. repeat split; auto.
Qed.

(** A chunk that arrives while streaming is in progress either leaves the
    offset alone or finds the chat area, with the chunk in place, within
    the threshold of the bottom and puts the offset at the bottom. *)
Lemma handleChunk_scrollTop (eventData text : JSValue) (p : Page) :
  Get eventData (js "text") = inr text ->
  ToBoolean text = true ->
  isStreaming (streamingManager p) = true ->
  let c := chatMessages p in
  let c' := chatMessages (exec (handleChunk eventData) p) in
  clientHeight c' = clientHeight c
  /\ children c' = children c
  /\ (scrollHeight c' - scrollTop c - clientHeight c > 70 -> scrollTop c' = scrollTop c)
  /\ (scrollTop c' = scrollTop c
      \/ (0 <= clientHeight c -> scrollTop c' = scrollHeight c' - clientHeight c')).
Proof.
  intros Hx Hb Hs. cbn zeta. unfold exec, handleChunk. rewrite Hx. unfold liftE. eff.
  rewrite Hb. eff. rewrite Hs. cbn [negb]. eff.
  assert (Hsmart : forall q : Page, sameView p q ->
    let c' := chatMessages (snd (smartScrollToBottom q)) in
    clientHeight c' = clientHeight (chatMessages p)
    /\ children c' = children (chatMessages p)
    /\ (scrollHeight c' - scrollTop (chatMessages p) - clientHeight (chatMessages p) > 70 ->
        scrollTop c' = scrollTop (chatMessages p))
    /\ (scrollTop c' = scrollTop (chatMessages p)
        \/ (0 <= clientHeight (chatMessages p) ->
            scrollTop c' = scrollHeight c' - clientHeight c'))).
  { intros q (Hq1 & Hq2 & Hq3). cbn zeta.
    destruct (smartScrollToBottom_chat q) as (He & Hc & Hh & Hfar & Hor).
    unfold exec in *. rewrite Hh, Hc, Hq1, Hq2. do 2 (split; [reflexivity|]). split.
    - intros Hgt. rewrite <- Hq3. apply Hfar. rewrite Hq1, Hq3.
      replace (scrollHeight (chatMessages q))
        with (scrollHeight (chatMessages (smartScrollToBottom q).2)); [lia|].
      unfold scrollHeight. rewrite He, Hc, Hh. reflexivity.
    - destruct Hor as [Hsame|Hbottom]; [left; congruence|].
      right. intros Hc0. rewrite Hbottom by (rewrite Hq1; exact Hc0).
      rewrite Hh, Hq1. reflexivity. }
  assert (Hstay : forall (e : JSError) (q : Page), sameView p q ->
    let c' := chatMessages q in
    clientHeight c' = clientHeight (chatMessages p)
    /\ children c' = children (chatMessages p)
    /\ (scrollHeight c' - scrollTop (chatMessages p) - clientHeight (chatMessages p) > 70 ->
        scrollTop c' = scrollTop (chatMessages p))
    /\ (scrollTop c' = scrollTop (chatMessages p)
        \/ (0 <= clientHeight (chatMessages p) ->
            scrollTop c' = scrollHeight c' - clientHeight c'))).
  { intros e q (Hq1 & Hq2 & Hq3). cbn zeta. repeat split; auto. }
  destruct (ToString text) as [e|appended];
  destruct (streamingText (streamingManager p)) as [st|];
  destruct (thinkingIndicator (streamingManager p)) as [th|];
  try destruct (negb (default false (thinkingHidden <$> elements (chatMessages p) !! th)));
  try destruct (typingIndicator (streamingManager p)) as [ty|];
  cbn [liftE]; eff;
  first [ apply Hsmart; repeat split
        | apply (Hstay nullDeref); repeat split
        | apply (Hstay e); repeat split ].
Qed.

(** A chunk with text that arrives while the manager is not streaming is
    handled as on the page [startStreaming] leaves behind. *)
Lemma handleChunk_starts (eventData text : JSValue) (p : Page) :
  Get eventData (js "text") = inr text ->
  ToBoolean text = true ->
  isStreaming (streamingManager p) = false ->
  handleChunk eventData p = handleChunk eventData (exec startStreaming p)
  /\ isStreaming (streamingManager (exec startStreaming p)) = true.
Proof.
  intros Hx Hb Hs. split; [|reflexivity].
  unfold handleChunk at 1. rewrite Hx. unfold liftE. eff. rewrite Hb. eff. rewrite Hs.
  cbn [negb].
  assert (Hstart : startStreaming p = (Normal tt, exec startStreaming p)) by reflexivity.
  rewrite (bind_normal _ _ _ _ _ Hstart).
  unfold handleChunk. rewrite Hx. unfold liftE. eff. rewrite Hb. eff.
  reflexivity.
Qed.

End Scrolling.

(** C7, as the code has it. The scroll policy is asymmetric only while a
    response is being streamed: then a chunk with text leaves the scroll
    offset where it is whenever the chat area is more than 70 pixels
    away from the bottom, measured, as the code does, once the chunk is
    in place, and hence also measured before the chunk whenever the chunk
    does not make the content shorter. A chunk with text that finds the
    manager idle starts a placeholder, which scrolls to the bottom
    whatever the offset was: the offset ends at the bottom as it was with
    the new placeholder, or at the bottom as it is with the chunk in
    place. Adding a user message or an error message always puts the
    offset at the bottom, whatever it was before. The height of the
    viewport is not negative, as in the DOM. *)
Theorem scroll_policy_asymmetric `{Layout} (p : Page) (eventData text : JSValue)
    (content : jsstring) :
  Get eventData (js "event_type") = inr (JStr (js "chunk")) ->
  Get eventData (js "text") = inr text ->
  ToBoolean text = true ->
  0 <= clientHeight (chatMessages p) ->
  let c := chatMessages p in
  let streamed := chatMessages (exec (handleStreamingEvent eventData) p) in
  let started := chatMessages (exec startStreaming p) in
  let sent := chatMessages (exec (addUserMessage content) p) in
  let failed := chatMessages (exec (addErrorMessage content) p) in
  (isStreaming (streamingManager p) = true ->
   (scrollHeight streamed - scrollTop c - clientHeight c > 70 ->
    scrollTop streamed = scrollTop c)
   /\ (scrollHeight c - scrollTop c - clientHeight c > 70 ->
       scrollHeight c <= scrollHeight streamed ->
       scrollTop streamed = scrollTop c))
  /\ (isStreaming (streamingManager p) = false ->
      scrollTop streamed = scrollHeight started - clientHeight started
      \/ scrollTop streamed = scrollHeight streamed - clientHeight streamed)
  /\ scrollTop sent = scrollHeight sent - clientHeight sent
  /\ scrollTop failed = scrollHeight failed - clientHeight failed.
Proof.
  intros Ht Hx Hb Hc. cbn zeta.
  assert (Hchunk : exec (handleStreamingEvent eventData) p = exec (handleChunk eventData) p).
  { unfold exec. rewrite event_type_dispatch_chunk by assumption. reflexivity. }
  rewrite Hchunk. split; [|split; [|split]].
  - intros Hs.
    destruct (handleChunk_scrollTop eventData text p Hx Hb Hs) as (_ & _ & Hfar & _).
    split; [exact Hfar | intros; apply Hfar; lia].
  - intros Hs.
    destruct (handleChunk_starts eventData text p Hx Hb Hs) as [Hrun Hon].
    assert (Hrun' : exec (handleChunk eventData) p
                    = exec (handleChunk eventData) (exec startStreaming p)).
    { unfold exec in *. rewrite Hrun. reflexivity. }
    rewrite Hrun'.
    destruct (handleChunk_scrollTop eventData text (exec startStreaming p) Hx Hb Hon)
      as (_ & _ & _ & [Hsame|Hbottom]).
    + left. rewrite Hsame. apply startStreaming_bottom. exact Hc.
    + right. apply Hbottom. exact Hc.
  - apply (scrollToBottom_bottom
             (with_chatMessages (appendChild (MessageEl user content)) p)). exact Hc.
  - apply (scrollToBottom_bottom
             (with_chatMessages (appendChild (MessageEl error content)) p)). exact Hc.
Qed.

Lemma scroll_policy_asymmetric_witness :
  let p := scrolledUpPage in
  let eventData := chunkEvent "hi" in
  let c := chatMessages p in
  let streamed := chatMessages (exec (handleStreamingEvent eventData) p) in
  let sent := chatMessages (exec (addUserMessage (js "hello")) p) in
  let failed := chatMessages (exec (addErrorMessage (js "hello")) p) in
  (isStreaming (streamingManager p) = true
   /\ scrollHeight c - scrollTop c - clientHeight c = 760
   /\ scrollHeight streamed - scrollTop c - clientHeight c = 760)
  /\ (scrollTop streamed = 100)
  /\ (scrollTop streamed = 100)
  /\ scrollTop sent = 920
  /\ scrollTop failed = 920.
Proof.
  split; [split; [|split]; reflexivity|].
  destruct (scroll_policy_asymmetric scrolledUpPage (chunkEvent "hi") (JStr (js "hi"))
              (js "hello") eq_refl eq_refl eq_refl) as (a & _ & c & d).
  { vm_compute; discriminate. }
  destruct (a eq_refl) as [a1 a2].
  split; [apply a1; vm_compute; reflexivity|].
  split; [apply a2; vm_compute; [reflexivity | discriminate]|].
  split; [exact c | exact d].
Defined.

(** C7, as stated, fails: a chunk that finds the manager idle moves the
    offset to the bottom although the chat area was 700 pixels away from
    it. *)
Lemma idle_chunk_scrolls_to_bottom :
  let p := idleScrolledUpPage in
  let c := chatMessages p in
  let streamed := chatMessages (exec (handleStreamingEvent (chunkEvent "hi")) p) in
  scrollHeight c - scrollTop c - clientHeight c = 700
  /\ scrollTop c = 100
  /\ scrollTop streamed = 860
  /\ scrollTop streamed <> scrollTop c.
Proof.
  split; [reflexivity|]. split; [reflexivity|]. split; [reflexivity|].
  vm_compute. discriminate.
Qed.
(** ** Settling and what follows it *)

Lemma eventType_Get (ev : JSValue) (t : jsstring) :
  eventType ev = Some t <-> Get ev (js "event_type") = inr (JStr t).
Proof.
  unfold eventType. destruct (Get ev (js "event_type")) as [e|[]]; split; intros E;
    try discriminate; congruence.
Qed.

Section Settling.
Context `{Layout}.

Lemma Get_total (v : JSValue) (k k' : jsstring) (x : JSValue) :
  Get v k = inr x -> exists x', Get v k' = inr x'.
Proof. destruct v; cbn; intros E; try discriminate; eauto. Qed.

(** [completeStreaming] turns the streaming flag off, also when replacing
    the placeholder throws. *)
Lemma completeStreaming_not_streaming (p : Page) :
  isStreaming (streamingManager (exec completeStreaming p)) = false.
Proof.
  unfold exec, completeStreaming, setIsStreaming, setStreamingRefs, scrollToBottom. eff.
  repeat (case_match; eff); reflexivity.
Qed.

(** What an [error] event whose report is [report] does. *)
Lemma handleStreamingEvent_error (ev : JSValue) (report : jsstring) (p : Page) :
  errorReport ev report ->
  handleStreamingEvent ev p
  = completeStreaming
      (exec (log console_error "Streaming error:" ≫= fun _ =>
             addErrorMessage (errorPrefix ++ report)) p).
Proof.
  intros (Hev & err & Herr & Hreport). apply eventType_Get in Hev.
  unfold handleStreamingEvent. rewrite Hev. cbn [liftE]. eff.
  change ((log console_error "Streaming error:" ≫= fun _ =>
           liftE (Get ev (js "error")) ≫= fun err =>
           liftE (ToString err) ≫= fun report =>
           addErrorMessage (errorPrefix ++ report) ≫= fun _ => completeStreaming) p
          = completeStreaming
              (exec (log console_error "Streaming error:" ≫= fun _ =>
                     addErrorMessage (errorPrefix ++ report)) p)).
  rewrite Herr. cbn [liftE]. unfold log. eff. rewrite Hreport. reflexivity.
Qed.

Lemma handleStreamingEvent_complete (ev : JSValue) (p : Page) :
  eventType ev = Some (js "complete") ->
  handleStreamingEvent ev p = completeStreaming p.
Proof.
  intros Hev. apply eventType_Get in Hev.
  unfold handleStreamingEvent. rewrite Hev. reflexivity.
Qed.

Lemma settling_event_not_streaming (ev : JSValue) (p : Page) :
  settles ev ->
  isStreaming (streamingManager (exec (handleStreamingEvent ev) p)) = false.
Proof.
  intros [Hev|[report Hev]]; unfold exec.
  - rewrite handleStreamingEvent_complete by exact Hev.
    apply completeStreaming_not_streaming.
  - rewrite (handleStreamingEvent_error ev report p Hev).
    apply completeStreaming_not_streaming.
Qed.

Lemma getElementById_app (l : list Node) (r : nat) :
  getElementById (l ++ [StreamingResponseEl r]) = Some (default r (getElementById l)).
Proof.
  induction l as [|n l IH]; [reflexivity|]. destruct n; cbn; auto.
Qed.

(** The entries of children that are no placeholders do not depend on the
    store. *)
Lemma entryOf_no_pending (c c' : ChatMessages) (l : list Node) :
  getElementById l = None -> entryOf c <$> l = entryOf c' <$> l.
Proof.
  induction l as [|n l IH]; [reflexivity|].
  destruct n; cbn; intros E; try discriminate; f_equal; auto.
Qed.

(** A chunk with text that arrives while the manager is not streaming
    starts a new placeholder at the end of the chat area; the text goes
    into it when it has a string conversion, and the handler throws after
    the placeholder was started when it has none. *)
Lemma handleChunk_restarts (eventData text : JSValue) (p : Page) :
  Get eventData (js "text") = inr text ->
  ToBoolean text = true ->
  isStreaming (streamingManager p) = false ->
  let r := nextRef (chatMessages p) in
  let q := exec (handleChunk eventData) p in
  isStreaming (streamingManager q) = true
  /\ streamingResponse (streamingManager q) = Some r
  /\ children (chatMessages q) = children (chatMessages p) ++ [StreamingResponseEl r]
  /\ (getElementById (children (chatMessages p)) = None ->
      streamingText (streamingManager q) = Some r
      /\ match ToString text with
         | inr s => textOf (chatMessages q) r = s /\ returns (handleChunk eventData) p = true
         | inl e => textOf (chatMessages q) r = [] /\ handleChunk eventData p = (Throw e, q)
         end).
Proof.
  intros Hx Hb Hs. cbn zeta. unfold exec, returns, handleChunk. rewrite Hx. unfold liftE. eff.
  rewrite Hb. eff. rewrite Hs. cbn [negb].
  unfold startStreaming, setIsStreaming, setStreamingRefs, scrollToBottom, createStreamingEl.
  eff. cbn [with_chatMessages with_streamingManager chatMessages streamingManager
            appendChild set_children children thinkingIndicator streamingText
            typingIndicator elements set_scrollTop].
  rewrite getElementById_app.
  set (g := default (nextRef (chatMessages p)) (getElementById (children (chatMessages p)))).
  unfold smartScrollToBottom, scrollToBottom.
  destruct (ToString text) as [e|s];
  destruct (negb (default false (thinkingHidden <$>
              <[nextRef (chatMessages p):=streamingTemplate]> (elements (chatMessages p)) !! g)))
    eqn:Hh; eff;
    try (match goal with |- context [Z.leb ?a ?b] => destruct (Z.leb a b) end); eff;
    cbn;
    (split; [reflexivity|]); (split; [reflexivity|]); (split; [reflexivity|]);
    intros Hnone; subst g; rewrite Hnone in *; cbn in *; (split; [reflexivity|]);
    unfold textOf, alterEl; cbn;
    rewrite ?lookup_alter_eq, ?lookup_insert_eq; try (split; reflexivity).
  all: rewrite lookup_insert_eq in Hh; discriminate.
Qed.

End Settling.

(** C1, as the code has it. After a [complete] event, or an [error]
    event whose error has a string conversion, the manager is no longer
    streaming. A further [chunk] event without text changes nothing; one
    with text is not ignored: it starts a new placeholder at the end of
    the chat area and streaming is on again, and where no older
    placeholder is left in the chat area the new pending entry holds the
    text of the chunk, or stays empty, with the handler throwing, when
    that text has no string conversion. *)
Theorem chunk_after_termination `{Layout} (p : Page) (ev chunk text : JSValue) :
  settles ev ->
  Get chunk (js "event_type") = inr (JStr (js "chunk")) ->
  Get chunk (js "text") = inr text ->
  let settled := exec (handleStreamingEvent ev) p in
  let after := exec (handleStreamingEvent chunk) settled in
  isStreaming (streamingManager settled) = false
  /\ (ToBoolean text = false -> after = settled)
  /\ (ToBoolean text = true ->
      isStreaming (streamingManager after) = true
      /\ children (chatMessages after) =
           children (chatMessages settled)
             ++ [StreamingResponseEl (nextRef (chatMessages settled))]
      /\ (getElementById (children (chatMessages settled)) = None ->
          (forall s, ToString text = inr s ->
             transcript after = transcript settled ++ [Pending s])
          /\ (forall e, ToString text = inl e ->
                transcript after = transcript settled ++ [Pending []]
                /\ returns (handleStreamingEvent chunk) settled = false))).
Proof.
  intros Hev Ht Hx. cbn zeta.
  pose proof (settling_event_not_streaming ev p Hev) as Hoff.
  set (settled := exec (handleStreamingEvent ev) p) in *.
  split; [exact Hoff|]. split.
  - intros Hb. unfold exec.
    rewrite event_type_dispatch_chunk by assumption.
    unfold handleChunk. rewrite Hx. unfold liftE. eff. rewrite Hb. reflexivity.
  - intros Hb.
    destruct (handleChunk_restarts chunk text settled Hx Hb Hoff)
      as (Hon & _ & Hch & Htext).
    unfold exec, returns. rewrite event_type_dispatch_chunk by assumption.
    fold (exec (handleChunk chunk) settled).
    split; [exact Hon|]. split; [exact Hch|].
    intros Hnone. destruct (Htext Hnone) as [_ Hr].
    assert (Hview : forall s, textOf (chatMessages (exec (handleChunk chunk) settled))
                                (nextRef (chatMessages settled)) = s ->
      transcript (exec (handleChunk chunk) settled) = transcript settled ++ [Pending s]).
    { intros s Hs. unfold transcript. rewrite Hch, fmap_app. cbn [fmap list_fmap entryOf].
      rewrite Hs. f_equal. apply entryOf_no_pending. exact Hnone. }
    split.
    + intros s Hs. rewrite Hs in Hr. apply Hview. tauto.
    + intros e He. rewrite He in Hr. destruct Hr as [Hr Hthrow].
      split; [apply Hview; exact Hr|]. rewrite Hthrow. reflexivity.
Qed.

Lemma chunk_after_termination_witness :
  let settled := exec (handleStreamingEvent completeEvent) streamingPage in
  let after := exec (handleStreamingEvent (chunkEvent "x")) settled in
  settles completeEvent
  /\ isStreaming (streamingManager settled) = false
  /\ isStreaming (streamingManager after) = true
  /\ children (chatMessages after) = [MessageEl assistant (js "hi"); StreamingResponseEl 1]
  /\ transcript after = [Committed assistant (js "hi"); Pending (js "x")].
Proof.
  assert (Hev : settles completeEvent) by (left; reflexivity).
  split; [exact Hev|].
  destruct (chunk_after_termination streamingPage completeEvent (chunkEvent "x")
              (JStr (js "x")) Hev eq_refl eq_refl) as (Hoff & _ & Hon).
  destruct (Hon eq_refl) as (Hs & Hc & Ht).
  split; [exact Hoff|]. split; [exact Hs|]. split; [exact Hc|].
  exact (proj1 (Ht eq_refl) (js "x") eq_refl).
Defined.

(** C1, as stated, fails: a chunk that follows [complete] on the same
    manager changes the transcript. *)
Lemma chunk_after_complete_mutates_transcript :
  let settled := exec (handleStreamingEvent completeEvent) streamingPage in
  let after := exec (handleStreamingEvent (chunkEvent "x")) settled in
  transcript settled = [Committed assistant (js "hi")]
  /\ transcript after = [Committed assistant (js "hi"); Pending (js "x")]
  /\ transcript after <> transcript settled.
Proof.
  split; [reflexivity|]. split; [reflexivity|]. vm_compute. discriminate.
Qed.
(** ** What settling does to the pending entry *)

Section Promotion.
Context `{Layout}.

Lemma replaceChild_in_place (new : Node) (r : nat) (pre post : list Node) :
  StreamingResponseEl r ∉ pre ->
  replaceChild new r (pre ++ StreamingResponseEl r :: post) = Some (pre ++ new :: post).
Proof.
  induction pre as [|n pre IH]; intros Hnot; cbn.
  - rewrite decide_True by reflexivity. reflexivity.
  - assert (Hn : n <> StreamingResponseEl r) by (intros ->; apply Hnot; left).
    assert (Hpre : StreamingResponseEl r ∉ pre) by (intros Hin; apply Hnot; right; exact Hin).
    destruct n; cbn; rewrite ?IH by assumption; try reflexivity.
    rewrite decide_False by congruence. reflexivity.
Qed.

Lemma textOf_alterEl (f : StreamingEl -> StreamingEl) (r t : nat) (c : ChatMessages) :
  (forall e, textContent (f e) = textContent e) ->
  textOf (alterEl f r c) t = textOf c t.
Proof.
  intros Hf. unfold textOf, alterEl. cbn.
  destruct (decide (r = t)) as [->|Hne].
  - rewrite lookup_alter_eq. destruct (elements c !! t); cbn; [rewrite Hf|]; reflexivity.
  - rewrite lookup_alter_ne by assumption. reflexivity.
Qed.

(** The committed messages of a child list do not depend on the store. *)
Lemma committed_entries (c c' : ChatMessages) (l : list Node) :
  committed (entryOf c <$> l) = committed (entryOf c' <$> l).
Proof.
  unfold committed. induction l as [|n l IH]; [reflexivity|].
  destruct n; cbn; rewrite ?IH; reflexivity.
Qed.

Lemma committed_app (l l' : list Entry) :
  committed (l ++ l') = committed l ++ committed l'.
Proof. unfold committed. apply List.filter_app. Qed.

(** [completeStreaming], run on a manager that holds a placeholder of the
    chat area. *)
Lemma completeStreaming_promotes (p : Page) (r t : nat) (pre post : list Node) :
  streamingResponse (streamingManager p) = Some r ->
  streamingText (streamingManager p) = Some t ->
  children (chatMessages p) = pre ++ StreamingResponseEl r :: post ->
  StreamingResponseEl r ∉ pre ->
  exists q : Page,
    completeStreaming p = (Normal tt, q)
    /\ streamingManager q = mkStreamingManager None None None None false
    /\ children (chatMessages q) =
         match textOf (chatMessages p) t with
         | [] => children (chatMessages p)
         | _ :: _ => pre ++ MessageEl assistant (textOf (chatMessages p) t) :: post
         end.
Proof.
  intros Hr Ht Hch Hpre.
  unfold completeStreaming, setIsStreaming, setStreamingRefs, scrollToBottom. eff.
  cbn [with_streamingManager streamingManager typingIndicator streamingText
       streamingResponse chatMessages].
  rewrite Hr, Ht.
  assert (Htext : forall ty, textOf (alterEl (fun e =>
      mkStreamingEl (thinkingHidden e) (textHidden e) (typingHidden e) true
        (textContent e)) ty (chatMessages p)) t = textOf (chatMessages p) t).
  { intros ty. apply textOf_alterEl. reflexivity. }
  destruct (typingIndicator (streamingManager p)) as [ty|]; eff;
    page_simpl; rewrite ?Htext;
    destruct (textOf (chatMessages p) t) as [|ch text] eqn:Etext; eff;
    page_simpl; rewrite ?Hch, ?replaceChild_in_place by assumption;
    eff; (eexists; split; [reflexivity|]); page_simpl; rewrite ?Hch; split; reflexivity.
Qed.

End Promotion.

(** C4, as the code has it. When the manager settles while it holds a
    placeholder of the chat area whose accumulated text is not empty, the
    placeholder is replaced, where it stands, by a committed assistant
    message with that text: on a [complete] event and on the cleanup of
    the send path (both are [completeStreaming]) and also on an [error]
    event whose error has a string conversion, which first adds its
    error message at the end. With empty accumulated text no assistant
    message is committed. In every case the manager returns normally, is
    no longer streaming and holds no reference to the placeholder. *)
Theorem settle_promotes_pending `{Layout} (p : Page) (r t : nat)
    (pre post : list Node) (ev : JSValue) (message : jsstring) :
  streamingResponse (streamingManager p) = Some r ->
  streamingText (streamingManager p) = Some t ->
  children (chatMessages p) = pre ++ StreamingResponseEl r :: post ->
  StreamingResponseEl r ∉ pre ->
  errorReport ev message ->
  let text := textOf (chatMessages p) t in
  let report := errorPrefix ++ message in
  let completed := exec completeStreaming p in
  let failed := exec (handleStreamingEvent ev) p in
  (forall ev', Get ev' (js "event_type") = inr (JStr (js "complete")) ->
               handleStreamingEvent ev' p = completeStreaming p)
  /\ returns completeStreaming p = true
  /\ returns (handleStreamingEvent ev) p = true
  /\ streamingManager completed = mkStreamingManager None None None None false
  /\ streamingManager failed = mkStreamingManager None None None None false
  /\ (text <> [] ->
      children (chatMessages completed) = pre ++ MessageEl assistant text :: post
      /\ children (chatMessages failed) =
           pre ++ MessageEl assistant text :: post ++ [MessageEl error report])
  /\ (text = [] ->
      committed (transcript completed) = committed (transcript p)
      /\ committed (transcript failed) =
           committed (transcript p) ++ [Committed error report]).
Proof.
  intros Hr Ht Hch Hpre Hev. cbn zeta.
  (* the page the error event hands to completeStreaming *)
  set (p1 := exec (log console_error "Streaming error:" ≫= fun _ =>
                   addErrorMessage (errorPrefix ++ message)) p).
  assert (Hfail : handleStreamingEvent ev p = completeStreaming p1).
  { apply handleStreamingEvent_error. exact Hev. }
  assert (Hch1 : children (chatMessages p1)
                 = pre ++ StreamingResponseEl r
                     :: (post ++ [MessageEl error (errorPrefix ++ message)])).
  { subst p1. unfold exec, log, addErrorMessage, scrollToBottom. eff. page_simpl.
    rewrite Hch, <- app_assoc. reflexivity. }
  destruct (completeStreaming_promotes p r t pre post Hr Ht Hch Hpre)
    as (q & Hq & Hm & Hc).
  destruct (completeStreaming_promotes p1 r t pre _ Hr Ht Hch1 Hpre)
    as (q1 & Hq1 & Hm1 & Hc1).
  change (textOf (chatMessages p1) t) with (textOf (chatMessages p) t) in Hc1.
  split. { intros ev' Hev'. unfold handleStreamingEvent. rewrite Hev'. reflexivity. }
  unfold exec, returns. rewrite Hfail, Hq, Hq1. cbn [fst snd].
  do 4 (split; [reflexivity || assumption|]).
  split.
  - intros Hne. destruct (textOf (chatMessages p) t); [congruence|]. split; assumption.
  - intros He. rewrite He in Hc, Hc1. unfold transcript. rewrite Hc, Hc1, Hch1, Hch.
    split; [apply committed_entries|].
    rewrite app_comm_cons, app_assoc, fmap_app, committed_app.
    f_equal. apply committed_entries.
Qed.

Lemma settle_promotes_pending_witness :
  let p := streamingPage in
  let ev := errorEvent "boom" in
  streamingResponse (streamingManager p) = Some 0%nat
  /\ streamingText (streamingManager p) = Some 0%nat
  /\ children (chatMessages p) = [] ++ StreamingResponseEl 0 :: []
  /\ errorReport ev (js "boom")
  /\ textOf (chatMessages p) 0 = js "hi"
  /\ children (chatMessages (exec completeStreaming p)) = [MessageEl assistant (js "hi")]
  /\ children (chatMessages (exec (handleStreamingEvent ev) p)) =
       [MessageEl assistant (js "hi"); MessageEl error (errorPrefix ++ js "boom")].
Proof.
  assert (Hev : errorReport (errorEvent "boom") (js "boom")).
  { split; [reflexivity|]. exists (JStr (js "boom")). split; reflexivity. }
  do 3 (split; [reflexivity|]). split; [exact Hev|]. split; [reflexivity|].
  destruct (settle_promotes_pending streamingPage 0 0 [] [] (errorEvent "boom")
              (js "boom") eq_refl eq_refl eq_refl
              ltac:(apply not_elem_of_nil) Hev)
    as (_ & _ & _ & _ & _ & Hpromote & _).
  apply Hpromote. vm_compute. discriminate.
Defined.

(** C4, as stated, fails: on failure the pending entry is not discarded.
    An [error] event that arrives after [hi] was streamed commits [hi] as
    an assistant message. *)
Lemma pending_entry_promoted_on_error :
  let failed := exec (handleStreamingEvent (errorEvent "boom")) streamingPage in
  transcript streamingPage = [Pending (js "hi")]
  /\ transcript failed =
       [Committed assistant (js "hi"); Committed error (errorPrefix ++ js "boom")]
  /\ transcript failed <> [Committed error (errorPrefix ++ js "boom")].
Proof.
  split; [reflexivity|]. split; [reflexivity|]. vm_compute. discriminate.
Qed.

(** ** Session identity *)

Lemma padSessionId_unfold (fuel : nat) (random36 : nat -> string) (k : nat)
    (s : jsstring) :
  padSessionId fuel random36 k s =
  if (length s <? 33)%nat then
    match fuel with
    | O => None
    | S fuel' => padSessionId fuel' random36 (S k) (s ++ substring 2 3 (js (random36 k)))
    end
  else Some s.
Proof. destruct fuel; reflexivity. Qed.

Lemma padSessionId_length (fuel : nat) (random36 : nat -> string) (k : nat)
    (s id : jsstring) :
  padSessionId fuel random36 k s = Some id -> (33 <= length id)%nat.
Proof.
  revert k s. induction fuel as [|fuel IH]; intros k s;
    rewrite padSessionId_unfold;
    destruct (Nat.ltb_spec (length s) 33); intros E; simplify_eq; eauto.
Qed.

(** What [getOrCreateSessionId] returns is never the empty string, and it
    is what the storage holds afterwards. *)
Lemma getOrCreateSessionId_stored (fuel : nat) (now : Z) (random36 : nat -> string)
    (p p' : Page) (id : jsstring) :
  getOrCreateSessionId fuel now random36 p = Some (id, p') ->
  id <> [] /\ localStorage p' !! storageKey = Some id
  /\ sessionManager p' = sessionManager p /\ requests p' = requests p
  /\ chatMessages p' = chatMessages p.
Proof.
  unfold getOrCreateSessionId. intros E.
  assert (Hgen : forall id',
    padSessionId fuel random36 2 (freshSessionId now random36) = Some id' ->
    id' <> []).
  { intros id' Ep ->. apply padSessionId_length in Ep. cbn in Ep. lia. }
  destruct (localStorage p !! storageKey) as [[|c s]|] eqn:Es;
    try destruct (padSessionId fuel random36 2 (freshSessionId now random36)) as [id'|] eqn:Ep;
    cbn in E; simplify_eq; page_simpl;
    rewrite ?lookup_insert_eq; repeat split; eauto; discriminate.
Qed.

(** ** Percent-encoding *)

Lemma isUnescaped_ascii (c : N) : isUnescaped c = true -> (c < 128)%N.
Proof.
  unfold isUnescaped. rewrite !orb_true_iff, !andb_true_iff, !N.leb_le, !N.eqb_eq. lia.
Qed.

Lemma not_surrogate (c : N) :
  (c < 55296)%N -> isLeadSurrogate c = false /\ isTrailSurrogate c = false.
Proof.
  intros Hc. unfold isLeadSurrogate, isTrailSurrogate.
  rewrite !andb_false_iff, !N.leb_gt. lia.
Qed.

(** [encodeURIComponent] throws exactly on the strings that are not
    well formed, and what it throws is a [URIError]. *)
Lemma encodeURIComponent_wellFormed (s : jsstring) :
  match encodeURIComponent s with
  | inr _ => isWellFormed s = true
  | inl e => isWellFormed s = false /\ e = malformedURI
  end.
Proof.
  enough (Hboth :
    match encodeURIComponent s with
    | inr _ => isWellFormed s = true
    | inl e => isWellFormed s = false /\ e = malformedURI
    end
    /\ forall c,
      match encodeURIComponent (c :: s) with
      | inr _ => isWellFormed (c :: s) = true
      | inl e => isWellFormed (c :: s) = false /\ e = malformedURI
      end) by exact (proj1 Hboth).
  induction s as [|d s [IH1 IH2]].
  - split; [reflexivity|]. intros c. cbn.
    destruct (isUnescaped c) eqn:Hu.
    + destruct (not_surrogate c) as [-> ->]; [|reflexivity].
      apply isUnescaped_ascii in Hu. lia.
    + destruct (isLeadSurrogate c); [split; reflexivity|].
      destruct (isTrailSurrogate c); [split; reflexivity | reflexivity].
  - split; [apply IH2|]. intros c. specialize (IH2 d).
    cbn [encodeURIComponent isWellFormed] in *.
    destruct (isUnescaped c) eqn:Hu.
    + destruct (not_surrogate c) as [-> ->].
      { apply isUnescaped_ascii in Hu. lia. }
      cbn [negb andb].
      destruct (if isUnescaped d then _ else _) as [e|out]; exact IH2.
    + destruct (isLeadSurrogate c).
      * destruct (isTrailSurrogate d); cbn [andb]; [|split; reflexivity].
        destruct (encodeURIComponent s) as [e|out]; exact IH1.
      * destruct (isTrailSurrogate c); cbn [negb andb]; [split; reflexivity|].
        destruct (if isUnescaped d then _ else _) as [e|out]; exact IH2.
Qed.

Lemma historyUrl_wellFormed (id : jsstring) :
  isWellFormed id = true -> exists url, historyUrl (Some id) = inr url.
Proof.
  intros Hid. unfold historyUrl. cbn [default from_option Datatypes.id].
  pose proof (encodeURIComponent_wellFormed id) as He.
  destruct (encodeURIComponent id) as [e|out]; [|eexists; reflexivity].
  destruct He as [He _]. congruence.
Qed.


(** Text without surrogates is well formed; such is every text of the
    source and every text built from digits and letters. *)
Lemma isWellFormed_no_surrogates (s : jsstring) :
  Forall (fun c => (c < 55296)%N) s -> isWellFormed s = true.
Proof.
  induction 1 as [|c s Hc Hs IH]; [reflexivity|].
  cbn [isWellFormed]. destruct (not_surrogate c Hc) as [-> ->]. exact IH.
Qed.

Lemma js_no_surrogates (s : string) : Forall (fun c => (c < 55296)%N) (js s).
Proof.
  unfold js. apply Forall_fmap, Forall_forall. intros a _. cbn.
  pose proof (N_ascii_bounded a). lia.
Qed.
(** ** Loading the history *)

Section HistoryLoads.
Context `{Layout}.

(** The welcome fallback, for a session whose history URL can be built:
    one more history request, and then the server's markup, the way to
    the login page, or the built-in welcome message. *)
Lemma showWelcomeMessage_history_settles (netWelcome : FetchOutcome) (q : Page)
    (url : jsstring) :
  historyUrl (sessionId (sessionManager q)) = inr url ->
  exists q',
    showWelcomeMessage_history netWelcome q = (Normal tt, q')
    /\ ((exists html, children (chatMessages q') = markup html)
        \/ children (chatMessages q') = [WelcomeMessageEl]
        \/ (children (chatMessages q') = [] /\ location q' = js "/login"))
    /\ requests q' = requests q ++ [GetChatHistory (sessionId (sessionManager q))]
    /\ sessionManager q' = sessionManager q
    /\ localStorage q' = localStorage q.
Proof.
  intros Hurl.
  unfold showWelcomeMessage_history, getCurrentSessionId, clearMessages, log. eff.
  page_simpl. rewrite Hurl. cbn [liftE]. eff.
  unfold try_catch, fetch, responseText, setContent, showWelcomeMessage, scrollToBottom,
    httpError, log. eff. page_simpl.
  destruct netWelcome as [e|r]; eff.
  - eexists. split; [reflexivity|]. page_simpl. split; [right; left; reflexivity|].
    repeat split.
  - destruct (ok r);
      [destruct (responseBody r); [destruct (bodyError r)|]|destruct (status r =? 401)]; eff;
      (eexists; split; [reflexivity|]); page_simpl;
      (split; [first [ left; eexists; reflexivity
                     | right; left; reflexivity
                     | right; right; split; reflexivity ]|]);
      repeat split.
Qed.

(** A history load for a session that has an id whose history URL can be
    built and that is not marked as new. *)
Lemma loadInitialHistory_run (net netWelcome : FetchOutcome) (p : Page)
    (c : N) (s : jsstring) :
  sessionManager p = mkSessionManager (Some (c :: s)) false ->
  isWellFormed (c :: s) = true ->
  let p' := exec (loadInitialHistory net netWelcome) p in
  let request := GetChatHistory (Some (c :: s)) in
  returns (loadInitialHistory net netWelcome) p = true
  /\ ((exists html, children (chatMessages p') = markup html)
      \/ children (chatMessages p') = [AuthenticationErrorEl]
      \/ children (chatMessages p') = [WelcomeMessageEl]
      \/ (children (chatMessages p') = [] /\ location p' = js "/login"))
  /\ (requests p' = requests p ++ [request]
      \/ requests p' = requests p ++ [request; request])
  /\ sessionManager p' = sessionManager p
  /\ localStorage p' = localStorage p.
Proof.
  intros Hs Hwf. destruct (historyUrl_wellFormed _ Hwf) as [url Hurl].
  cbn zeta. unfold exec, returns.
  set (good := fun run : Completion unit * Page =>
    (match fst run with Normal _ => true | Throw _ => false end) = true
    /\ ((exists html, children (chatMessages (snd run)) = markup html)
        \/ children (chatMessages (snd run)) = [AuthenticationErrorEl]
        \/ children (chatMessages (snd run)) = [WelcomeMessageEl]
        \/ (children (chatMessages (snd run)) = [] /\ location (snd run) = js "/login"))
    /\ (requests (snd run) = requests p ++ [GetChatHistory (Some (c :: s))]
        \/ requests (snd run) = requests p ++ [GetChatHistory (Some (c :: s));
                                               GetChatHistory (Some (c :: s))])
    /\ sessionManager (snd run) = sessionManager p
    /\ localStorage (snd run) = localStorage p).
  change (good (loadInitialHistory net netWelcome p)).
  (* what the catch block does, on the page it finds *)
  assert (Hcatch : forall q : Page,
    sessionManager q = sessionManager p -> localStorage q = localStorage p ->
    requests q = requests p ++ [GetChatHistory (Some (c :: s))] ->
    good ((log console_error "Failed to load initial chat history:" ≫= fun _ =>
           try_catch (showWelcomeMessage_history netWelcome) (fun _ => mret tt)) q)).
  { intros q Hq1 Hq2 Hq3. unfold log. eff. unfold try_catch.
    match goal with |- context [showWelcomeMessage_history netWelcome ?q0] =>
      destruct (showWelcomeMessage_history_settles netWelcome q0 url)
        as (q' & Hrun & Hch & Hreq & Hsm & Hst) end.
    { page_simpl. rewrite Hq1, Hs. exact Hurl. }
    rewrite Hrun. subst good. cbn [fst snd]. page_simpl. split; [reflexivity|].
    split; [destruct Hch as [Hch|[Hch|Hch]]; auto|].
    split; [right; rewrite Hreq, Hq3, Hq1, Hs, <- app_assoc; reflexivity|].
    split; congruence. }
  unfold loadInitialHistory, isNewSession, getCurrentSessionId. eff. rewrite Hs.
  cbn [isNewSessionJustCreated]. eff. rewrite Hs. cbn [sessionId]. rewrite Hurl.
  cbn [liftE]. eff.
  unfold showLoadingIndicator, fetch, responseText, setContent, showAuthenticationError,
    scrollToBottom, httpError. eff. unfold try_catch at 1.
  destruct net as [e|r]; eff.
  - apply Hcatch; reflexivity.
  - destruct (ok r).
    + destruct (responseBody r); [destruct (bodyError r)|]; eff.
      * apply Hcatch; reflexivity.
      * subst good. cbn [fst snd]. page_simpl. split; [reflexivity|].
        split; [left; eexists; reflexivity|].
        split; [left; reflexivity|]. split; reflexivity.
      * subst good. cbn [fst snd]. page_simpl. split; [reflexivity|].
        split; [left; eexists; reflexivity|].
        split; [left; reflexivity|]. split; reflexivity.
    + destruct (status r =? 401); eff.
      * unfold log. eff. subst good. cbn [fst snd]. page_simpl. split; [reflexivity|].
        split; [right; left; reflexivity|]. split; [left; reflexivity|]. split; reflexivity.
      * destruct (responseBody r); [destruct (bodyError r)|]; eff;
          try (unfold log at 1; eff); apply Hcatch; reflexivity.
Qed.

End HistoryLoads.

(** ** A session that was just started *)

Lemma substring_no_surrogates (from to : nat) (s : jsstring) :
  Forall (fun c => (c < 55296)%N) s ->
  Forall (fun c => (c < 55296)%N) (substring from to s).
Proof. intros Hs. unfold substring. apply Forall_take, Forall_drop, Hs. Qed.

Lemma padSessionId_no_surrogates (fuel : nat) (random36 : nat -> string) (k : nat)
    (s id : jsstring) :
  Forall (fun c => (c < 55296)%N) s ->
  padSessionId fuel random36 k s = Some id ->
  Forall (fun c => (c < 55296)%N) id.
Proof.
  revert k s. induction fuel as [|fuel IH]; intros k s Hs;
    rewrite padSessionId_unfold;
    destruct (Nat.ltb_spec (length s) 33); intros E; simplify_eq; auto.
  eapply IH; [|exact E]. apply Forall_app. split; [exact Hs|].
  apply substring_no_surrogates, js_no_surrogates.
Qed.

Lemma freshSessionId_no_surrogates (now : Z) (random36 : nat -> string) :
  Forall (fun c => (c < 55296)%N) (freshSessionId now random36).
Proof.
  unfold freshSessionId, Z_toString.
  repeat (apply Forall_app; split);
    auto using js_no_surrogates, substring_no_surrogates.
Qed.

Section FreshSession.
Context `{Layout}.

(** The id of a session that was just started is one this code has
    generated: it is not empty and holds digits, letters and hyphens
    only. *)
Lemma startNewSession_fresh (fuel : nat) (now : Z) (random36 : nat -> string)
    (netReset : FetchOutcome) (p p1 : Page) (id : jsstring) :
  startNewSession fuel now random36 netReset p = Some (Normal id, p1) ->
  sessionManager p1 = mkSessionManager (Some id) true /\ id <> []
  /\ isWellFormed id = true.
Proof.
  unfold startNewSession.
  destruct (resetChatSession netReset p) as [[[]|e] p0] eqn:Er; [|intros E; discriminate].
  assert (Hgone : localStorage p0 !! storageKey = None).
  { pose proof (f_equal snd Er) as E0. cbn [snd] in E0. subst p0.
    unfold resetChatSession, try_catch, fetch. destruct netReset; cbn; apply lookup_delete_eq. }
  destruct (getOrCreateSessionId fuel now random36 p0) as [[id' p2]|] eqn:Eg; cbn;
    intros E; [|discriminate].
  injection E as <- <-. split; [reflexivity|]. split.
  - apply getOrCreateSessionId_stored in Eg. tauto.
  - apply isWellFormed_no_surrogates.
    unfold getOrCreateSessionId in Eg. rewrite Hgone in Eg.
    destruct (padSessionId fuel random36 2 (freshSessionId now random36)) as [id''|] eqn:Ep;
      cbn in Eg; [|discriminate].
    injection Eg as <- _.
    eapply padSessionId_no_surrogates; [|exact Ep]. apply freshSessionId_no_surrogates.
Qed.

End FreshSession.

(** C6, as the code has it. After [startNewSession] the startup history
    load returns at once and leaves the page as it was: no history request
    is issued, and the fresh-session flag stays set, so every later load of
    that page is skipped in the same way. Only [clearNewSessionFlag], which
    no history path calls, lets a load proceed: it then issues the history
    request for the new id. *)
Theorem fresh_session_skips_history `{Layout} (fuel : nat) (now : Z)
    (random36 : nat -> string) (netReset : FetchOutcome) (p p1 : Page)
    (id : jsstring) :
  startNewSession fuel now random36 netReset p = Some (Normal id, p1) ->
  isNewSessionJustCreated (sessionManager p1) = true
  /\ (forall net netWelcome, loadInitialHistory net netWelcome p1 = (Normal tt, p1))
  /\ (forall net netWelcome, exists more,
        requests (exec (loadInitialHistory net netWelcome) (exec clearNewSessionFlag p1))
        = requests p1 ++ GetChatHistory (Some id) :: more).
Proof.
  intros Hstart. destruct (startNewSession_fresh _ _ _ _ _ _ _ Hstart) as (Hm & Hid & Hwf).
  split; [rewrite Hm; reflexivity|]. split.
  - intros net netWelcome. unfold loadInitialHistory, isNewSession. eff.
    rewrite Hm. reflexivity.
  - intros net netWelcome. destruct id as [|c s]; [congruence|].
    destruct (loadInitialHistory_run net netWelcome (exec clearNewSessionFlag p1) c s)
      as (_ & _ & Hreq & _).
    { unfold exec, clearNewSessionFlag. eff. page_simpl. rewrite Hm. reflexivity. }
    { exact Hwf. }
    cbn zeta in Hreq. destruct Hreq as [-> | ->]; eexists; reflexivity.
Qed.

Lemma fresh_session_skips_history_witness :
  let p := with_localStorage (insert storageKey (js "sid")) (freshPage [] (Some (js "sid"))) in
  let id := js "healthmate-chat-1700000000000-k3x9q2m-k3x9q2m" in
  startNewSession 33 1700000000000 (fun _ => "0.k3x9q2m"%string)
    (FetchResolves (mkResponse 200 (js "OK") [] None)) p = Some (Normal id, newSessionPage)
  /\ loadInitialHistory historyResponse historyResponse newSessionPage
     = (Normal tt, newSessionPage)
  /\ requests newSessionPage = [PostClearSession].
Proof.
  assert (Hstart :
    startNewSession 33 1700000000000 (fun _ => "0.k3x9q2m"%string)
      (FetchResolves (mkResponse 200 (js "OK") [] None))
      (with_localStorage (insert storageKey (js "sid")) (freshPage [] (Some (js "sid"))))
    = Some (Normal (js "healthmate-chat-1700000000000-k3x9q2m-k3x9q2m"), newSessionPage)).
  { vm_compute. reflexivity. }
  split; [exact Hstart|]. split; [|vm_compute; reflexivity].
  exact (proj1 (proj2 (fresh_session_skips_history 33 1700000000000
           (fun _ => "0.k3x9q2m"%string)
           (FetchResolves (mkResponse 200 (js "OK") [] None))
           (with_localStorage (insert storageKey (js "sid")) (freshPage [] (Some (js "sid"))))
           newSessionPage (js "healthmate-chat-1700000000000-k3x9q2m-k3x9q2m") Hstart))
         historyResponse historyResponse).
Defined.

(** C6, as stated, fails: the skipped load does not clear the flag, and a
    second load is skipped as well although the session has an id and the
    server would answer. *)
Lemma skipped_load_keeps_fresh_flag :
  let once := exec (loadInitialHistory historyResponse historyResponse) newSessionPage in
  let twice := exec (loadInitialHistory historyResponse historyResponse) once in
  isNewSessionJustCreated (sessionManager once) = true
  /\ isNewSessionJustCreated (sessionManager once) <> false
  /\ requests twice = [PostClearSession]
  /\ ~ In (GetChatHistory (sessionId (sessionManager newSessionPage))) (requests twice).
Proof.
  split; [vm_compute; reflexivity|]. split; [vm_compute; discriminate|].
  split; [vm_compute; reflexivity|].
  vm_compute. intros [E|[]]. discriminate.
Qed.
Lemma padSessionId_prefix (fuel : nat) (random36 : nat -> string) (k : nat)
    (s id : jsstring) :
  padSessionId fuel random36 k s = Some id -> s `prefix_of` id.
Proof.
  revert k s. induction fuel as [|fuel IH]; intros k s;
    rewrite padSessionId_unfold;
    destruct (Nat.ltb_spec (length s) 33); intros E; simplify_eq; try reflexivity.
  apply IH in E. etrans; [apply prefix_app_r; reflexivity | exact E].
Qed.

Lemma substring_2_3_length (r : jsstring) :
  (3 <= length r)%nat -> length (substring 2 3 r) = 1%nat.
Proof.
  intros Hr. unfold substring. rewrite length_take, length_drop. lia.
Qed.

(** When no draw of the padding loop reads as the bare [0], every turn
    of the loop adds a character, so the loop ends within 33 turns. *)
Lemma padSessionId_total (fuel : nat) (random36 : nat -> string) (k : nat)
    (s : jsstring) :
  (forall i, k <= i -> 3 <= length (js (random36 i)))%nat ->
  (33 <= fuel + length s)%nat ->
  is_Some (padSessionId fuel random36 k s).
Proof.
  revert k s. induction fuel as [|fuel IH]; intros k s Hr Hf;
    rewrite padSessionId_unfold;
    destruct (Nat.ltb_spec (length s) 33); eauto; [lia|].
  apply IH.
  - intros i Hi. apply Hr. lia.
  - rewrite length_app, substring_2_3_length by (apply Hr; lia). lia.
Qed.

(** A call on a page whose storage holds a non-empty id returns that id
    and changes nothing. *)
Lemma getOrCreateSessionId_persisted (fuel : nat) (now : Z) (random36 : nat -> string)
    (p : Page) (id : jsstring) :
  id <> [] -> localStorage p !! storageKey = Some id ->
  getOrCreateSessionId fuel now random36 p = Some (id, p).
Proof.
  intros Hne Hs. unfold getOrCreateSessionId. rewrite Hs.
  destruct id; [congruence | reflexivity].
Qed.

Lemma resolveAll_persisted (calls : list (nat * Z * (nat -> string))) (p : Page)
    (id : jsstring) :
  id <> [] -> localStorage p !! storageKey = Some id ->
  resolveAll calls p = Some (replicate (length calls) id, p).
Proof.
  intros Hne Hs. induction calls as [|[[fuel now] random36] calls IH]; [reflexivity|].
  cbn [resolveAll]. rewrite (getOrCreateSessionId_persisted _ _ _ _ id Hne Hs).
  cbn. rewrite IH. reflexivity.
Qed.

(** C5, as the code has it. A call of [getOrCreateSessionId] returns
    whenever no random draw of the padding loop (the draws after the
    first two) reads as the bare [0] and 33 turns of the loop are
    allowed. Once it has returned an id, every later call with no reset
    in between returns that same id and leaves the page as it is. A
    persisted id is returned as it is whenever it is not empty, whatever
    its length; only when nothing is stored, or the empty string, is an
    id synthesized from the timestamp and two random segments, padded to
    at least 33 characters, persisted and returned. *)
Theorem resolve_is_idempotent (fuel : nat) (now : Z) (random36 : nat -> string)
    (p : Page) (calls : list (nat * Z * (nat -> string))) :
  ((forall i, 2 <= i -> 3 <= length (js (random36 i)))%nat -> (33 <= fuel)%nat ->
   is_Some (getOrCreateSessionId fuel now random36 p))
  /\ forall id p1,
       getOrCreateSessionId fuel now random36 p = Some (id, p1) ->
       resolveAll calls p1 = Some (replicate (length calls) id, p1)
       /\ localStorage p1 !! storageKey = Some id
       /\ match localStorage p !! storageKey with
          | Some (c :: s) => id = c :: s /\ p1 = p
          | _ =>
              (33 <= length id)%nat
              /\ freshSessionId now random36 `prefix_of` id
              /\ p1 = with_localStorage (insert storageKey id) p
          end.
Proof.
  split.
  - intros Hr Hf. unfold getOrCreateSessionId.
    destruct (padSessionId_total fuel random36 2 (freshSessionId now random36) Hr)
      as [id Hid]; [lia|].
    rewrite Hid. destruct (localStorage p !! storageKey) as [[|c s]|]; cbn; eauto.
  - intros id p1 Hget.
    destruct (getOrCreateSessionId_stored _ _ _ _ _ _ Hget) as (Hne & Hst & _).
    split; [apply resolveAll_persisted; assumption|]. split; [assumption|].
    unfold getOrCreateSessionId in Hget.
    destruct (localStorage p !! storageKey) as [[|c s]|];
      try destruct (padSessionId fuel random36 2 (freshSessionId now random36))
            as [id'|] eqn:Ep;
      cbn in Hget; simplify_eq; try (split; reflexivity);
      (split; [eapply padSessionId_length; eassumption|]);
      (split; [eapply padSessionId_prefix; eassumption | reflexivity]).
Qed.

Lemma resolve_is_idempotent_witness :
  let random36 := fun _ : nat => "0.k3x9q2m"%string in
  let id := js "healthmate-chat-1700000000000-k3x9q2m-k3x9q2m" in
  let p := freshPage [] None in
  let p1 := with_localStorage (insert storageKey id) p in
  ((forall i, 2 <= i -> 3 <= length (js (random36 i)))%nat /\ (33 <= 33)%nat)
  /\ is_Some (getOrCreateSessionId 33 1700000000000 random36 p)
  /\ getOrCreateSessionId 33 1700000000000 random36 p = Some (id, p1)
  /\ resolveAll [(0%nat, 5, fun _ => EmptyString); (7%nat, 1700000000001, random36)] p1
     = Some ([id; id], p1)
  /\ (33 <= length id)%nat.
Proof.
  split; [split; [intros i _; cbn; lia | lia]|].
  destruct (resolve_is_idempotent 33 1700000000000 (fun _ : nat => "0.k3x9q2m"%string)
              (freshPage [] None)
              [(0%nat, 5, fun _ => EmptyString); (7%nat, 1700000000001, fun _ : nat => "0.k3x9q2m"%string)])
    as [Htotal Hsame].
  split; [apply Htotal; [intros i _; cbn; lia | lia]|].
  split; [reflexivity|].
  destruct (Hsame _ _ eq_refl) as (Hall & _ & Hlen & _).
  split; [exact Hall | exact Hlen].
Defined.

(** C5, as stated, fails: a persisted id is returned without a check of
    its length, so a stored id of three characters is what resolution
    returns. *)
Lemma short_persisted_id_is_returned :
  getOrCreateSessionId 33 1700000000000 (fun _ => "0.k3x9q2m"%string) shortIdPage
  = Some (js "abc", shortIdPage)
  /\ ~ (33 <= length (js "abc"))%nat.
Proof.
  split; [reflexivity|]. cbn. lia.
Qed.

(** ** The stream decode loop *)

Lemma decode_app (d : TextDecoder) (a b : list Byte.byte) :
  decode d (a ++ b) =
  let '(d1, s1) := decode d a in
  let '(d2, s2) := decode d1 b in
  (d2, s1 ++ s2).
Proof.
  revert d. induction a as [|x a IH]; intros d; cbn [app decode].
  - destruct (decode d b). reflexivity.
  - destruct (utf8Byte d (Byte.to_N x)) as [d1 cps].
    destruct (emit d1 cps) as [d2 s]. rewrite IH.
    destruct (decode d2 a) as [d3 s1]. destruct (decode d3 b) as [d4 s2].
    rewrite app_assoc. reflexivity.
Qed.

Lemma split_lf_nonempty (s : jsstring) : split_lf s <> [].
Proof.
  destruct s as [|c s]; cbn; [discriminate|].
  destruct (N.eqb c 10); [discriminate|]. destruct (split_lf s); discriminate.
Qed.

Lemma last_app_nonempty {A} (l l' : list A) (d : A) :
  l' <> [] -> List.last (l ++ l') d = List.last l' d.
Proof.
  intros Hne. induction l as [|x l IH]; [reflexivity|].
  cbn [app]. destruct (l ++ l') eqn:E.
  - destruct l; [cbn in E; congruence | discriminate].
  - rewrite <- IH. reflexivity.
Qed.

Lemma removelast_app_nonempty {A} (l l' : list A) :
  l' <> [] -> removelast (l ++ l') = l ++ removelast l'.
Proof. intros Hne. apply removelast_app. exact Hne. Qed.

(** Splitting a text that continues: the complete lines found so far
    stay, and the unfinished last segment is split again with what
    follows. *)
Lemma split_lf_app (a b : jsstring) :
  split_lf (a ++ b) =
  removelast (split_lf a) ++ split_lf (List.last (split_lf a) [] ++ b).
Proof.
  induction a as [|c a IH]; [reflexivity|].
  cbn [app split_lf]. destruct (N.eqb c 10) eqn:Ec.
  - rewrite IH. pose proof (split_lf_nonempty a) as Hne.
    destruct (split_lf a) as [|seg segs]; [congruence|]. reflexivity.
  - rewrite IH. pose proof (split_lf_nonempty a) as Hne.
    destruct (split_lf a) as [|seg segs]; [congruence|].
    destruct segs as [|seg' segs].
    + cbn [removelast List.last app split_lf]. rewrite Ec. reflexivity.
    + reflexivity.
Qed.

(** The segment kept as the buffer holds no line feed. *)
Lemma split_lf_last (s : jsstring) :
  split_lf (List.last (split_lf s) []) = [List.last (split_lf s) []].
Proof.
  induction s as [|c s IH]; [reflexivity|].
  cbn [split_lf]. pose proof (split_lf_nonempty s) as Hne.
  destruct (N.eqb c 10) eqn:Ec; destruct (split_lf s) as [|seg segs]; try congruence.
  - exact IH.
  - destruct segs as [|seg' segs]; [|exact IH].
    cbn [List.last] in *. cbn [split_lf]. rewrite Ec, IH. reflexivity.
Qed.

(** Reading a chunk that arrives in two pieces. *)
Lemma readChunk_app (st : LoopState) (a b : list Byte.byte) :
  readChunk st (a ++ b) =
  let '(st1, lines1) := readChunk st a in
  let '(st2, lines2) := readChunk st1 b in
  (st2, lines1 ++ lines2).
Proof.
  destruct st as [d buffer]. unfold readChunk. rewrite decode_app.
  destruct (decode d a) as [d1 s1]. destruct (decode d1 b) as [d2 s2].
  rewrite app_assoc, split_lf_app.
  set (kept := List.last (split_lf (buffer ++ s1)) []).
  pose proof (split_lf_nonempty (kept ++ s2)) as Hne.
  rewrite last_app_nonempty, removelast_app_nonempty by exact Hne. reflexivity.
Qed.

Lemma readChunk_buffer (st : LoopState) (value : list Byte.byte) :
  let buffer := snd (fst (readChunk st value)) in
  split_lf buffer = [buffer].
Proof.
  destruct st as [d buffer]. unfold readChunk.
  destruct (decode d value) as [d1 s1]. cbn. apply split_lf_last.
Qed.

Lemma readChunk_nil (st : LoopState) :
  split_lf (snd st) = [snd st] -> readChunk st [] = (st, []).
Proof.
  destruct st as [d buffer]. cbn. intros E. rewrite app_nil_r, E. reflexivity.
Qed.

(** Reading the chunks one at a time is reading their concatenation. *)
Lemma readChunks_concat (values : list (list Byte.byte)) (st : LoopState) :
  split_lf (snd st) = [snd st] ->
  readChunks st values = readChunk st (concat values).
Proof.
  revert st. induction values as [|value rest IH]; intros st Hst.
  - cbn. rewrite readChunk_nil by exact Hst. reflexivity.
  - cbn [readChunks concat]. rewrite readChunk_app.
    pose proof (readChunk_buffer st value) as Hb.
    destruct (readChunk st value) as [st1 lines1]. rewrite IH by exact Hb. reflexivity.
Qed.

Lemma bind_ext {A B} (m : Eff A) (f g : A -> Eff B) (p : Page) :
  (forall a p', f a p' = g a p') -> (m ≫= f) p = (m ≫= g) p.
Proof.
  intros E. unfold mbind, Eff_bind. destruct (m p) as [[a|e] p']; [apply E | reflexivity].
Qed.

Lemma bind_cong_l {A B} (m m' : Eff A) (f : A -> Eff B) (p : Page) :
  (forall p', m p' = m' p') -> (m ≫= f) p = (m' ≫= f) p.
Proof. intros E. unfold mbind, Eff_bind. rewrite E. reflexivity. Qed.

Section DecodeLoop.
Context `{Layout} `{JSON}.

Lemma processLines_app (l l' : list jsstring) (p : Page) :
  processLines (l ++ l') p = (processLines l ≫= fun _ => processLines l') p.
Proof.
  revert p. induction l as [|line l IH]; intros p; [reflexivity|].
  cbn [app processLines]. rewrite bind_assoc.
  unfold mbind, Eff_bind. destruct (processLine line p) as [[[]|e] p1]; [apply IH | reflexivity].
Qed.

(** The loop handles the complete lines of all its turns, in order, and
    then ends as the body ends. *)
Lemma readLoop_lines (values : list (list Byte.byte)) (st : LoopState)
    (bodyError : option JSError) (p : Page) :
  readLoop st values bodyError p =
  (processLines (snd (readChunks st values)) ≫= fun _ =>
   readLoop (fst (readChunks st values)) [] bodyError) p.
Proof.
  revert st p. induction values as [|value rest IH]; intros st p; [reflexivity|].
  cbn [readLoop readChunks]. destruct (readChunk st value) as [st1 lines1].
  destruct (readChunks st1 rest) as [st2 lines2] eqn:E. cbn [fst snd].
  rewrite (bind_cong_l _ _ _ p (processLines_app lines1 lines2)), bind_assoc.
  apply bind_ext. intros [] p1. rewrite IH, E. reflexivity.
Qed.

End DecodeLoop.

(** A character whose three bytes arrive in two chunks is decoded once
    the last byte is there, and the line it stands on is complete with
    the line feed. *)
Example readChunks_split_character :
  readChunks initialLoopState [[Byte.xe3; Byte.x81]; [Byte.x82; Byte.x0a]]
  = readChunks initialLoopState [[Byte.xe3; Byte.x81; Byte.x82; Byte.x0a]]
  /\ snd (readChunks initialLoopState [[Byte.xe3; Byte.x81]; [Byte.x82; Byte.x0a]])
     = [[12354%N]].
Proof. split; reflexivity. Qed.

(** C3. However the bytes of the response body are cut into chunks, the
    decode loop hands the same events to [handleStreamingEvent] in the
    same order as when the whole body arrives as one chunk, and it leaves
    the same page behind. *)
Theorem decode_loop_chunking_independent `{Layout} `{JSON}
    (fragments : list (list Byte.byte)) :
  deliveredEvents fragments = deliveredEvents [concat fragments]
  /\ forall (bodyError : option JSError) (p : Page),
       readLoop initialLoopState fragments bodyError p
       = readLoop initialLoopState [concat fragments] bodyError p.
Proof.
  assert (E : readChunks initialLoopState fragments
              = readChunks initialLoopState [concat fragments]).
  { rewrite !readChunks_concat by reflexivity. cbn [concat]. rewrite app_nil_r. reflexivity. }
  split.
  - unfold deliveredEvents. rewrite E. reflexivity.
  - intros bodyError p. rewrite !readLoop_lines, E. reflexivity.
Qed.

(** ** A response while it streams *)

Lemma with_console_id (q : Page) : with_console (fun l => l) q = q.
Proof. destruct q. reflexivity. Qed.

Lemma streamedText_chunk (ev : JSValue) :
  isChunkEvent ev ->
  streamedText ev = match chunkText ev with inr s => s | inl _ => [] end.
Proof.
  intros Hev. unfold streamedText. apply eventType_Get in Hev.
  rewrite decide_True by exact Hev. reflexivity.
Qed.

Lemma streamedText_other (ev : JSValue) :
  eventType ev <> Some (js "chunk") -> streamedText ev = [].
Proof. intros Hev. unfold streamedText. rewrite decide_False by exact Hev. reflexivity. Qed.

Lemma quiet_not_special (t : jsstring) :
  t ∈ quietEventTypes -> t <> js "chunk" /\ t <> js "complete" /\ t <> js "error".
Proof.
  unfold quietEventTypes. rewrite !elem_of_cons.
  intros [->|[->|[->|[->|[->|E]]]]]; try (repeat split; discriminate).
  apply elem_of_nil in E. destruct E.
Qed.

Lemma streamedText_quiet (ev : JSValue) : isQuietEvent ev -> streamedText ev = [].
Proof.
  intros (t & Ht & Hin). apply streamedText_other. rewrite Ht.
  destruct (quiet_not_special t Hin) as (Hc & _). congruence.
Qed.

Lemma quiet_not_terminal (ev : JSValue) : isQuietEvent ev -> ~ isTerminalEvent ev.
Proof.
  intros (t & Ht & Hin) Hterm. destruct (quiet_not_special t Hin) as (_ & Hc & He).
  destruct Hterm as [E|E]; congruence.
Qed.

Lemma stream_event_not_terminal (ev : JSValue) : isStreamEvent ev -> ~ isTerminalEvent ev.
Proof.
  intros [[Hev _]|Hev]; [|apply quiet_not_terminal; exact Hev].
  apply eventType_Get in Hev. intros [E|E]; rewrite Hev in E; discriminate.
Qed.

Section Streaming.
Context `{Layout}.

(** The events [connected], [user_message], [ai_thinking],
    [ai_message_complete] and [disconnected] change nothing. *)
Lemma quiet_event_run (ev : JSValue) (p : Page) :
  isQuietEvent ev -> handleStreamingEvent ev p = (Normal tt, p).
Proof.
  intros (t & Ht & Hin). apply eventType_Get in Ht.
  unfold handleStreamingEvent. rewrite Ht. cbn [liftE]. eff.
  unfold quietEventTypes in Hin. rewrite !elem_of_cons in Hin.
  destruct Hin as [->|[->|[->|[->|[->|Hin]]]]]; [reflexivity .. |].
  apply elem_of_nil in Hin. destruct Hin.
Qed.

(** An event that is neither a chunk nor a [complete] or [error] event
    leaves at most a warning on the console, unless reading its type
    throws, which changes nothing. *)
Lemma other_event_run (ev : JSValue) (p : Page) :
  eventType ev <> Some (js "chunk") -> ~ isTerminalEvent ev ->
  exists c f, handleStreamingEvent ev p = (c, with_console f p).
Proof.
  intros Hchunk Hterm. unfold isTerminalEvent, eventType in *.
  unfold handleStreamingEvent.
  destruct (Get ev (js "event_type")) as [e|v]; cbn [liftE]; eff.
  - exists (Throw e), (fun l => l). rewrite with_console_id. reflexivity.
  - destruct v as [| |b|n|t|l|fs];
      try (eexists _, _; unfold log; eff; reflexivity).
    repeat (match goal with |- context [decide (t = ?x)] =>
              destruct (decide (t = x)) as [->|?]
            end; cbn beta iota);
      try (exists (Normal tt), (fun l => l); rewrite with_console_id; reflexivity);
      try (eexists _, _; unfold log; eff; reflexivity);
      try (exfalso; apply Hchunk; reflexivity);
      exfalso; apply Hterm; auto.
Qed.

Lemma Streamed_console (base : list Node) (r0 : nat) (text : jsstring) (q : Page)
    (f : list (ConsoleLevel * string) -> list (ConsoleLevel * string)) :
  Streamed base r0 text q -> Streamed base r0 text (with_console f q).
Proof. intros [Hm Hc Hb Ht]. split; assumption. Qed.

(** A chunk that arrives during a send adds its text to the pending
    entry and changes nothing else of the send's state; when its text has
    no string conversion the handler throws and the pending entry keeps
    its text. *)
Lemma chunk_event_streamed (base : list Node) (r0 : nat) (text : jsstring)
    (ev : JSValue) (q : Page) :
  Streamed base r0 text q ->
  isChunkEvent ev ->
  exists q',
    handleStreamingEvent ev q
    = (match chunkText ev with inr _ => Normal tt | inl e => Throw e end, q')
    /\ Streamed base r0 (text ++ streamedText ev) q'.
Proof.
  intros [Hm Hc Hb Ht] Hev.
  destruct (Get_total ev _ (js "text") _ Hev) as [x Hx].
  rewrite event_type_dispatch_chunk by exact Hev.
  rewrite streamedText_chunk by exact Hev.
  unfold chunkText. rewrite Hx.
  unfold handleChunk. rewrite Hx. unfold liftE. eff.
  destruct (ToBoolean x) eqn:Hbool.
  2: { exists q. split; [reflexivity|]. rewrite app_nil_r. split; assumption. }
  eff. rewrite Hm. cbn [isStreaming negb thinkingIndicator streamingText typingIndicator]. eff.
  rewrite Hm. cbn [isStreaming negb thinkingIndicator streamingText typingIndicator]. eff.
  unfold smartScrollToBottom, scrollToBottom.
  destruct (elements (chatMessages q) !! r0) as [el|] eqn:Hel; [|discriminate].
  cbn in Ht. injection Ht as Ht.
  destruct (ToString x) as [e|appended];
  destruct (negb (default false (thinkingHidden <$> Some el))) eqn:Hh; eff;
    try (match goal with |- context [Z.leb ?a ?b] => destruct (Z.leb a b) end); eff;
    (eexists; split; [reflexivity|]); (split; page_simpl; try assumption);
    rewrite ?lookup_alter_eq, Hel; cbn; rewrite ?Ht, ?app_nil_r; reflexivity.
Qed.

(** One event of a response in progress that is no [complete] or [error]
    event: the pending entry grows by the event's text and stays the only
    one, whether the handler returns or throws. *)
Lemma event_streamed (base : list Node) (r0 : nat) (text : jsstring)
    (ev : JSValue) (q : Page) :
  Streamed base r0 text q ->
  ~ isTerminalEvent ev ->
  exists c q', handleStreamingEvent ev q = (c, q')
               /\ Streamed base r0 (text ++ streamedText ev) q'.
Proof.
  intros Hq Hterm. destruct (decide (eventType ev = Some (js "chunk"))) as [Hev|Hev].
  - apply eventType_Get in Hev.
    destruct (chunk_event_streamed base r0 text ev q Hq Hev) as (q' & Hrun & Hq').
    eauto.
  - destruct (other_event_run ev q Hev Hterm) as (c & f & Hrun).
    exists c, (with_console f q). split; [exact Hrun|].
    rewrite streamedText_other, app_nil_r by exact Hev.
    apply Streamed_console. exact Hq.
Qed.

(** An event the handler takes without an exception. *)
Lemma stream_event_streamed (base : list Node) (r0 : nat) (text : jsstring)
    (ev : JSValue) (q : Page) :
  Streamed base r0 text q ->
  isStreamEvent ev ->
  exists q', handleStreamingEvent ev q = (Normal tt, q')
             /\ Streamed base r0 (text ++ streamedText ev) q'.
Proof.
  intros Hq [[Hev [s Hs]]|Hev].
  - destruct (chunk_event_streamed base r0 text ev q Hq Hev) as (q' & Hrun & Hq').
    rewrite Hs in Hrun. eauto.
  - rewrite streamedText_quiet by exact Hev. rewrite app_nil_r.
    exists q. split; [apply quiet_event_run; exact Hev | exact Hq].
Qed.

Lemma handleAll_streamed (evs : list JSValue) (base : list Node) (r0 : nat)
    (text : jsstring) (q : Page) :
  Streamed base r0 text q ->
  Forall isStreamEvent evs ->
  exists q', handleAll evs q = (Normal tt, q')
             /\ Streamed base r0 (text ++ streamed evs) q'.
Proof.
  revert text q. induction evs as [|ev evs IH]; intros text q Hq Hall.
  - exists q. cbn. rewrite app_nil_r. split; [reflexivity | exact Hq].
  - inversion Hall as [|? ? Hev Hrest]; subst.
    destruct (stream_event_streamed base r0 text ev q Hq Hev) as (q1 & Hrun1 & Hq1).
    destruct (IH _ q1 Hq1 Hrest) as (q2 & Hrun2 & Hq2).
    exists q2. split.
    + cbn [handleAll]. rewrite (bind_normal _ _ _ _ _ Hrun1). exact Hrun2.
    + unfold streamed in *. cbn [mbind list_bind]. rewrite app_assoc. exact Hq2.
Qed.

Lemma Streamed_transcript (base : list Node) (r0 : nat) (text : jsstring) (q : Page) :
  Streamed base r0 text q ->
  transcript q = (entryOf emptyChat <$> base) ++ [Pending text].
Proof.
  intros [Hm Hc Hb Ht]. unfold transcript. rewrite Hc, fmap_app. f_equal.
  - apply entryOf_no_pending. exact Hb.
  - cbn. unfold textOf. destruct (elements (chatMessages q) !! r0); cbn in *; congruence.
Qed.

Lemma getElementById_None (l : list Node) (r : nat) :
  getElementById l = None -> StreamingResponseEl r ∉ l.
Proof.
  induction l as [|n l IH]; intros E Hin; [inversion Hin|].
  destruct n; cbn in E; try discriminate;
    apply elem_of_cons in Hin as [Hin|Hin]; try discriminate; exact (IH E Hin).
Qed.

Lemma getElementById_snoc (l : list Node) (n : Node) :
  getElementById l = None -> getElementById [n] = None ->
  getElementById (l ++ [n]) = None.
Proof.
  intros Hl Hn. induction l as [|m l IH]; [exact Hn|].
  destruct m; cbn in *; try discriminate; auto.
Qed.

(** Settling a send in progress whose pending entry has text, after
    other children were added behind the placeholder. *)
Lemma completeStreaming_streamed (base post : list Node) (r0 : nat) (text : jsstring)
    (q : Page) :
  streamingManager q = mkStreamingManager (Some r0) (Some r0) (Some r0) (Some r0) true ->
  children (chatMessages q) = base ++ StreamingResponseEl r0 :: post ->
  getElementById base = None ->
  textContent <$> elements (chatMessages q) !! r0 = Some text ->
  text <> [] ->
  exists q', completeStreaming q = (Normal tt, q')
             /\ streamingManager q' = mkStreamingManager None None None None false
             /\ children (chatMessages q') = base ++ MessageEl assistant text :: post
             /\ uiManager q' = uiManager q.
Proof.
  intros Hm Hc Hb Ht Hne.
  assert (Htext : textOf (chatMessages q) r0 = text).
  { unfold textOf. destruct (elements (chatMessages q) !! r0); cbn in *; congruence. }
  destruct (completeStreaming_promotes q r0 r0 base post)
    as (q' & Hrun & Hm' & Hc').
  { rewrite Hm. reflexivity. } { rewrite Hm. reflexivity. } { exact Hc. }
  { apply getElementById_None. exact Hb. }
  exists q'. rewrite Htext in Hc'. destruct text as [|ch text]; [congruence|].
  repeat split; try assumption.
  revert Hrun. unfold completeStreaming, setIsStreaming, setStreamingRefs, scrollToBottom.
  eff. page_simpl. rewrite Hm. page_simpl. eff. page_simpl.
  unfold textOf in Htext. unfold textOf. page_simpl. rewrite lookup_alter_eq.
  destruct (elements (chatMessages q) !! r0) as [el|]; [|discriminate].
  cbn in Htext. cbn. rewrite Htext. eff. page_simpl. rewrite Hc.
  rewrite replaceChild_in_place by (apply getElementById_None; exact Hb).
  eff. intros E. injection E as <-. reflexivity.
Qed.

End Streaming.

Lemma omap_middle_inv {A B} (f : A -> option B) (l : list A) (a b : list B) (x : B) :
  omap f l = a ++ x :: b ->
  exists l1 y l2, l = l1 ++ y :: l2 /\ omap f l1 = a /\ f y = Some x /\ omap f l2 = b.
Proof.
  revert a. induction l as [|y l IH]; intros a E; cbn [omap list_omap] in E.
  - destruct a; discriminate.
  - destruct (f y) as [z|] eqn:Ey.
    + destruct a as [|z' a]; cbn in E.
      * injection E as -> E. exists [], y, l. repeat split; assumption.
      * injection E as -> E. destruct (IH a E) as (l1 & y' & l2 & -> & H1 & H2 & H3).
        exists (y :: l1), y', l2. repeat split; try assumption.
        cbn [omap list_omap]. rewrite Ey, H1. reflexivity.
    + destruct (IH a E) as (l1 & y' & l2 & -> & H1 & H2 & H3).
      exists (y :: l1), y', l2. repeat split; try assumption.
      cbn [omap list_omap]. rewrite Ey. exact H1.
Qed.

Section Sends.
Context `{Layout} `{JSON}.

(** The lines of a chunk hand their events to the handler in order, and
    an exception of the handler is caught and logged; what holds of the
    page along the events holds along the lines, as long as it does not
    depend on the console. *)
Lemma processLines_events (I : list JSValue -> Page -> Prop) (allowed : JSValue -> Prop) :
  (forall evs q f, I evs q -> I evs (with_console f q)) ->
  (forall evs ev q, I evs q -> allowed ev ->
     exists c q', handleStreamingEvent ev q = (c, q') /\ I (evs ++ [ev]) q') ->
  forall lines evs q,
    I evs q -> Forall allowed (omap lineEvent lines) ->
    exists q', processLines lines q = (Normal tt, q') /\ I (evs ++ omap lineEvent lines) q'.
Proof.
  intros Hconsole Hstep. induction lines as [|line lines IH]; intros evs q Hq Hall.
  - exists q. cbn. rewrite app_nil_r. split; [reflexivity | exact Hq].
  - cbn [omap list_omap processLines] in *.
    assert (Hline : exists q1, processLine line q = (Normal tt, q1)
              /\ I (evs ++ match lineEvent line with Some ev => [ev] | None => [] end) q1).
    { unfold lineEvent, processLine in *.
      destruct (startsWith line dataPrefix).
      - unfold try_catch. destruct (JSON_parse (slice 6 line)) as [e|ev]; cbn [liftE]; eff.
        + unfold log. eff. eexists. split; [reflexivity|]. rewrite app_nil_r.
          apply Hconsole. exact Hq.
        + inversion Hall as [|? ? Hev Hrest]; subst.
          destruct (Hstep evs ev q Hq Hev) as ([[]|e] & q1 & Hrun & Hq1); rewrite Hrun.
          * exists q1. split; [reflexivity | exact Hq1].
          * unfold log. eff. eexists. split; [reflexivity|]. apply Hconsole. exact Hq1.
      - exists q. rewrite app_nil_r. split; [reflexivity | exact Hq]. }
    destruct Hline as (q1 & Hrun1 & Hq1). rewrite (bind_normal _ _ _ _ _ Hrun1).
    destruct (lineEvent line) as [ev|].
    + inversion Hall as [|? ? Hev Hrest]; subst.
      destruct (IH _ q1 Hq1 Hrest) as (q2 & Hrun2 & Hq2).
      exists q2. split; [exact Hrun2|]. rewrite <- app_assoc in Hq2. exact Hq2.
    + rewrite app_nil_r in Hq1. apply IH; assumption.
Qed.

(** Lines whose events are no [complete] or [error] events, during a
    send. *)
Lemma processLines_streamed (lines : list jsstring) (base : list Node) (r0 : nat)
    (q : Page) :
  Streamed base r0 [] q ->
  Forall (fun ev => ~ isTerminalEvent ev) (omap lineEvent lines) ->
  exists q', processLines lines q = (Normal tt, q')
             /\ Streamed base r0 (streamed (omap lineEvent lines)) q'.
Proof.
  intros Hq Hall.
  destruct (processLines_events (fun evs q => Streamed base r0 (streamed evs) q)
              (fun ev => ~ isTerminalEvent ev))
    with (lines := lines) (evs := @nil JSValue) (q := q) as (q1 & Hrun1 & Hq1).
  - intros evs q' f Hq'. apply Streamed_console. exact Hq'.
  - intros evs ev' q' Hq' Hev'.
    destruct (event_streamed base r0 _ ev' q' Hq' Hev') as (c & q'' & Hrun & Hq'').
    exists c, q''. split; [exact Hrun|]. unfold streamed in *. rewrite bind_app. cbn.
    rewrite app_nil_r. exact Hq''.
  - exact Hq.
  - exact Hall.
  - exists q1. split; [exact Hrun1 | exact Hq1].
Qed.

(** Lines whose events are quiet change neither the chat area nor the
    manager. *)
Lemma processLines_quiet (lines : list jsstring) (q : Page) :
  Forall isQuietEvent (omap lineEvent lines) ->
  exists q', processLines lines q = (Normal tt, q')
             /\ chatMessages q' = chatMessages q
             /\ streamingManager q' = streamingManager q.
Proof.
  intros Hall.
  destruct (processLines_events
              (fun _ q' => chatMessages q' = chatMessages q
                           /\ streamingManager q' = streamingManager q) isQuietEvent)
    with (lines := lines) (evs := @nil JSValue) (q := q) as (q3 & Hrun3 & Hc3 & Hm3).
  - intros evs q' f Hq'. exact Hq'.
  - intros evs ev' q' Hq' Hev'. exists (Normal tt), q'.
    split; [apply quiet_event_run; exact Hev' | exact Hq'].
  - split; reflexivity.
  - exact Hall.
  - exists q3. auto.
Qed.

(** The [try] block of a send whose request is answered with a body:
    streaming starts on a fresh placeholder and the loop runs. *)
Lemma submitTry_streams (messageText : jsstring) (r : Response)
    (values : list (list Byte.byte)) (p : Page) :
  ok r = true ->
  responseBody r = Some values ->
  getElementById (children (chatMessages p)) = None ->
  exists q0,
    submitTry messageText (FetchResolves r) p
    = readLoop initialLoopState values (bodyError r) q0
    /\ Streamed (children (chatMessages p)) (nextRef (chatMessages p)) [] q0.
Proof.
  intros Hok Hbody Hnone. unfold submitTry, getCurrentSessionId, fetch. eff.
  rewrite Hok, Hbody. cbn [negb].
  unfold startStreaming, setIsStreaming, setStreamingRefs, scrollToBottom, createStreamingEl.
  eff. page_simpl. rewrite getElementById_app, Hnone. cbn [default].
  eexists. split; [reflexivity|]. split; page_simpl; try reflexivity; try assumption.
  rewrite lookup_insert_eq. reflexivity.
Qed.

(** The loop of a send whose body carries no [complete] or [error] event
    and then breaks off. *)
Lemma readLoop_transport_failure (values : list (list Byte.byte)) (e : JSError)
    (base : list Node) (r0 : nat) (q0 : Page) :
  Streamed base r0 [] q0 ->
  Forall (fun ev => ~ isTerminalEvent ev) (deliveredEvents values) ->
  exists q1,
    readLoop initialLoopState values (Some e) q0 = (Throw e, q1)
    /\ Streamed base r0 (streamed (deliveredEvents values)) q1.
Proof.
  intros Hq0 Hall. rewrite readLoop_lines.
  destruct (processLines_streamed _ base r0 q0 Hq0 Hall) as (q1 & Hrun & Hq1).
  exists q1. split; [|exact Hq1].
  rewrite (bind_normal _ _ _ _ _ Hrun). reflexivity.
Qed.

(** The loop of a send whose body carries events that accumulate some
    text, then an event that settles the manager, then quiet events
    only, and ends: the text is committed where the pending entry stood,
    after what the settling event added behind it. *)
Lemma readLoop_settles (values : list (list Byte.byte)) (before after : list JSValue)
    (ev : JSValue) (base added : list Node) (r0 : nat) (q0 : Page) :
  Streamed base r0 [] q0 ->
  deliveredEvents values = before ++ ev :: after ->
  Forall (fun ev => ~ isTerminalEvent ev) before ->
  (forall q, exists q',
     handleStreamingEvent ev q = completeStreaming q'
     /\ streamingManager q' = streamingManager q
     /\ elements (chatMessages q') = elements (chatMessages q)
     /\ children (chatMessages q') = children (chatMessages q) ++ added) ->
  Forall isQuietEvent after ->
  streamed before <> [] ->
  exists q1,
    readLoop initialLoopState values None q0 = (Normal tt, q1)
    /\ streamingManager q1 = mkStreamingManager None None None None false
    /\ children (chatMessages q1)
       = base ++ MessageEl assistant (streamed before) :: added.
Proof.
  intros Hq0 Hev Hbefore Hsettle Hafter Hne. rewrite readLoop_lines.
  unfold deliveredEvents in Hev.
  destruct (omap_middle_inv _ _ _ _ _ Hev) as (l1 & line & l2 & -> & H1 & Hline & H2).
  (* the lines before the settling event *)
  destruct (processLines_streamed l1 base r0 q0 Hq0) as (q1 & Hrun1 & [Hm Hc Hb Htext]).
  { rewrite H1. exact Hbefore. }
  rewrite H1 in Htext.
  (* the line of the settling event *)
  destruct (Hsettle q1) as (q1' & Hhandle & Hm' & He' & Hc').
  destruct (completeStreaming_streamed base added r0 (streamed before) q1')
    as (q2 & Hrun2 & Hm2 & Hc2 & _); try assumption.
  { rewrite Hm'. exact Hm. }
  { rewrite Hc', Hc, <- app_assoc. reflexivity. }
  { rewrite He'. exact Htext. }
  assert (Hrunline : processLine line q1 = (Normal tt, q2)).
  { unfold lineEvent in Hline. unfold processLine.
    destruct (startsWith line dataPrefix); [|discriminate].
    destruct (JSON_parse (slice 6 line)) as [e'|ev']; [discriminate|].
    injection Hline as ->. unfold try_catch. cbn [liftE]. eff.
    rewrite Hhandle, Hrun2. reflexivity. }
  (* the lines after it *)
  destruct (processLines_quiet l2 q2) as (q3 & Hrun3 & Hc3 & Hm3).
  { rewrite H2. exact Hafter. }
  exists q3. split; [|split; congruence].
  rewrite (bind_cong_l _ _ _ q0 (processLines_app l1 (line :: l2))), bind_assoc.
  rewrite (bind_normal _ _ _ _ _ Hrun1). cbn [processLines]. rewrite bind_assoc.
  rewrite (bind_normal _ _ _ _ _ Hrunline). rewrite (bind_normal _ _ _ _ _ Hrun3).
  reflexivity.
Qed.

(** The page a send reads its response on: the input is disabled and
    emptied and the user message is in the chat area. *)
Lemma handleFormSubmit_run (net : FetchOutcome) (p : Page) (c : N) (s : jsstring) :
  trim (inputValue (uiManager p)) = c :: s ->
  let p2 := exec (setInputDisabled true ≫= fun _ => addUserMessage (c :: s) ≫= fun _ =>
                  clearInputAndMaintainFocus) p in
  handleFormSubmit net p
  = try_finally (try_catch (submitTry (c :: s) net) submitCatch) submitFinally p2
  /\ children (chatMessages p2) = children (chatMessages p) ++ [MessageEl user (c :: s)].
Proof.
  intros Htrim. cbn zeta. split; [|reflexivity].
  unfold handleFormSubmit, getCurrentMessage. eff. rewrite Htrim. reflexivity.
Qed.

End Sends.

(** ** Sends that fail *)

(** C2, as the code has it. On a page that holds no placeholder of an
    earlier send, a send with text in the input whose request was
    answered with a 2xx status and a body that carries no [complete]
    event and accumulates some text from its chunks, and which then
    fails (the body breaks off with a read error, or an [error] event
    whose error has a string conversion arrives and the body ends after
    quiet events at most), does not discard the pending entry: the
    accumulated text is committed as an assistant message where the
    pending entry stood. The transcript ends with the user message, that
    assistant message and exactly one error message, the send path
    returns normally, and the input controls are enabled again. *)
Theorem failed_send_keeps_partial_text `{Layout} `{JSON} (p : Page) (r : Response)
    (c : N) (s text report : jsstring) :
  trim (inputValue (uiManager p)) = c :: s ->
  getElementById (children (chatMessages p)) = None ->
  ok r = true ->
  FailedSend r text report ->
  text <> [] ->
  let p' := exec (handleFormSubmit (FetchResolves r)) p in
  returns (handleFormSubmit (FetchResolves r)) p = true
  /\ transcript p' =
       transcript p ++ [Committed user (c :: s); Committed assistant text;
                        Committed error report]
  /\ inputDisabled (uiManager p') = false
  /\ sendDisabled (uiManager p') = false.
Proof.
  intros Htrim Hnone Hok Hfail Hne. cbn zeta.
  destruct (handleFormSubmit_run (FetchResolves r) p c s Htrim) as [Hrun Hc2].
  set (p2 := exec (setInputDisabled true ≫= fun _ => addUserMessage (c :: s) ≫= fun _ =>
                   clearInputAndMaintainFocus) p) in *.
  assert (Hbase : getElementById (children (chatMessages p2)) = None).
  { rewrite Hc2. apply getElementById_snoc; [exact Hnone | reflexivity]. }
  assert (Hview : forall q l,
    children (chatMessages q) = children (chatMessages p2) ++ l ->
    getElementById l = None ->
    transcript q = transcript p ++ [Committed user (c :: s)] ++ (entryOf (chatMessages q) <$> l)).
  { intros q l Hq Hl. unfold transcript. rewrite Hq, Hc2, !fmap_app. cbn [fmap list_fmap entryOf].
    rewrite <- app_assoc. f_equal. apply entryOf_no_pending. exact Hnone. }
  unfold exec, returns. rewrite Hrun. unfold try_finally, try_catch.
  destruct Hfail as [values e Hbody Hall He
                    | values before after ev message Hbody Hev Hall Hreport Hafter He].
  - (* the body breaks off *)
    destruct (submitTry_streams (c :: s) r values p2 Hok Hbody Hbase) as (q0 & Htry & Hq0).
    rewrite Htry, He.
    destruct (readLoop_transport_failure values e _ _ q0 Hq0 Hall)
      as (q1 & Hloop & [Hm Hc Hb Htext]).
    rewrite Hloop. unfold submitCatch, submitFinally, setInputDisabled, getIsStreaming,
      log, addErrorMessage, scrollToBottom, setTimeout. eff. page_simpl.
    rewrite Hm. cbn [isStreaming].
    match goal with |- context [completeStreaming ?q] => set (q3 := q) end.
    destruct (completeStreaming_streamed (children (chatMessages p2))
                [MessageEl error (sendErrorPrefix ++ errMessage e)]
                (nextRef (chatMessages p2)) (streamed (deliveredEvents values)) q3)
      as (q4 & Hdone & _ & Hc4 & Hu4); try assumption.
    { subst q3. page_simpl. rewrite Hc, <- app_assoc. reflexivity. }
    rewrite Hdone. cbn [fst snd]. split; [reflexivity|]. split.
    + rewrite (Hview q4 _ Hc4 eq_refl). reflexivity.
    + rewrite Hu4. split; reflexivity.
  - (* an error event, then the end of the body *)
    destruct (submitTry_streams (c :: s) r values p2 Hok Hbody Hbase) as (q0 & Htry & Hq0).
    rewrite Htry, He.
    destruct (readLoop_settles values before after ev _
                [MessageEl error (errorPrefix ++ message)] _ q0 Hq0 Hev Hall)
      as (q1 & Hloop & Hm & Hc); [| exact Hafter | exact Hne |].
    { intros q. eexists. split; [apply handleStreamingEvent_error; exact Hreport|].
      repeat split. }
    rewrite Hloop. unfold submitFinally, setInputDisabled, getIsStreaming, setTimeout.
    eff. page_simpl. rewrite Hm. cbn [isStreaming fst snd]. eff. cbn [fst snd].
    split; [reflexivity|]. split; [|split; reflexivity].
    match goal with |- transcript ?q = _ => rewrite (Hview q _ Hc eq_refl) end. reflexivity.
Qed.

Lemma failed_send_keeps_partial_text_witness :
  let p' := exec (handleFormSubmit (FetchResolves brokenResponse)) helloPage in
  trim (inputValue (uiManager helloPage)) = js "hello"
  /\ getElementById (children (chatMessages helloPage)) = None
  /\ ok brokenResponse = true
  /\ FailedSend brokenResponse (js "hi") (sendErrorPrefix ++ js "network error")
  /\ js "hi" <> []
  /\ returns (handleFormSubmit (FetchResolves brokenResponse)) helloPage = true
  /\ transcript p' =
       [Committed user (js "hello"); Committed assistant (js "hi");
        Committed error (sendErrorPrefix ++ js "network error")]
  /\ inputDisabled (uiManager p') = false
  /\ sendDisabled (uiManager p') = false.
Proof.
  assert (Hfail : FailedSend brokenResponse (js "hi") (sendErrorPrefix ++ js "network error")).
  { assert (Htext : js "hi" = streamed (deliveredEvents (body brokenResponse)))
      by (vm_compute; reflexivity).
    rewrite Htext.
    apply (TransportFailure brokenResponse (body brokenResponse) networkError).
    - reflexivity.
    - assert (Hevents : deliveredEvents (body brokenResponse)
                        = [JObj [(js "event_type", JStr (js "connected"))];
                           JObj [(js "text", JStr (js "hi"));
                                 (js "event_type", JStr (js "chunk"))]])
        by (vm_compute; reflexivity).
      rewrite Hevents.
      repeat (apply Forall_cons; split; [intros [E|E]; vm_compute in E; discriminate|]).
      constructor.
    - reflexivity. }
  assert (Htrim : trim (inputValue (uiManager helloPage)) = js "hello")
    by (vm_compute; reflexivity).
  split; [exact Htrim|]. split; [reflexivity|]. split; [reflexivity|].
  split; [exact Hfail|]. split; [discriminate|].
  exact (failed_send_keeps_partial_text helloPage brokenResponse 104%N (js "ello")
           (js "hi") (sendErrorPrefix ++ js "network error")
           Htrim eq_refl eq_refl Hfail ltac:(discriminate)).
Defined.

(** C2, as stated, fails: after the chunk [hi], a body that breaks off
    and an [error] event both leave [hi] committed as an assistant
    message between the user message and the error message. *)
Lemma failed_send_commits_partial_text :
  let broken := exec (handleFormSubmit (FetchResolves brokenResponse)) helloPage in
  let failed := exec (handleFormSubmit (FetchResolves errorResponse)) helloPage in
  transcript broken =
    [Committed user (js "hello"); Committed assistant (js "hi");
     Committed error (sendErrorPrefix ++ js "network error")]
  /\ transcript failed =
       [Committed user (js "hello"); Committed assistant (js "hi");
        Committed error (errorPrefix ++ js "boom")]
  /\ transcript broken <>
       [Committed user (js "hello"); Committed error (sendErrorPrefix ++ js "network error")]
  /\ In (Committed assistant (js "hi")) (transcript broken).
Proof.
  split; [vm_compute; reflexivity|]. split; [vm_compute; reflexivity|].
  split; [vm_compute; discriminate | vm_compute; auto].
Qed.

(** * Further properties of the code *)

(** ** Frames *)

Lemma exec_bind_run {A B} (m : Eff A) (f : A -> Eff B) (p : Page) :
  exec (m ≫= f) p =
  match m p with
  | (Normal a, p1) => exec (f a) p1
  | (Throw _, p1) => p1
  end.
Proof. unfold exec, mbind, Eff_bind. destruct (m p) as [[a|e] p1]; reflexivity. Qed.

Lemma keeps_ret {A} (a : A) : keepsSurroundings (mret a : Eff A).
Proof. intros p. reflexivity. Qed.

Lemma keeps_throw {A} (e : JSError) : keepsSurroundings (throw e : Eff A).
Proof. intros p. reflexivity. Qed.

Lemma keeps_get {A} (g : Page -> A) : keepsSurroundings (get g).
Proof. intros p. reflexivity. Qed.

Lemma keeps_bind {A B} (m : Eff A) (f : A -> Eff B) :
  keepsSurroundings m -> (forall a, keepsSurroundings (f a)) ->
  keepsSurroundings (m ≫= f).
Proof.
  intros Hm Hf p. rewrite exec_bind_run. specialize (Hm p). unfold exec in Hm.
  destruct (m p) as [[a|e] p1]; cbn [snd] in Hm; [rewrite (Hf a p1)|]; exact Hm.
Qed.

Lemma keeps_try_catch {A} (m : Eff A) (h : JSError -> Eff A) :
  keepsSurroundings m -> (forall e, keepsSurroundings (h e)) ->
  keepsSurroundings (try_catch m h).
Proof.
  intros Hm Hh p. specialize (Hm p). unfold exec, try_catch in *.
  destruct (m p) as [[a|e] p1]; cbn [snd] in *; [exact Hm|].
  pose proof (Hh e p1) as He. unfold exec in He. rewrite He. exact Hm.
Qed.

Lemma keeps_chat (f : ChatMessages -> ChatMessages) :
  keepsSurroundings (modify (with_chatMessages f)).
Proof. intros p. reflexivity. Qed.

Lemma keeps_manager (f : StreamingManager -> StreamingManager) :
  keepsSurroundings (modify (with_streamingManager f)).
Proof. intros p. reflexivity. Qed.

Lemma keeps_log (level : ConsoleLevel) (label : string) :
  keepsSurroundings (log level label).
Proof. intros p. reflexivity. Qed.

Lemma keeps_liftE {A} (r : JSError + A) : keepsSurroundings (liftE r).
Proof. destruct r; intros p; reflexivity. Qed.

Create HintDb frame.
#[local] Hint Resolve keeps_ret keeps_throw keeps_get keeps_chat keeps_manager
  keeps_log keeps_liftE : frame.

(** Break a computation into its steps and settle each one. *)
Ltac frame :=
  repeat first
    [ solve [auto with frame]
    | apply keeps_bind; [|intros ?]
    | apply keeps_try_catch; [|intros ?]
    | progress cbv zeta
    | case_match ].


Section StreamingFrame.
Context `{Layout}.

Lemma keeps_scrollToBottom : keepsSurroundings scrollToBottom.
Proof. unfold scrollToBottom. frame. Qed.

Lemma keeps_smartScrollToBottom : keepsSurroundings smartScrollToBottom.
Proof. pose proof keeps_scrollToBottom. unfold smartScrollToBottom. frame. Qed.

Lemma keeps_addErrorMessage (content : jsstring) :
  keepsSurroundings (addErrorMessage content).
Proof. pose proof keeps_scrollToBottom. unfold addErrorMessage. frame. Qed.

Lemma keeps_startStreaming : keepsSurroundings startStreaming.
Proof.
  pose proof keeps_scrollToBottom.
  unfold startStreaming, setIsStreaming, setStreamingRefs, createStreamingEl. frame.
Qed.

Lemma keeps_completeStreaming : keepsSurroundings completeStreaming.
Proof.
  pose proof keeps_scrollToBottom.
  unfold completeStreaming, setIsStreaming, setStreamingRefs. frame.
Qed.

Lemma keeps_handleChunk (eventData : JSValue) : keepsSurroundings (handleChunk eventData).
Proof.
  pose proof keeps_startStreaming. pose proof keeps_smartScrollToBottom.
  unfold handleChunk. frame.
Qed.

Lemma keeps_handleStreamingEvent (eventData : JSValue) :
  keepsSurroundings (handleStreamingEvent eventData).
Proof.
  pose proof keeps_handleChunk. pose proof keeps_completeStreaming.
  pose proof keeps_addErrorMessage.
  unfold handleStreamingEvent. frame.
Qed.

(** X1. Whatever the event is, handling it touches nothing outside the
    chat area, the streaming manager and the console: the input
    controls, the session manager, the storage, the requests issued, the
    timers and the location are as before, also when the handler throws. *)
Theorem handleStreamingEvent_keeps_surroundings (eventData : JSValue) (p : Page) :
  surroundings (exec (handleStreamingEvent eventData) p) = surroundings p.
Proof. exact (keeps_handleStreamingEvent eventData p). Qed.

End StreamingFrame.

(** ** The send path, whatever the network does *)

Lemma exec_try_finally {A} (m : Eff A) (fin : Eff unit) (p : Page) :
  exec (try_finally m fin) p = exec fin (exec m p).
Proof.
  unfold exec, try_finally. destruct (m p) as [c p1]. cbn [snd].
  destruct (fin p1) as [[[]|e] p2]; reflexivity.
Qed.

Lemma exec_try_catch {A} (m : Eff A) (h : JSError -> Eff A) (p : Page) :
  exec (try_catch m h) p =
  match fst (m p) with
  | Normal _ => exec m p
  | Throw e => exec (h e) (exec m p)
  end.
Proof. unfold exec, try_catch. destruct (m p) as [[a|e] p1]; reflexivity. Qed.

Section SendFrame.
Context `{Layout} `{JSON}.

Lemma keeps_processLines (lines : list jsstring) : keepsSurroundings (processLines lines).
Proof.
  induction lines as [|line lines IH]; cbn [processLines]; [frame|].
  apply keeps_bind; [|intros ?; exact IH].
  unfold processLine. pose proof keeps_handleStreamingEvent as Hh.
  assert (forall ev, keepsSurroundings (handleStreamingEvent ev)) by (intros ev p; apply Hh).
  frame.
Qed.

Lemma keeps_readLoop (values : list (list Byte.byte)) (st : LoopState)
    (bodyError : option JSError) :
  keepsSurroundings (readLoop st values bodyError).
Proof.
  revert st. induction values as [|value rest IH]; intros st; cbn [readLoop]; [frame|].
  destruct (readChunk st value) as [st' lines].
  apply keeps_bind; [apply keeps_processLines | intros ?; apply IH].
Qed.

(** The session id a send carries: the manager's id unless it is null or
    empty. *)
Lemma submitTry_surroundings (messageText : jsstring) (net : FetchOutcome) (p : Page) :
  let session_id := match sessionId (sessionManager p) with
                    | Some (c :: s) => Some (c :: s)
                    | _ => None
                    end in
  surroundings (exec (submitTry messageText net) p)
  = surroundings (with_requests (fun l => l ++ [PostChatSend messageText session_id]) p).
Proof.
  cbn zeta. unfold submitTry, getCurrentSessionId, fetch.
  rewrite exec_bind_run. rewrite run_get. cbv beta iota.
  set (req := PostChatSend messageText _).
  assert (Hrest : forall r : Response, keepsSurroundings
            (if negb (ok r)
             then throw (mkError PlainError
                    (js "HTTP " ++ Z_toString (status r) ++ js ": " ++ statusText r))
             else match responseBody r with
                  | None => throw nullDeref
                  | Some values =>
                      startStreaming ≫= fun _ =>
                      readLoop initialLoopState values (bodyError r)
                  end)).
  { intros r. pose proof keeps_startStreaming.
    assert (forall values,
              keepsSurroundings (readLoop initialLoopState values (bodyError r)))
      by (intros values; apply keeps_readLoop).
    frame. }
  destruct net as [e|r]; unfold exec; eff; [reflexivity|].
  apply (Hrest r).
Qed.

Lemma keeps_submitCatch (e : JSError) : keepsSurroundings (submitCatch e).
Proof. pose proof keeps_addErrorMessage. unfold submitCatch. frame. Qed.

Lemma submitFinally_surroundings (q : Page) :
  surroundings (exec submitFinally q)
  = (mkUIManager (inputValue (uiManager q)) false false, sessionManager q,
     localStorage q, requests q, timers q ++ [FocusInput 100], location q).
Proof.
  set (q1 := with_timers (fun l => l ++ [FocusInput 100])
               (with_uiManager (fun u => mkUIManager (inputValue u) false false) q)).
  assert (E : exec submitFinally q
              = exec (if isStreaming (streamingManager q1)
                      then completeStreaming else mret tt) q1).
  { reflexivity. }
  rewrite E.
  transitivity (surroundings q1); [|reflexivity].
  destruct (isStreaming (streamingManager q1));
    [apply keeps_completeStreaming | reflexivity].
Qed.

(** What a send leaves of the surroundings, for every answer of the
    network and every page. *)
Lemma handleFormSubmit_surroundings (net : FetchOutcome) (p : Page) (c : N) (s : jsstring) :
  trim (inputValue (uiManager p)) = c :: s ->
  surroundings (exec (handleFormSubmit net) p)
  = (mkUIManager [] false false, sessionManager p, localStorage p,
     requests p ++ [PostChatSend (c :: s)
                      match sessionId (sessionManager p) with
                      | Some (c' :: s') => Some (c' :: s')
                      | _ => None
                      end],
     timers p ++ [FocusInput 50; FocusInput 100], location p).
Proof.
  intros Htrim.
  set (p2 := exec (setInputDisabled true ≫= fun _ => addUserMessage (c :: s) ≫= fun _ =>
                   clearInputAndMaintainFocus) p).
  assert (Hrun : exec (handleFormSubmit net) p
                 = exec (try_finally (try_catch (submitTry (c :: s) net) submitCatch)
                           submitFinally) p2).
  { unfold exec, handleFormSubmit, getCurrentMessage. eff. rewrite Htrim. reflexivity. }
  rewrite Hrun, exec_try_finally.
  set (p3 := exec (try_catch (submitTry (c :: s) net) submitCatch) p2).
  assert (H3 : surroundings p3
               = surroundings (with_requests (fun l => l ++ [PostChatSend (c :: s)
                    match sessionId (sessionManager p2) with
                    | Some (c' :: s') => Some (c' :: s')
                    | _ => None
                    end]) p2)).
  { subst p3. rewrite exec_try_catch.
    destruct (fst (submitTry (c :: s) net p2));
      rewrite ?keeps_submitCatch; apply submitTry_surroundings. }
  rewrite submitFinally_surroundings.
  unfold surroundings in H3. injection H3 as -> -> -> -> -> ->.
  subst p2. cbn. rewrite <- app_assoc. reflexivity.
Qed.

(** X2. A send with text in the input always leaves the input controls
    enabled: whether the request is rejected, answered with an error
    status, the body breaks off, or settling itself throws, the text
    area and the send button are enabled afterwards and the input is
    empty. *)
Theorem handleFormSubmit_reenables_input (net : FetchOutcome) (p : Page) (c : N)
    (s : jsstring) :
  trim (inputValue (uiManager p)) = c :: s ->
  uiManager (exec (handleFormSubmit net) p) = mkUIManager [] false false.
Proof.
  intros Htrim. pose proof (handleFormSubmit_surroundings net p c s Htrim) as Hs.
  unfold surroundings in Hs. congruence.
Qed.

(** X3. A send with text in the input issues exactly one request, for
    every answer of the network: the POST of the trimmed text, carrying
    the manager's session id unless that is null or empty. Storage,
    session manager and location are left alone. *)
Theorem handleFormSubmit_one_request (net : FetchOutcome) (p : Page) (c : N)
    (s : jsstring) :
  trim (inputValue (uiManager p)) = c :: s ->
  let p' := exec (handleFormSubmit net) p in
  requests p' = requests p ++ [PostChatSend (c :: s)
                                 match sessionId (sessionManager p) with
                                 | Some (c' :: s') => Some (c' :: s')
                                 | _ => None
                                 end]
  /\ localStorage p' = localStorage p
  /\ sessionManager p' = sessionManager p
  /\ location p' = location p.
Proof.
  intros Htrim. cbn zeta. pose proof (handleFormSubmit_surroundings net p c s Htrim) as Hs.
  unfold surroundings in Hs. injection Hs as _ -> -> -> _ ->. repeat split.
Qed.

End SendFrame.

Lemma handleFormSubmit_reenables_input_witness :
  trim (inputValue (uiManager helloPage)) = js "hello"
  /\ uiManager (exec (handleFormSubmit (FetchResolves brokenResponse)) helloPage)
     = mkUIManager [] false false.
Proof.
  split; [reflexivity|].
  apply (handleFormSubmit_reenables_input (FetchResolves brokenResponse) helloPage
           104%N (js "ello")). reflexivity.
Defined.

Lemma handleFormSubmit_one_request_witness :
  trim (inputValue (uiManager helloPage)) = js "hello"
  /\ requests (exec (handleFormSubmit (FetchRejects networkError)) helloPage)
     = [PostChatSend (js "hello") (Some (js "sid"))].
Proof.
  split; [reflexivity|].
  apply (handleFormSubmit_one_request (FetchRejects networkError) helloPage
           104%N (js "ello")). reflexivity.
Defined.



(** ** Events that do nothing *)

Section InertEvents.
Context `{Layout}.

(** X5. The events [connected], [user_message], [ai_thinking],
    [ai_message_complete] and [disconnected] are acknowledged and change
    nothing at all: the page is the same afterwards, whatever else the
    event carries. *)
Theorem quiet_event_changes_nothing (ev : JSValue) (p : Page) :
  isQuietEvent ev -> handleStreamingEvent ev p = (Normal tt, p).
Proof. exact (quiet_event_run ev p). Qed.

(** X6. An event whose type is none of the eight the handler knows, or
    is no string at all, is not fatal: the handler returns normally and
    the only trace is one console warning. An event that is [null]
    makes the handler throw a [TypeError] before anything is changed. *)
Theorem unknown_event_only_warns (ev : JSValue) (p : Page) :
  (forall t, eventType ev = Some t -> t ∉ knownEventTypes) ->
  match ev with
  | JNull | JUndefined =>
      exists e, handleStreamingEvent ev p = (Throw e, p) /\ errKind e = TypeError
  | _ =>
      handleStreamingEvent ev p
      = (Normal tt,
         with_console (fun l => l ++ [(console_warn, "Unknown streaming event type:"%string)]) p)
  end.
Proof.
  intros Hunknown.
  assert (Hrun : forall v, Get ev (js "event_type") = inr v ->
            handleStreamingEvent ev p
            = (Normal tt,
               with_console
                 (fun l => l ++ [(console_warn, "Unknown streaming event type:"%string)]) p)).
  { intros v Hv. unfold handleStreamingEvent. rewrite Hv. cbn [liftE]. eff.
    destruct v as [| | | |t| |]; try reflexivity.
    assert (Ht : t ∉ knownEventTypes).
    { apply Hunknown. apply eventType_Get. exact Hv. }
    unfold knownEventTypes, quietEventTypes in Ht. rewrite !not_elem_of_cons in Ht.
    destruct Ht as (? & ? & ? & ? & ? & ? & ? & ? & _).
    repeat (rewrite decide_False by assumption). reflexivity. }
  destruct ev; try (eapply Hrun; reflexivity);
    (eexists; split; [reflexivity | reflexivity]).
Qed.

End InertEvents.

Lemma quiet_event_changes_nothing_witness :
  let ev := JObj [(js "event_type", JStr (js "ai_thinking")); (js "text", JStr (js "..."))] in
  isQuietEvent ev /\ handleStreamingEvent ev streamingPage = (Normal tt, streamingPage).
Proof.
  assert (Hq : isQuietEvent
                 (JObj [(js "event_type", JStr (js "ai_thinking")); (js "text", JStr (js "..."))])).
  { exists (js "ai_thinking"). split; [reflexivity|]. unfold quietEventTypes.
    rewrite !elem_of_cons. auto. }
  split; [exact Hq | exact (quiet_event_changes_nothing _ streamingPage Hq)].
Defined.

Lemma unknown_event_only_warns_witness :
  let ev := JObj [(js "event_type", JStr (js "ping"))] in
  (forall t, eventType ev = Some t -> t ∉ knownEventTypes)
  /\ handleStreamingEvent ev streamingPage
     = (Normal tt,
        with_console (fun l => l ++ [(console_warn, "Unknown streaming event type:"%string)])
          streamingPage).
Proof.
  assert (Hu : forall t, eventType (JObj [(js "event_type", JStr (js "ping"))]) = Some t ->
                         t ∉ knownEventTypes).
  { intros t E. injection E as <-. unfold knownEventTypes, quietEventTypes.
    rewrite !not_elem_of_cons. repeat split; try discriminate. apply not_elem_of_nil. }
  split; [exact Hu|].
  exact (unknown_event_only_warns (JObj [(js "event_type", JStr (js "ping"))])
           streamingPage Hu).
Defined.

(** ** A response while it streams: the transcript *)

(** X7. While a response is streamed, the transcript holds exactly one
    pending entry, the last one, and a run of quiet events and of chunk
    events whose text is falsy or has a string conversion only makes its
    text grow: afterwards the pending entry holds the old text followed
    by the texts of the chunks in arrival order, every other entry is as
    before, and every event was handled without an exception. *)
Theorem chunks_accumulate_in_order `{Layout} (evs : list JSValue) (base : list Node)
    (r0 : nat) (text : jsstring) (q : Page) :
  Streamed base r0 text q ->
  Forall isStreamEvent evs ->
  exists entries,
    Forall (fun e => isCommitted e = true \/ exists n, e = Markup n) entries
    /\ transcript q = entries ++ [Pending text]
    /\ returns (handleAll evs) q = true
    /\ transcript (exec (handleAll evs) q) = entries ++ [Pending (text ++ streamed evs)].
Proof.
  intros Hq Hall. exists (entryOf emptyChat <$> base).
  destruct (handleAll_streamed evs base r0 text q Hq Hall) as (q' & Hrun & Hq').
  split.
  - destruct Hq as [_ _ Hb _]. clear -Hb. induction base as [|n l IH]; [constructor|].
    destruct n; cbn in Hb; try discriminate; constructor; eauto.
  - split; [apply (Streamed_transcript base r0); exact Hq|].
    unfold returns, exec. rewrite Hrun. split; [reflexivity|].
    apply (Streamed_transcript base r0). exact Hq'.
Qed.

Lemma streamingPage_streamed : Streamed [] 0 (js "hi") streamingPage.
Proof. split; reflexivity. Qed.

Lemma chunks_accumulate_in_order_witness :
  let evs := [chunkEvent " the"; JObj [(js "event_type", JStr (js "ai_thinking"))];
              JObj [(js "event_type", JStr (js "chunk")); (js "text", JNum (js "1e+21"))]] in
  Streamed [] 0 (js "hi") streamingPage
  /\ Forall isStreamEvent evs
  /\ streamed evs = js " the1e+21"
  /\ exists entries,
       Forall (fun e => isCommitted e = true \/ exists n, e = Markup n) entries
       /\ transcript streamingPage = entries ++ [Pending (js "hi")]
       /\ returns (handleAll evs) streamingPage = true
       /\ transcript (exec (handleAll evs) streamingPage)
          = entries ++ [Pending (js "hi" ++ streamed evs)].
Proof.
  assert (Hall : Forall isStreamEvent
            [chunkEvent " the"; JObj [(js "event_type", JStr (js "ai_thinking"))];
             JObj [(js "event_type", JStr (js "chunk")); (js "text", JNum (js "1e+21"))]]).
  { apply Forall_cons. split; [left; split; [reflexivity | eexists; reflexivity]|].
    apply Forall_cons. split.
    { right. exists (js "ai_thinking"). split; [reflexivity|].
      unfold quietEventTypes. rewrite !elem_of_cons. auto. }
    apply Forall_cons. split; [|constructor].
    left. split; [reflexivity | eexists; reflexivity]. }
  split; [exact streamingPage_streamed|]. split; [exact Hall|].
  split; [vm_compute; reflexivity|].
  exact (chunks_accumulate_in_order _ [] 0 (js "hi") streamingPage
           streamingPage_streamed Hall).
Defined.

(** ** A send that completes *)

(** X8. A send with text in the input that completes, on a page that
    holds no placeholder of an earlier send. When the request is
    answered with a 2xx status and a body whose events accumulate some
    text without any [complete] or [error] event among them, then
    carries a [complete] event and after it quiet events at most, the
    transcript gains the user message followed by one assistant message
    that holds the texts of the chunks in arrival order; nothing else is
    added, no pending entry remains, the manager has settled and the
    send path returns normally. *)
Theorem completed_send_commits_answer `{Layout} `{JSON} (p : Page) (r : Response)
    (c : N) (s : jsstring) (values : list (list Byte.byte))
    (before after : list JSValue) (ev : JSValue) :
  trim (inputValue (uiManager p)) = c :: s ->
  getElementById (children (chatMessages p)) = None ->
  ok r = true ->
  responseBody r = Some values ->
  bodyError r = None ->
  deliveredEvents values = before ++ ev :: after ->
  Forall (fun ev => ~ isTerminalEvent ev) before ->
  eventType ev = Some (js "complete") ->
  Forall isQuietEvent after ->
  streamed before <> [] ->
  let p' := exec (handleFormSubmit (FetchResolves r)) p in
  returns (handleFormSubmit (FetchResolves r)) p = true
  /\ transcript p' =
       transcript p ++ [Committed user (c :: s); Committed assistant (streamed before)]
  /\ streamingManager p' = mkStreamingManager None None None None false.
Proof.
  intros Htrim Hnone Hok Hbody He Hev Hbefore Ht Hafter Hne. cbn zeta.
  destruct (handleFormSubmit_run (FetchResolves r) p c s Htrim) as [Hrun Hc2].
  set (p2 := exec (setInputDisabled true ≫= fun _ => addUserMessage (c :: s) ≫= fun _ =>
                   clearInputAndMaintainFocus) p) in *.
  assert (Hbase : getElementById (children (chatMessages p2)) = None).
  { rewrite Hc2. apply getElementById_snoc; [exact Hnone | reflexivity]. }
  destruct (submitTry_streams (c :: s) r values p2 Hok Hbody Hbase) as (q0 & Htry & Hq0).
  destruct (readLoop_settles values before after ev _ [] _ q0 Hq0 Hev Hbefore)
    as (q1 & Hloop & Hm & Hc); [| exact Hafter | exact Hne |].
  { intros q. exists q. split; [apply handleStreamingEvent_complete; exact Ht|].
    rewrite app_nil_r. repeat split. }
  unfold exec, returns. rewrite Hrun. unfold try_finally, try_catch. rewrite Htry, He, Hloop.
  unfold submitFinally, setInputDisabled, getIsStreaming, setTimeout.
  eff. page_simpl. rewrite Hm. cbn [isStreaming fst snd]. eff. cbn [fst snd].
  split; [reflexivity|]. split; [|exact Hm].
  unfold transcript. page_simpl. rewrite Hc, Hc2, !fmap_app. cbn [fmap list_fmap entryOf].
  rewrite <- app_assoc. f_equal. apply entryOf_no_pending. exact Hnone.
Qed.

Lemma completed_send_commits_answer_witness :
  let before :=
    [JObj [(js "event_type", JStr (js "connected"))];
     JObj [(js "text", JStr (js "hi")); (js "event_type", JStr (js "chunk"))];
     JObj [(js "text", JStr (js " there")); (js "event_type", JStr (js "chunk"))]] in
  let ev := JObj [(js "event_type", JStr (js "complete"))] in
  let p' := exec (handleFormSubmit (FetchResolves completeResponse)) helloPage in
  (trim (inputValue (uiManager helloPage)) = [104%N; 101%N; 108%N; 108%N; 111%N]
   /\ getElementById (children (chatMessages helloPage)) = None
   /\ ok completeResponse = true
   /\ responseBody completeResponse = Some (body completeResponse)
   /\ bodyError completeResponse = None
   /\ deliveredEvents (body completeResponse) = before ++ ev :: []
   /\ Forall (fun ev => ~ isTerminalEvent ev) before
   /\ eventType ev = Some (js "complete")
   /\ streamed before <> [])
  /\ returns (handleFormSubmit (FetchResolves completeResponse)) helloPage = true
  /\ transcript p' =
       transcript helloPage
         ++ [Committed user [104%N; 101%N; 108%N; 108%N; 111%N];
             Committed assistant (streamed before)]
  /\ streamingManager p' = mkStreamingManager None None None None false.
Proof.
  assert (Hbefore : Forall (fun ev => ~ isTerminalEvent ev)
    [JObj [(js "event_type", JStr (js "connected"))];
     JObj [(js "text", JStr (js "hi")); (js "event_type", JStr (js "chunk"))];
     JObj [(js "text", JStr (js " there")); (js "event_type", JStr (js "chunk"))]]).
  { repeat (apply Forall_cons; split; [intros [E|E]; vm_compute in E; discriminate|]).
    constructor. }
  assert (Htrim : trim (inputValue (uiManager helloPage)) = [104%N; 101%N; 108%N; 108%N; 111%N])
    by (vm_compute; reflexivity).
  assert (Hnone : getElementById (children (chatMessages helloPage)) = None)
    by (vm_compute; reflexivity).
  assert (Hok : ok completeResponse = true) by (vm_compute; reflexivity).
  assert (Hbody : responseBody completeResponse = Some (body completeResponse))
    by (vm_compute; reflexivity).
  assert (Hbe : bodyError completeResponse = None) by (vm_compute; reflexivity).
  assert (Hev : deliveredEvents (body completeResponse)
                = [JObj [(js "event_type", JStr (js "connected"))];
                   JObj [(js "text", JStr (js "hi")); (js "event_type", JStr (js "chunk"))];
                   JObj [(js "text", JStr (js " there")); (js "event_type", JStr (js "chunk"))]]
                  ++ JObj [(js "event_type", JStr (js "complete"))] :: [])
    by (vm_compute; reflexivity).
  assert (Ht : eventType (JObj [(js "event_type", JStr (js "complete"))])
               = Some (js "complete")) by (vm_compute; reflexivity).
  assert (Hne : streamed
    [JObj [(js "event_type", JStr (js "connected"))];
     JObj [(js "text", JStr (js "hi")); (js "event_type", JStr (js "chunk"))];
     JObj [(js "text", JStr (js " there")); (js "event_type", JStr (js "chunk"))]] <> [])
    by (vm_compute; discriminate).
  split.
  { split; [exact Htrim|]. split; [exact Hnone|]. split; [exact Hok|]. split; [exact Hbody|].
    split; [exact Hbe|]. split; [exact Hev|]. split; [exact Hbefore|].
    split; [exact Ht | exact Hne]. }
  exact (completed_send_commits_answer helloPage completeResponse 104%N
           [101%N; 108%N; 108%N; 111%N] _ _ [] _ Htrim Hnone Hok Hbody Hbe Hev Hbefore Ht
           (Forall_nil_2 _) Hne).
Defined.

(** ** The buffer of the decode loop *)

Lemma split_lf_join (s : jsstring) :
  joinLines (removelast (split_lf s)) (List.last (split_lf s) []) = s
  /\ Forall (fun seg => 10%N ∉ seg) (split_lf s).
Proof.
  unfold joinLines. induction s as [|c s [IHj IHn]].
  - split; [reflexivity|]. repeat constructor. apply not_elem_of_nil.
  - cbn [split_lf]. pose proof (split_lf_nonempty s) as Hne.
    destruct (N.eqb_spec c 10) as [->|Hc].
    + destruct (split_lf s) as [|seg segs]; [congruence|]. split.
      * cbn [removelast List.last mbind list_bind app] in *. rewrite IHj. reflexivity.
      * constructor; [apply not_elem_of_nil | exact IHn].
    + destruct (split_lf s) as [|seg segs]; [congruence|].
      apply Forall_cons in IHn as [Hseg Hsegs]. split.
      * destruct segs as [|seg' segs]; cbn [removelast List.last mbind list_bind app] in *;
          rewrite <- IHj; reflexivity.
      * constructor; [|exact Hsegs]. rewrite not_elem_of_cons. split; [congruence | exact Hseg].
Qed.

Lemma Forall_removelast {A} (P : A -> Prop) (l : list A) :
  Forall P l -> Forall P (removelast l).
Proof.
  induction 1 as [|x l Hx Hl IH]; [constructor|]. cbn.
  destruct l; [constructor|]. constructor; assumption.
Qed.

Lemma Forall_last {A} (P : A -> Prop) (l : list A) (d : A) :
  l <> [] -> Forall P l -> P (List.last l d).
Proof.
  intros Hne Hl. induction Hl as [|x l Hx Hl IH]; [congruence|].
  destruct l; [exact Hx|]. apply IH. discriminate.
Qed.

(** X9. A turn of the decode loop loses nothing and reorders nothing:
    the complete lines it hands over, each with its line feed, followed
    by the buffer it keeps, are exactly the old buffer followed by the
    newly decoded text. No line it hands over contains a line feed, and
    neither does the buffer it keeps. *)
Theorem readChunk_conserves_text (decoder : TextDecoder) (buffer : jsstring)
    (value : list Byte.byte) :
  let '((decoder', buffer'), lines) := readChunk (decoder, buffer) value in
  decoder' = fst (decode decoder value)
  /\ joinLines lines buffer' = buffer ++ snd (decode decoder value)
  /\ Forall (fun line => 10%N ∉ line) lines
  /\ 10%N ∉ buffer'.
Proof.
  unfold readChunk. destruct (decode decoder value) as [d' chunk]. cbn [fst snd].
  destruct (split_lf_join (buffer ++ chunk)) as [Hj Hn].
  split; [reflexivity|]. split; [exact Hj|]. split.
  - apply Forall_removelast. exact Hn.
  - apply (Forall_last (fun seg => 10%N ∉ seg)); [apply split_lf_nonempty | exact Hn].
Qed.

Lemma split_lf_no_lf (s : jsstring) : 10%N ∉ s -> split_lf s = [s].
Proof.
  induction s as [|c s IH]; [reflexivity|]. rewrite not_elem_of_cons. intros [Hc Hs].
  cbn [split_lf]. destruct (N.eqb_spec c 10) as [->|_]; [congruence|].
  rewrite IH by exact Hs. reflexivity.
Qed.

(** X10. The events of a response body are those of the lines of its
    decoded text that end in a line feed, in their order; what follows
    the last line feed is never handed to the handler, so a body without
    any line feed delivers no event, however it is cut into chunks. *)
Theorem unterminated_line_is_dropped `{JSON} (values : list (list Byte.byte)) :
  let text := snd (decode newTextDecoder (concat values)) in
  deliveredEvents values = omap lineEvent (removelast (split_lf text))
  /\ (10%N ∉ text -> deliveredEvents values = []).
Proof.
  cbn zeta. unfold deliveredEvents.
  rewrite readChunks_concat by reflexivity. unfold readChunk, initialLoopState.
  destruct (decode newTextDecoder (concat values)) as [d text]. cbn [fst snd app].
  split; [reflexivity|]. intros Hno. rewrite split_lf_no_lf by exact Hno. reflexivity.
Qed.

Lemma unterminated_line_is_dropped_witness :
  let values := [bytes "data: "; payload "{'event_type':'chunk','text':'hi'}"] in
  (10%N ∉ snd (decode newTextDecoder (concat values)))
  /\ deliveredEvents values = [].
Proof.
  assert (Hno : 10%N ∉ snd (decode newTextDecoder
            (concat [bytes "data: "; payload "{'event_type':'chunk','text':'hi'}"]))).
  { refine (bool_decide_unpack (10%N ∉ _) _). vm_compute. exact I. }
  split; [exact Hno|].
  destruct (unterminated_line_is_dropped
              [bytes "data: "; payload "{'event_type':'chunk','text':'hi'}"]) as [_ Hdrop].
  exact (Hdrop Hno).
Defined.

(** ** Settling without a placeholder in the chat area *)

Section Detached.
Context `{Layout}.

Lemma replaceChild_absent (new : Node) (r : nat) (l : list Node) :
  StreamingResponseEl r ∉ l -> replaceChild new r l = None.
Proof.
  induction l as [|n l IH]; [reflexivity|]. rewrite not_elem_of_cons. intros [Hn Hl].
  destruct n; cbn; rewrite ?IH by exact Hl; try reflexivity.
  rewrite decide_False by congruence. reflexivity.
Qed.

(** X11. When the placeholder the manager holds is no longer a child of
    the chat area (the transcript was cleared while the response was
    streamed) and it has accumulated text, settling fails: replacing the
    placeholder throws [NotFoundError]. The streaming flag is already
    off by then, but nothing is committed, the chat area keeps its
    children and the manager keeps all four of its references. The same holds for a
    [complete] event. *)
Theorem settle_detached_placeholder_throws (p : Page) (r t : nat) (ev : JSValue) :
  streamingResponse (streamingManager p) = Some r ->
  streamingText (streamingManager p) = Some t ->
  textOf (chatMessages p) t <> [] ->
  StreamingResponseEl r ∉ children (chatMessages p) ->
  eventType ev = Some (js "complete") ->
  exists e q,
    completeStreaming p = (Throw e, q)
    /\ handleStreamingEvent ev p = (Throw e, q)
    /\ errKind e = NotFoundError
    /\ isStreaming (streamingManager q) = false
    /\ streamingResponse (streamingManager q) = Some r
    /\ children (chatMessages q) = children (chatMessages p)
    /\ streamingText (streamingManager q) = Some t
    /\ typingIndicator (streamingManager q) = typingIndicator (streamingManager p)
    /\ thinkingIndicator (streamingManager q) = thinkingIndicator (streamingManager p).
Proof.
  intros Hr Ht Hne Hnot Hev.
  assert (Hrun : exists e q, completeStreaming p = (Throw e, q)
            /\ errKind e = NotFoundError
            /\ isStreaming (streamingManager q) = false
            /\ streamingResponse (streamingManager q) = Some r
            /\ children (chatMessages q) = children (chatMessages p)
            /\ streamingText (streamingManager q) = Some t
            /\ typingIndicator (streamingManager q) = typingIndicator (streamingManager p)
            /\ thinkingIndicator (streamingManager q)
               = thinkingIndicator (streamingManager p)).
  { unfold completeStreaming, setIsStreaming, setStreamingRefs, scrollToBottom. eff.
    page_simpl. rewrite Hr, Ht.
    assert (Htext : forall ty, textOf (alterEl (fun e =>
        mkStreamingEl (thinkingHidden e) (textHidden e) (typingHidden e) true
          (textContent e)) ty (chatMessages p)) t = textOf (chatMessages p) t).
    { intros ty. apply textOf_alterEl. reflexivity. }
    destruct (typingIndicator (streamingManager p)) as [ty|] eqn:Ety; eff; page_simpl;
      rewrite ?Htext;
      destruct (textOf (chatMessages p) t) as [|ch text] eqn:Etext; try congruence;
      eff; page_simpl; rewrite (replaceChild_absent _ r _ Hnot); eff;
      (eexists; eexists; split; [reflexivity|]); page_simpl; rewrite ?Hr, ?Ht, ?Ety;
      repeat split. }
  destruct Hrun as (e & q & Hrun & Hrest). exists e, q.
  split; [exact Hrun|]. split; [|exact Hrest].
  apply eventType_Get in Hev. unfold handleStreamingEvent. rewrite Hev. exact Hrun.
Qed.

End Detached.

Lemma settle_detached_placeholder_throws_witness :
  let p := clearedWhileStreaming in
  (streamingResponse (streamingManager p) = Some 0%nat
   /\ streamingText (streamingManager p) = Some 0%nat
   /\ textOf (chatMessages p) 0 = js "hi"
   /\ children (chatMessages p) = [])
  /\ exists e q,
       completeStreaming p = (Throw e, q)
       /\ handleStreamingEvent completeEvent p = (Throw e, q)
       /\ errKind e = NotFoundError
       /\ isStreaming (streamingManager q) = false
       /\ streamingResponse (streamingManager q) = Some 0%nat
       /\ children (chatMessages q) = children (chatMessages p)
       /\ streamingText (streamingManager q) = Some 0%nat
       /\ typingIndicator (streamingManager q) = typingIndicator (streamingManager p)
       /\ thinkingIndicator (streamingManager q) = thinkingIndicator (streamingManager p).
Proof.
  split; [repeat split|].
  apply (settle_detached_placeholder_throws clearedWhileStreaming 0 0 completeEvent
           eq_refl eq_refl).
  - vm_compute. discriminate.
  - apply not_elem_of_nil.
  - reflexivity.
Defined.

(** ** Starting and resuming sessions *)

(** What [resetChatSession] does, as one run. *)
Lemma reset_removes_session_id_run (net : FetchOutcome) (p : Page) :
  exists p0,
    resetChatSession net p = (Normal tt, p0)
    /\ localStorage p0 = delete storageKey (localStorage p)
    /\ requests p0 = requests p ++ [PostClearSession]
    /\ chatMessages p0 = chatMessages p
    /\ sessionManager p0 = sessionManager p.
Proof.
  unfold resetChatSession, try_catch, fetch, log.
  destruct net as [e|r]; eff; eexists; (split; [reflexivity|]); repeat split.
Qed.

(** X12. Starting a new session never reuses the persisted id. Whenever
    [startNewSession] returns, it returns normally with an id that was
    synthesized by this call (timestamp and random segments first, at
    least 33 characters); that id replaces whatever the storage held, the
    manager holds it and is marked as new, and the one request issued is
    the notification of the server. The call does return when no random
    draw reads as the bare [0] and 33 turns of padding are allowed. *)
Theorem startNewSession_generates_fresh_id (fuel : nat) (now : Z)
    (random36 : nat -> string) (net : FetchOutcome) (p : Page) :
  ((forall i, 3 <= length (js (random36 i)))%nat -> (33 <= fuel)%nat ->
   is_Some (startNewSession fuel now random36 net p))
  /\ forall c p1,
       startNewSession fuel now random36 net p = Some (c, p1) ->
       exists id,
         c = Normal id
         /\ (33 <= length id)%nat
         /\ freshSessionId now random36 `prefix_of` id
         /\ localStorage p1 = <[storageKey := id]> (localStorage p)
         /\ sessionManager p1 = mkSessionManager (Some id) true
         /\ requests p1 = requests p ++ [PostClearSession]
         /\ chatMessages p1 = chatMessages p.
Proof.
  unfold startNewSession.
  destruct (reset_removes_session_id_run net p) as (p0 & Hrun & Hst & Hreq & Hchat & Hsm).
  rewrite Hrun. unfold getOrCreateSessionId. rewrite Hst, lookup_delete_eq. split.
  - intros Hr Hf.
    destruct (padSessionId_total fuel random36 2 (freshSessionId now random36)
                (fun i _ => Hr i)) as [id Hid]; [lia|].
    rewrite Hid. cbn. eauto.
  - intros c p1 E.
    destruct (padSessionId fuel random36 2 (freshSessionId now random36)) as [id|] eqn:Ep;
      cbn in E; [|discriminate].
    injection E as <- <-. exists id.
    split; [reflexivity|]. split; [eapply padSessionId_length; exact Ep|].
    split; [eapply padSessionId_prefix; exact Ep|]. page_simpl.
    rewrite Hst, insert_delete_eq. repeat split; assumption.
Qed.

Lemma startNewSession_generates_fresh_id_witness :
  let random36 := fun _ : nat => "0.k3x9q2m"%string in
  let net := FetchRejects networkError in
  let p := with_localStorage (insert storageKey (js "sid")) (freshPage [] (Some (js "sid"))) in
  ((forall i, 3 <= length (js (random36 i)))%nat /\ (33 <= 33)%nat)
  /\ is_Some (startNewSession 33 1700000000000 random36 net p)
  /\ exists p1 id,
       startNewSession 33 1700000000000 random36 net p = Some (Normal id, p1)
       /\ (33 <= length id)%nat
       /\ localStorage p1 !! storageKey = Some id
       /\ sessionManager p1 = mkSessionManager (Some id) true.
Proof.
  split; [split; [intros i; cbn; lia | lia]|].
  destruct (startNewSession_generates_fresh_id 33 1700000000000
              (fun _ : nat => "0.k3x9q2m"%string) (FetchRejects networkError)
              (with_localStorage (insert storageKey (js "sid"))
                 (freshPage [] (Some (js "sid"))))) as [Htotal Hfresh].
  split; [apply Htotal; [intros i; cbn; lia | lia]|].
  destruct (Htotal ltac:(intros i; cbn; lia) ltac:(lia)) as [[c p1] Hrun].
  destruct (Hfresh c p1 Hrun) as (id & -> & Hlen & _ & Hst & Hsm & _).
  exists p1, id. split; [exact Hrun|]. split; [exact Hlen|].
  split; [rewrite Hst; apply lookup_insert_eq | exact Hsm].
Defined.

(** X13. After [initialize] the manager and the storage agree: the id
    the manager holds is the one persisted under the storage key, it is
    not empty, and it is what [getCurrentSessionId] returns; the
    fresh-session flag, the chat area and the requests are untouched.
    Initializing again, at any later time, gives the same id. *)
Theorem initialize_agrees_with_storage (fuel : nat) (now : Z) (random36 : nat -> string)
    (p p1 : Page) (id : jsstring) :
  initialize fuel now random36 p = Some (id, p1) ->
  id <> []
  /\ sessionId (sessionManager p1) = Some id
  /\ localStorage p1 !! storageKey = Some id
  /\ getCurrentSessionId p1 = (Normal (Some id), p1)
  /\ isNewSessionJustCreated (sessionManager p1) = isNewSessionJustCreated (sessionManager p)
  /\ chatMessages p1 = chatMessages p
  /\ requests p1 = requests p
  /\ forall fuel' now' random36',
       exists p2, initialize fuel' now' random36' p1 = Some (id, p2)
                  /\ sessionManager p2 = sessionManager p1
                  /\ localStorage p2 = localStorage p1.
Proof.
  unfold initialize. intros E.
  destruct (getOrCreateSessionId fuel now random36 p) as [[id' p']|] eqn:Eg;
    cbn in E; [|discriminate].
  injection E as -> <-.
  destruct (getOrCreateSessionId_stored _ _ _ _ _ _ Eg) as (Hne & Hst & Hsm & Hreq & Hchat).
  split; [exact Hne|]. split; [reflexivity|]. split; [exact Hst|].
  split; [reflexivity|]. split; [cbn; rewrite Hsm; reflexivity|].
  split; [exact Hchat|]. split; [exact Hreq|].
  intros fuel' now' random36'.
  rewrite (getOrCreateSessionId_persisted fuel' now' random36' _ id Hne); [|exact Hst].
  cbn. eexists. split; [reflexivity|]. split; reflexivity.
Qed.

Lemma initialize_agrees_with_storage_witness :
  let random36 := fun _ : nat => "0.k3x9q2m"%string in
  let id := js "healthmate-chat-1700000000000-k3x9q2m-k3x9q2m" in
  exists p1,
    initialize 33 1700000000000 random36 (freshPage [] None) = Some (id, p1)
    /\ sessionId (sessionManager p1) = Some id
    /\ localStorage p1 !! storageKey = Some id.
Proof.
  eexists. split; [reflexivity|].
  destruct (initialize_agrees_with_storage 33 1700000000000 (fun _ : nat => "0.k3x9q2m"%string)
              (freshPage [] None) _ _ eq_refl) as (_ & Hm & Hs & _).
  split; [exact Hm | exact Hs].
Defined.

(** X14. The session id is shared by the tabs of an origin: once one
    page has resolved an id, every page that sees the same storage
    resolves the same id, whatever its own clock and random draws, and
    writes nothing. *)
Theorem session_id_shared_across_tabs (fuel fuel' : nat) (now now' : Z)
    (random36 random36' : nat -> string) (tabA tabA' tabB : Page) (id : jsstring) :
  getOrCreateSessionId fuel now random36 tabA = Some (id, tabA') ->
  localStorage tabB = localStorage tabA' ->
  getOrCreateSessionId fuel' now' random36' tabB = Some (id, tabB).
Proof.
  intros Ha Hshared.
  destruct (getOrCreateSessionId_stored _ _ _ _ _ _ Ha) as (Hne & Hst & _).
  apply getOrCreateSessionId_persisted; [exact Hne|]. rewrite Hshared. exact Hst.
Qed.

Lemma session_id_shared_across_tabs_witness :
  let id := js "healthmate-chat-1700000000000-k3x9q2m-k3x9q2m" in
  let tabA := freshPage [] None in
  let tabA' := with_localStorage (insert storageKey id) tabA in
  let tabB := with_localStorage (insert storageKey id) (freshPage (js "draft") None) in
  getOrCreateSessionId 33 1700000000000 (fun _ => "0.k3x9q2m"%string) tabA = Some (id, tabA')
  /\ localStorage tabB = localStorage tabA'
  /\ getOrCreateSessionId 0 5 (fun _ => EmptyString) tabB = Some (id, tabB).
Proof.
  split; [reflexivity|]. split; [reflexivity|].
  apply (session_id_shared_across_tabs 33 0 1700000000000 5 (fun _ => "0.k3x9q2m"%string)
           (fun _ => EmptyString) (freshPage [] None)
           (with_localStorage (insert storageKey
              (js "healthmate-chat-1700000000000-k3x9q2m-k3x9q2m")) (freshPage [] None)));
    reflexivity.
Defined.

(** ** Loading the history: what a load ends in *)

Section HistoryEnds.
Context `{Layout}.

Ltac run_history Hs :=
  repeat first
    [ progress unfold loadInitialHistory, isNewSession, showLoadingIndicator, try_catch,
        fetch, responseText, setContent, showAuthenticationError,
        showWelcomeMessage_history, getCurrentSessionId, clearMessages, log,
        showWelcomeMessage, scrollToBottom, httpError, setTimeout
    | progress eff
    | progress page_simpl
    | progress rewrite ?Hs
    | progress cbn [isNewSessionJustCreated sessionId liftE] ].

(** X15. A history load for a session that is not marked as new and has
    an id without unpaired surrogates always returns normally and, once
    the welcome fallback it may start has settled, has not left the
    loading indicator behind: the chat area shows the server's markup
    (which may be empty), the authentication notice or the welcome
    message, or it is empty and the page is on its way to the login
    page. The load issues the history request once, or twice when the
    first attempt failed, both for the manager's id, and touches neither
    the session manager nor the storage. *)
Theorem loadInitialHistory_settles (net netWelcome : FetchOutcome) (p : Page)
    (c : N) (s : jsstring) :
  sessionManager p = mkSessionManager (Some (c :: s)) false ->
  isWellFormed (c :: s) = true ->
  let p' := exec (loadInitialHistory net netWelcome) p in
  let request := GetChatHistory (Some (c :: s)) in
  returns (loadInitialHistory net netWelcome) p = true
  /\ ((exists html, children (chatMessages p') = markup html)
      \/ children (chatMessages p') = [AuthenticationErrorEl]
      \/ children (chatMessages p') = [WelcomeMessageEl]
      \/ (children (chatMessages p') = [] /\ location p' = js "/login"))
  /\ (requests p' = requests p ++ [request]
      \/ requests p' = requests p ++ [request; request])
  /\ sessionManager p' = sessionManager p
  /\ localStorage p' = localStorage p.
Proof. exact (loadInitialHistory_run net netWelcome p c s). Qed.

(** X16. The first answer decides when it can, for a session that is not
    marked as new and has an id without unpaired surrogates: a 2xx
    answer whose body can be read puts exactly the decoded body into the
    chat area (nothing for an answer without body), and a 401 answer
    puts the authentication notice there; in both cases one request was
    issued, no fallback was tried and the location is as it was. *)
Theorem loadInitialHistory_first_answer (r : Response) (netWelcome : FetchOutcome)
    (p : Page) (c : N) (s : jsstring) :
  sessionManager p = mkSessionManager (Some (c :: s)) false ->
  isWellFormed (c :: s) = true ->
  let p' := exec (loadInitialHistory (FetchResolves r) netWelcome) p in
  (ok r = true -> bodyError r = None ->
   children (chatMessages p') = markup (bodyText r)
   /\ requests p' = requests p ++ [GetChatHistory (Some (c :: s))]
   /\ location p' = location p)
  /\ (status r = 401 ->
      children (chatMessages p') = [AuthenticationErrorEl]
      /\ requests p' = requests p ++ [GetChatHistory (Some (c :: s))]
      /\ location p' = location p).
Proof.
  intros Hs Hwf. destruct (historyUrl_wellFormed _ Hwf) as [url Hurl].
  cbn zeta. unfold exec. split.
  - intros Hok Hbe. run_history Hs. rewrite Hurl. run_history Hs. rewrite Hok, Hbe.
    destruct (responseBody r); run_history Hs; repeat split.
  - intros Hst. assert (Hok : ok r = false) by (unfold ok; rewrite Hst; reflexivity).
    run_history Hs. rewrite Hurl. run_history Hs. rewrite Hok, Hst. run_history Hs.
    repeat split.
Qed.

(** X17. A history load that finds no session id yet (null or the empty
    string) on a session not marked as new asks for nothing: it issues
    no request and leaves the chat area alone, and hands one retry of
    itself to the timer, 500 milliseconds later. *)
Theorem loadInitialHistory_waits_for_session (net netWelcome : FetchOutcome) (p : Page) :
  isNewSessionJustCreated (sessionManager p) = false ->
  sessionId (sessionManager p) = None \/ sessionId (sessionManager p) = Some [] ->
  let p' := exec (loadInitialHistory net netWelcome) p in
  returns (loadInitialHistory net netWelcome) p = true
  /\ requests p' = requests p
  /\ chatMessages p' = chatMessages p
  /\ timers p' = timers p ++ [RetryLoadInitialHistory 500].
Proof.
  intros Hnew Hid. cbn zeta. unfold exec, returns.
  destruct Hid as [Hid|Hid]; run_history Hnew; rewrite Hid; run_history Hnew; repeat split.
Qed.


End HistoryEnds.

Lemma loadInitialHistory_settles_witness :
  let p := freshPage [] (Some (js "sid")) in
  let p' := exec (loadInitialHistory (FetchRejects networkError) (FetchRejects networkError)) p in
  sessionManager p = mkSessionManager (Some (js "sid")) false
  /\ isWellFormed (js "sid") = true
  /\ children (chatMessages p') = [WelcomeMessageEl]
  /\ requests p' = [GetChatHistory (Some (js "sid")); GetChatHistory (Some (js "sid"))]
  /\ returns (loadInitialHistory (FetchRejects networkError) (FetchRejects networkError)) p
     = true.
Proof.
  split; [reflexivity|]. split; [reflexivity|]. split; [reflexivity|]. split; [reflexivity|].
  apply (loadInitialHistory_settles (FetchRejects networkError) (FetchRejects networkError)
           (freshPage [] (Some (js "sid"))) 115%N (js "id") eq_refl eq_refl).
Defined.

Lemma loadInitialHistory_first_answer_witness :
  let p := freshPage [] (Some (js "sid")) in
  let unauthorized := mkResponse 401 (js "Unauthorized") [] None in
  sessionManager p = mkSessionManager (Some (js "sid")) false
  /\ isWellFormed (js "sid") = true
  /\ children (chatMessages
       (exec (loadInitialHistory historyResponse (FetchRejects networkError)) p))
     = [ServerHtml (js "<div>history</div>")]
  /\ children (chatMessages
       (exec (loadInitialHistory (FetchResolves unauthorized) (FetchRejects networkError)) p))
     = [AuthenticationErrorEl].
Proof.
  split; [reflexivity|]. split; [reflexivity|]. split.
  - apply (loadInitialHistory_first_answer
             (mkResponse 200 (js "OK") [bytes "<div>history</div>"] None)
             (FetchRejects networkError) (freshPage [] (Some (js "sid"))) 115%N (js "id")
             eq_refl eq_refl); reflexivity.
  - apply (loadInitialHistory_first_answer (mkResponse 401 (js "Unauthorized") [] None)
             (FetchRejects networkError) (freshPage [] (Some (js "sid"))) 115%N (js "id")
             eq_refl eq_refl); reflexivity.
Defined.

Lemma loadInitialHistory_waits_for_session_witness :
  let p := freshPage [] None in
  let p' := exec (loadInitialHistory historyResponse historyResponse) p in
  isNewSessionJustCreated (sessionManager p) = false
  /\ sessionId (sessionManager p) = None
  /\ requests p' = []
  /\ timers p' = [RetryLoadInitialHistory 500].
Proof.
  split; [reflexivity|]. split; [reflexivity|].
  destruct (loadInitialHistory_waits_for_session historyResponse historyResponse
              (freshPage [] None) eq_refl (or_introl eq_refl)) as (_ & Hr & _ & Ht).
  split; [exact Hr | exact Ht].
Defined.

(** ** Keys *)

Lemma handleKeyDown_enter_run (isComposing : bool) (onSubmitMessage onClearChat : Eff unit)
    (e : KeyboardEvent) :
  isComposing || eventIsComposing e || (keyCode e =? 229) = false ->
  key e = js "Enter" ->
  handleKeyDown isComposing onSubmitMessage onClearChat e
  = if negb (shiftKey e) || ctrlKey e || metaKey e
    then onSubmitMessage;; mret true else mret false.
Proof.
  intros Hc Hkey. unfold handleKeyDown, keyIs. rewrite Hc, Hkey.
  rewrite bool_decide_true by reflexivity.
  destruct (shiftKey e), (ctrlKey e), (metaKey e); reflexivity.
Qed.

(** X18. Enter, free of the order of the tests: outside IME composition
    the Enter key sends exactly when Shift is not held or Ctrl or Cmd
    is, and then prevents the default action; Shift+Enter alone is left
    to the browser. In no case is the chat-clearing callback used. *)
Theorem enter_sends_unless_shift_alone (isComposing : bool)
    (onSubmitMessage onClearChat : Eff unit) (e : KeyboardEvent) :
  isComposing = false ->
  eventIsComposing e = false ->
  keyCode e <> 229 ->
  key e = js "Enter" ->
  handleKeyDown isComposing onSubmitMessage onClearChat e
  = if negb (shiftKey e) || ctrlKey e || metaKey e
    then onSubmitMessage;; mret true else mret false.
Proof.
  intros Hc He Hcode Hkey. apply handleKeyDown_enter_run; [|exact Hkey].
  apply Z.eqb_neq in Hcode. rewrite Hc, He, Hcode. reflexivity.
Qed.

Lemma enter_sends_unless_shift_alone_witness :
  let e := mkKeyboardEvent (js "Enter") true true false false 13 in
  handleKeyDown false (handleFormSubmit historyResponse) (mret tt) e
  = if negb (shiftKey e) || ctrlKey e || metaKey e
    then handleFormSubmit historyResponse;; mret true else mret false.
Proof.
  cbv zeta.
  apply (enter_sends_unless_shift_alone false (handleFormSubmit historyResponse) (mret tt)
           (mkKeyboardEvent (js "Enter") true true false false 13) eq_refl eq_refl).
  - discriminate.
  - reflexivity.
Defined.

(** X19. Escape unlocks a send in progress: when no composition is going
    on, the Escape key empties the input and enables the text area and
    the send button whatever their state was, also while they were
    disabled for a send; it prevents the default action, calls neither
    callback and leaves chat area, streaming manager and requests
    alone. *)
Theorem escape_enables_input (onSubmitMessage onClearChat : Eff unit)
    (e : KeyboardEvent) (p : Page) :
  key e = js "Escape" ->
  eventIsComposing e = false ->
  keyCode e <> 229 ->
  exists p',
    handleKeyDown false onSubmitMessage onClearChat e p = (Normal true, p')
    /\ uiManager p' = mkUIManager [] false false
    /\ chatMessages p' = chatMessages p
    /\ streamingManager p' = streamingManager p
    /\ requests p' = requests p.
Proof.
  intros Hkey Hc Hcode.
  unfold handleKeyDown, keyIs. rewrite Hc, Hkey.
  apply Z.eqb_neq in Hcode. rewrite Hcode. cbn [orb].
  rewrite bool_decide_false by discriminate. cbn [andb].
  rewrite bool_decide_true by reflexivity.
  unfold clearInput, setInputDisabled, setTimeout. eff.
  eexists. split; [reflexivity|]. repeat split.
Qed.

Lemma escape_enables_input_witness :
  let e := mkKeyboardEvent (js "Escape") false false false false 27 in
  inputDisabled (uiManager busyPage) = true
  /\ exists p',
       handleKeyDown false (handleFormSubmit historyResponse) (mret tt) e busyPage
       = (Normal true, p')
       /\ uiManager p' = mkUIManager [] false false
       /\ chatMessages p' = chatMessages busyPage
       /\ streamingManager p' = streamingManager busyPage
       /\ requests p' = requests busyPage.
Proof.
  split; [reflexivity|].
  apply (escape_enables_input (handleFormSubmit historyResponse) (mret tt)
           (mkKeyboardEvent (js "Escape") false false false false 27) busyPage eq_refl eq_refl).
  discriminate.
Defined.

(** ** Values that have no string conversion *)

(** What the string conversion throws is always the [TypeError] of a
    failed conversion to a primitive. *)
Lemma ToString_error : forall (v : JSValue) (e : JSError),
  ToString v = inl e -> e = notPrimitive.
Proof.
  fix IH 1. intros [| |[|]|r|s|items|fields] e; cbn [ToString]; try discriminate.
  - revert e. generalize items. fix IHl 1. intros [|x rest] e; [discriminate|].
    cbv beta iota.
    destruct (match x with JUndefined | JNull => inr [] | _ => ToString x end)
      as [e'|sx] eqn:Ex.
    + intros E. injection E as <-. apply (IH x e').
      destruct x; try discriminate Ex; exact Ex.
    + intros E. apply (IHl rest e). destruct rest as [|y rest']; [discriminate E|].
      cbv match in E.
      match type of E with
      | match ?j with inl _ => _ | inr _ => _ end = _ =>
          destruct j; [exact E | discriminate E]
      end.
  - destruct (assoc (js "toString") fields); [|discriminate].
    intros E. injection E as <-. reflexivity.
Qed.

Section Unprintable.
Context `{Layout}.

(** X21. An [error] event whose [error] field has no string conversion
    (an object with a member [toString], or an array that holds one) is
    logged and then makes the handler throw a [TypeError]: no error
    message is added, [completeStreaming] does not run, and apart from
    the console line the page is as it was, so a manager that was
    streaming still is. *)
Theorem error_event_without_report_throws (ev err : JSValue) (e : JSError) (p : Page) :
  eventType ev = Some (js "error") ->
  Get ev (js "error") = inr err ->
  ToString err = inl e ->
  handleStreamingEvent ev p
  = (Throw e, with_console (fun l => l ++ [(console_error, "Streaming error:"%string)]) p)
  /\ errKind e = TypeError.
Proof.
  intros Hev Herr He. apply eventType_Get in Hev. split.
  - unfold handleStreamingEvent. rewrite Hev. cbn [liftE]. eff.
    change ((log console_error "Streaming error:" ≫= fun _ =>
             liftE (Get ev (js "error")) ≫= fun err =>
             liftE (ToString err) ≫= fun report =>
             addErrorMessage (errorPrefix ++ report) ≫= fun _ => completeStreaming) p
            = (Throw e,
               with_console (fun l => l ++ [(console_error, "Streaming error:"%string)]) p)).
    rewrite Herr. cbn [liftE]. unfold log. eff. rewrite He. reflexivity.
  - rewrite (ToString_error err e He). reflexivity.
Qed.

(** X22. A chunk whose text is truthy but has no string conversion, met
    while a response is streamed, makes the handler throw a [TypeError]
    and adds nothing: the pending entry keeps its text and stays the
    last entry, the manager keeps streaming into it, and the rest of the
    transcript is as it was. *)
Theorem chunk_without_conversion_throws (base : list Node) (r0 : nat) (text : jsstring)
    (ev : JSValue) (e : JSError) (q : Page) :
  Streamed base r0 text q ->
  isChunkEvent ev ->
  chunkText ev = inl e ->
  exists q',
    handleStreamingEvent ev q = (Throw e, q')
    /\ errKind e = TypeError
    /\ Streamed base r0 text q'
    /\ transcript q' = transcript q.
Proof.
  intros Hq Hev He.
  destruct (chunk_event_streamed base r0 text ev q Hq Hev) as (q' & Hrun & Hq').
  rewrite streamedText_chunk, He, app_nil_r in Hq' by exact Hev. rewrite He in Hrun.
  exists q'. split; [exact Hrun|]. split.
  - unfold chunkText in He.
    destruct (Get ev (js "text")) as [e'|x] eqn:Hx.
    + destruct ev; cbn in Hx, Hev; discriminate.
    + destruct (ToBoolean x); [|discriminate].
      rewrite (ToString_error x e He). reflexivity.
  - split; [exact Hq'|].
    rewrite (Streamed_transcript base r0 text q Hq).
    apply (Streamed_transcript base r0 text q' Hq').
Qed.

End Unprintable.

Lemma error_event_without_report_throws_witness :
  let err := JObj [(js "toString", JStr (js "x"))] in
  let ev := JObj [(js "event_type", JStr (js "error")); (js "error", err)] in
  eventType ev = Some (js "error")
  /\ Get ev (js "error") = inr err
  /\ ToString err = inl notPrimitive
  /\ handleStreamingEvent ev streamingPage
     = (Throw notPrimitive,
        with_console (fun l => l ++ [(console_error, "Streaming error:"%string)])
          streamingPage)
  /\ isStreaming (streamingManager
       (with_console (fun l => l ++ [(console_error, "Streaming error:"%string)])
          streamingPage)) = true.
Proof.
  split; [reflexivity|]. split; [reflexivity|]. split; [reflexivity|].
  split; [|reflexivity].
  exact (proj1 (error_event_without_report_throws
                  (JObj [(js "event_type", JStr (js "error"));
                         (js "error", JObj [(js "toString", JStr (js "x"))])])
                  (JObj [(js "toString", JStr (js "x"))]) notPrimitive streamingPage
                  eq_refl eq_refl eq_refl)).
Defined.

Lemma chunk_without_conversion_throws_witness :
  let ev := JObj [(js "event_type", JStr (js "chunk"));
                  (js "text", JArr [JNum (js "1"); JObj [(js "toString", JNull)]])] in
  Streamed [] 0 (js "hi") streamingPage
  /\ isChunkEvent ev
  /\ chunkText ev = inl notPrimitive
  /\ exists q',
       handleStreamingEvent ev streamingPage = (Throw notPrimitive, q')
       /\ errKind notPrimitive = TypeError
       /\ Streamed [] 0 (js "hi") q'
       /\ transcript q' = transcript streamingPage.
Proof.
  split; [exact streamingPage_streamed|]. split; [reflexivity|]. split; [reflexivity|].
  exact (chunk_without_conversion_throws [] 0 (js "hi")
           (JObj [(js "event_type", JStr (js "chunk"));
                  (js "text", JArr [JNum (js "1"); JObj [(js "toString", JNull)]])])
           notPrimitive streamingPage streamingPage_streamed eq_refl eq_refl).
Defined.

(** ** A response without body *)

(** X23. A send with text in the input, on a page whose manager is not
    streaming, that is answered with a 2xx status that has no body (204
    or 205) fails before streaming starts: reading [response.body]
    throws, so the transcript gains the user message and one error
    message, no placeholder is created, the streaming manager is
    untouched and the send path returns normally. *)
Theorem bodiless_answer_reports_error `{Layout} `{JSON} (r : Response) (p : Page)
    (c : N) (s : jsstring) :
  trim (inputValue (uiManager p)) = c :: s ->
  isStreaming (streamingManager p) = false ->
  ok r = true ->
  responseBody r = None ->
  let p' := exec (handleFormSubmit (FetchResolves r)) p in
  returns (handleFormSubmit (FetchResolves r)) p = true
  /\ (exists message,
        children (chatMessages p') =
          children (chatMessages p)
            ++ [MessageEl user (c :: s); MessageEl error (sendErrorPrefix ++ message)])
  /\ elements (chatMessages p') = elements (chatMessages p)
  /\ streamingManager p' = streamingManager p.
Proof.
  intros Htrim Hs Hok Hbody. cbn zeta.
  unfold exec, returns, handleFormSubmit, getCurrentMessage.
  eff. rewrite Htrim.
  repeat first
    [ progress unfold setInputDisabled, addUserMessage, clearInputAndMaintainFocus,
        scrollToBottom, setTimeout, try_finally, try_catch, submitTry,
        getCurrentSessionId, fetch, submitCatch, submitFinally, getIsStreaming, log,
        addErrorMessage
    | progress eff
    | progress page_simpl
    | progress rewrite ?Hs, ?Hok, ?Hbody
    | progress cbn [negb errMessage] ].
  split; [reflexivity|]. split; [|split; reflexivity].
  eexists. rewrite <- app_assoc. reflexivity.
Qed.

Lemma bodiless_answer_reports_error_witness :
  let r := mkResponse 204 (js "No Content") [] None in
  let p' := exec (handleFormSubmit (FetchResolves r)) helloPage in
  trim (inputValue (uiManager helloPage)) = js "hello"
  /\ isStreaming (streamingManager helloPage) = false
  /\ ok r = true
  /\ responseBody r = None
  /\ returns (handleFormSubmit (FetchResolves r)) helloPage = true
  /\ streamingManager p' = streamingManager helloPage.
Proof.
  split; [reflexivity|]. split; [reflexivity|]. split; [reflexivity|]. split; [reflexivity|].
  destruct (bodiless_answer_reports_error (mkResponse 204 (js "No Content") [] None)
              helloPage 104%N (js "ello") eq_refl eq_refl eq_refl eq_refl)
    as (Hret & _ & _ & Hm).
  split; [exact Hret | exact Hm].
Defined.

(** ** A placeholder that was left behind *)

(** A response that completes without any text leaves its placeholder in
    the chat area, and since the sub-elements of a placeholder are found
    by their ids, the text of the next response goes into that first
    placeholder: it is committed, and the old placeholder shows it as
    well. This is why the statements about one send are made for pages
    without such a placeholder. *)
Example leftover_placeholder_collects_text :
  let silent := mkResponse 200 (js "OK") [sseLine "{'event_type':'complete'}"] None in
  let once := exec (handleFormSubmit (FetchResolves silent)) helloPage in
  let again := with_uiManager (fun _ => mkUIManager (js "again") false false) once in
  transcript once = [Committed user (js "hello"); Pending []]
  /\ transcript (exec (handleFormSubmit (FetchResolves completeResponse)) again)
     = [Committed user (js "hello"); Pending (js "hi there");
        Committed user (js "again"); Committed assistant (js "hi there")].
Proof. split; vm_compute; reflexivity. Qed.
